(** * Sanchar-Optimize backend: modality orchestration, signal-drop
      prediction and telemetry buffering

    A shallow embedding of the decision pipeline of the backend:

    - [app/core/config.py]                    (module [settings])
    - [app/models/modality.py], [app/models/telemetry.py]
    - [app/aws/bedrock_client.py]             (class [BedrockClient])
    - [app/services/modality_orchestrator.py] (class [ModalityOrchestrator])
    - [app/ml/lstm_predictor.py]              (class [LSTMPredictor])
    - [app/services/network_sentry.py]        (class [NetworkSentryAgent])

    Conventions of the embedding.

    - Python [float] values are exact rationals ([Q]); every threshold the
      code compares against is a short decimal, written here as the same
      decimal.  A float that the code reads, or that numpy returns, is
      the rational that its shortest decimal notation names, so that
      comparing two such floats is comparing the rationals.  Python [int]
      is [Z].  Where the code computes with
      floats, the statements about the predictor are comparisons with
      thresholds and bounds, which double arithmetic gives as well, and
      no equation between a computed float and a decimal.
    - A Python [dict] keyed by strings that the code uses as a table is a
      [gmap string _]; a dict used as a fixed-shape message is a record.
    - A call that reads the wall clock receives the reading as an argument
      ([now]); the readings taken inside one call are identified.
    - A Python exception is a value of [PyError] in the error monad [Exc].
    - What the Bedrock runtime does during one call (raise, or answer with
      some text) is an argument of the call, and so is the answer of a
      loaded Keras model.
    - [numpy.polyfit] is numpy's, not the backend's: the predictor carries
      it as a function that returns the slope it computes in double
      precision, or raises.  The closed form of the least-squares slope
      ([polyfit_slope]) is what the computed slope is compared with.
    - The text of the f-string that renders the prompt is a section
      variable; that it cannot be rendered for [key_concepts = None] is
      modelled.
    - Log statements, [decision_id] / [prediction_id] (random UUIDs) and the
      creation timestamp of a response are left out. *)

From Stdlib Require Import QArith Qminmax Qabs Qfield Qround ZArith Lia Lqa String Ascii.
From stdpp Require Import base option list gmap strings fin_maps.

Local Open Scope string_scope.
Local Open Scope list_scope.

(* ===================================================================== *)
(** * Python helpers *)
(* ===================================================================== *)

Inductive PyError : Type :=
| ValueError       (* enum lookup with an unknown value *)
| TypeError        (* item assignment on something that is not a dict,
                      [str.join] on [None], numpy on an array of objects *)
| ValidationError. (* pydantic field constraint or field type *)

Definition Exc (A : Type) : Type := (PyError + A)%type.

Definition raise {A : Type} (e : PyError) : Exc A := inl e.

#[global] Instance Exc_ret : MRet Exc := fun _ a => inr a.
#[global] Instance Exc_bind : MBind Exc := fun _ _ k m =>
  match m with
  | inl e => inl e
  | inr a => k a
  end.

(** [d.get(key, default)] on an optional field. *)
Definition get_or {A : Type} (field : option A) (dflt : A) : A :=
  match field with
  | Some v => v
  | None => dflt
  end.

(** [l[-n:]] for a non-negative [n]; note that [l[-0:]] is all of [l]. *)
Definition slice_last {A : Type} (n : nat) (l : list A) : list A :=
  match n with
  | O => l
  | _ => drop (length l - n) l
  end.

(** [l[-count:]] for any Python [int]: a positive [count] keeps the last
    [count] elements, zero keeps all of [l], and a negative [count] drops
    the first [-count] elements. *)
Definition slice_last_int {A : Type} (count : Z) (l : list A) : list A :=
  if (0 <? count)%Z then drop (length l - Z.to_nat count) l
  else drop (Z.to_nat (- count)) l.

(** [x or dflt] on an optional number: [None] and zero are falsy. *)
Definition Z_or (x : option Z) (dflt : Z) : Z :=
  match x with
  | Some v => if (v =? 0)%Z then dflt else v
  | None => dflt
  end.

Definition Q_or (x : option Q) (dflt : Q) : Q :=
  match x with
  | Some v => if Qeq_bool v 0 then dflt else v
  | None => dflt
  end.

(** [int(x)]: truncation towards zero. *)
Definition py_int (x : Q) : Z :=
  if Qle_bool 0 x then Qfloor x else Qceiling x.

(** Comparisons of floats, as booleans. *)
Definition Qltb (x y : Q) : bool := negb (Qle_bool y x).
Definition Qleb (x y : Q) : bool := Qle_bool x y.
Definition Qgeb (x y : Q) : bool := Qle_bool y x.
Definition Qgtb (x y : Q) : bool := negb (Qle_bool x y).
Definition Qneqb (x y : Q) : bool := negb (Qeq_bool x y).

(** [needle in hay] on strings. *)
Fixpoint contains (needle hay : string) : bool :=
  if String.prefix needle hay then true
  else match hay with
       | EmptyString => false
       | String _ rest => contains needle rest
       end.

Definition lower_ascii (c : ascii) : ascii :=
  let n := nat_of_ascii c in
  if (65 <=? n)%nat && (n <=? 90)%nat then ascii_of_nat (n + 32) else c.

(** [s.lower()] on the ASCII letters. *)
Fixpoint lower (s : string) : string :=
  match s with
  | EmptyString => EmptyString
  | String c rest => String (lower_ascii c) (lower rest)
  end.

(* ===================================================================== *)
(** * app/core/config.py *)
(* ===================================================================== *)

Module settings.
Definition PREDICTION_THRESHOLD : Q := 0.75.
Definition HIGH_SPEED_THRESHOLD_KMH : Q := 60.0.
Definition MONITORING_FREQUENCY_HZ : Z := 1.
Definition HIGH_SPEED_MONITORING_FREQUENCY_HZ : Z := 4.
Definition VIDEO_MIN_BANDWIDTH : Q := 1000.
Definition AUDIO_MIN_BANDWIDTH : Q := 500.
Definition BEDROCK_MAX_TOKENS : Z := 4096.
Definition BEDROCK_TEMPERATURE : Q := 0.7.
End settings.

(* ===================================================================== *)
(** * app/models/modality.py *)
(* ===================================================================== *)

Inductive Modality : Type := VIDEO | AUDIO | TEXT_SUMMARY.

Inductive TransitionTiming : Type := IMMEDIATE | WAIT_2S | WAIT_5S.

#[global] Instance Modality_eq_dec : EqDecision Modality.
Proof. solve_decision. Defined.

#[global] Instance TransitionTiming_eq_dec : EqDecision TransitionTiming.
Proof. solve_decision. Defined.

(** [m.value] *)
Definition Modality_value (m : Modality) : string :=
  match m with
  | VIDEO => "VIDEO"
  | AUDIO => "AUDIO"
  | TEXT_SUMMARY => "TEXT_SUMMARY"
  end.

Definition TransitionTiming_value (t : TransitionTiming) : string :=
  match t with
  | IMMEDIATE => "IMMEDIATE"
  | WAIT_2S => "WAIT_2S"
  | WAIT_5S => "WAIT_5S"
  end.

(** [Modality(s)]: lookup by value, [ValueError] when no member has it. *)
Definition Modality_of (s : string) : Exc Modality :=
  if String.eqb s "VIDEO" then mret VIDEO
  else if String.eqb s "AUDIO" then mret AUDIO
  else if String.eqb s "TEXT_SUMMARY" then mret TEXT_SUMMARY
  else raise ValueError.

Definition TransitionTiming_of (s : string) : Exc TransitionTiming :=
  if String.eqb s "IMMEDIATE" then mret IMMEDIATE
  else if String.eqb s "WAIT_2S" then mret WAIT_2S
  else if String.eqb s "WAIT_5S" then mret WAIT_5S
  else raise ValueError.

Record ModalityDecisionRequest : Type := {
  dr_device_id : string;
  dr_session_id : string;
  dr_content_id : string;
  dr_content_position : Q;
  dr_available_bandwidth_kbps : Q;
  dr_predicted_signal_drop : bool;
  dr_prediction_confidence : Q;
  dr_time_to_signal_drop : option Q;
  dr_content_description : option string;
  dr_key_concepts : option (list string);  (* Optional[list[str]] *)
  dr_visual_dependency_score : Q;
  dr_current_modality : Modality;
  dr_transition_history : list string
}.

Record ModalityDecisionResponse : Type := {
  target_modality : Modality;
  transition_timing : TransitionTiming;
  reasoning : string;
  fallback_strategy : option string;
  decision_confidence : Q;
  model_used : string;
  processing_time_ms : option Z
}.

(** The constructor of [ModalityDecisionResponse]: pydantic checks
    [decision_confidence] against [ge=0.0, le=1.0]. *)
Definition new_ModalityDecisionResponse
    (tm : Modality) (tt : TransitionTiming) (why : string)
    (fb : option string) (conf : Q) (model : string) (ms : option Z)
  : Exc ModalityDecisionResponse :=
  if Qleb 0.0 conf && Qleb conf 1.0 then
    mret {| target_modality := tm; transition_timing := tt;
            reasoning := why; fallback_strategy := fb;
            decision_confidence := conf; model_used := model;
            processing_time_ms := ms |}
  else raise ValidationError.

Record PanicSignalRequest : Type := {
  pr_device_id : string;
  pr_session_id : string;
  pr_content_id : string;
  pr_content_position : Q;
  pr_current_modality : Modality;
  pr_current_bandwidth_kbps : Q;
  pr_is_buffering : bool;
  pr_buffer_level_seconds : Q
}.

(** One entry of [ModalityStatus.transition_history]. *)
Record TransitionRecord : Type := {
  tr_from : string;
  tr_to : string;
  tr_timestamp : Q;
  tr_position : Q;
  tr_success : bool
}.

Record ModalityStatus : Type := {
  st_session_id : string;
  st_device_id : string;
  st_content_id : string;
  st_current_modality : Modality;
  st_content_position : Q;
  st_last_transition_timestamp : option Q;
  st_transition_count : Z;
  st_transition_history : list TransitionRecord;
  st_total_buffering_events : Z;
  st_successful_transitions : Z;
  st_failed_transitions : Z
}.

(* ===================================================================== *)
(** * app/aws/bedrock_client.py *)
(* ===================================================================== *)

(** The [context] dict that the orchestrator hands to the client. *)
Record DecisionContext : Type := {
  ctx_available_bandwidth_kbps : Q;
  ctx_prediction_confidence : Q;
  ctx_time_to_signal_drop : option Q;
  ctx_content_description : option string;
  ctx_content_position : Q;
  ctx_key_concepts : option (list string);
  ctx_visual_dependency_score : Q;
  ctx_current_modality : string;
  ctx_transition_history : list string
}.

(** The entries of a decision dict that the orchestrator reads, as their
    readers take them; [None] for a key that is absent.  The readers are
    the enums [Modality] and [TransitionTiming], which raise [ValueError]
    on everything but the value of a member, and pydantic, which validates
    the other entries against the field types of
    [ModalityDecisionResponse].  A [target_modality] or
    [transition_timing] that is not a string is held as a string that
    names no member: the enum raises on either. *)
Record DecisionData : Type := {
  dd_target_modality : option string;
  dd_transition_timing : option string;
  dd_reasoning : option string;
  dd_fallback_strategy : option string;
  dd_decision_confidence : option Q;
  dd_model_used : option string;
  dd_processing_time_ms : option Z
}.

(** The text of a model answer, represented by what [json.loads] makes of
    it. *)
Inductive Content : Type :=
| NotJson                       (* json.loads raises JSONDecodeError *)
| JsonObject (d : DecisionData) (* a JSON object whose [reasoning],
                                   [fallback_strategy],
                                   [decision_confidence] and [model_used],
                                   where present, have values that
                                   pydantic takes for the field *)
| JsonOther                     (* valid JSON that is not an object *)
| JsonObjectMistyped (d : DecisionData).
                                (* a JSON object in which one of these
                                   four entries has a value that pydantic
                                   does not take for the field (null or a
                                   number for the reasoning, a list for
                                   the confidence); [d] holds the other
                                   entries *)

(** What [self.client.invoke_model] and the decoding of its answer do on
    one call. *)
Inductive Runtime : Type :=
| Raises                               (* ClientError or any other
                                          exception: API error, timeout,
                                          answer without a text part *)
| Answers (content : Content) (ms : Z).

(** [self.client]: [None] when boto3 is missing or the client could not be
    created. *)
Definition BedrockClient : Type := option Runtime.

(** The dict returned by [invoke_model]. *)
Inductive InvokeResult : Type :=
| InvokeSuccess (content : Content) (ms : Z)
| InvokeFailure.

Definition _get_mock_response (prompt : string) : InvokeResult :=
  let content :=
    if contains "800" prompt || contains "low" (lower prompt) then
      JsonObject
        {| dd_target_modality := Some "AUDIO";
           dd_transition_timing := Some "WAIT_2S";
           dd_reasoning := Some "Bandwidth at 800 Kbps suggests audio modality. Waiting 2s to complete current concept.";
           dd_fallback_strategy := Some "If audio fails, transition to TEXT_SUMMARY";
           dd_decision_confidence := Some 0.85%Q;
           dd_model_used := None;
           dd_processing_time_ms := None |}
    else
      JsonObject
        {| dd_target_modality := Some "VIDEO";
           dd_transition_timing := Some "IMMEDIATE";
           dd_reasoning := Some "Sufficient bandwidth to maintain video quality.";
           dd_fallback_strategy := Some "Monitor for degradation";
           dd_decision_confidence := Some 0.90%Q;
           dd_model_used := None;
           dd_processing_time_ms := None |}
  in InvokeSuccess content 300.

Definition invoke_model (client : BedrockClient) (prompt : string)
  : InvokeResult :=
  match client with
  | None => _get_mock_response prompt
  | Some Raises => InvokeFailure
  | Some (Answers content ms) => InvokeSuccess content ms
  end.

(** The request body that [invoke_model] sends to the runtime. *)
Record RequestBody : Type := {
  rb_anthropic_version : string;
  rb_max_tokens : Z;
  rb_temperature : Q;
  rb_messages : list (string * string);  (* role, content *)
  rb_system : option string               (* [None]: no "system" key *)
}.

(** The body built by [invoke_model] for a client whose configured
    defaults are [settings.BEDROCK_MAX_TOKENS] and
    [settings.BEDROCK_TEMPERATURE]. *)
Definition invoke_model_request_body
    (prompt : string) (system_prompt : option string)
    (max_tokens : option Z) (temperature : option Q)
  : RequestBody :=
  {| rb_anthropic_version := "bedrock-2023-05-31";
     rb_max_tokens := Z_or max_tokens settings.BEDROCK_MAX_TOKENS;
     rb_temperature := Q_or temperature settings.BEDROCK_TEMPERATURE;
     rb_messages := [("user", prompt)];
     rb_system :=
       match system_prompt with
       | Some text => if String.eqb text EmptyString then None else Some text
       | None => None
       end |}.

Definition _get_fallback_decision (context : DecisionContext)
  : DecisionData :=
  let bandwidth := ctx_available_bandwidth_kbps context in
  let visual_dependency := ctx_visual_dependency_score context in
  let '(target_modality, timing, reasoning) :=
    if Qgeb bandwidth 1000 && Qltb visual_dependency 0.7 then
      ("VIDEO", "IMMEDIATE",
       "Sufficient bandwidth and low visual dependency. Maintain video.")
    else if Qgeb bandwidth 500 then
      ("AUDIO", "WAIT_2S",
       "Moderate bandwidth. Transition to audio after current segment.")
    else
      ("TEXT_SUMMARY", "IMMEDIATE",
       "Low bandwidth. Immediate transition to text summary.")
  in
  {| dd_target_modality := Some target_modality;
     dd_transition_timing := Some timing;
     dd_reasoning :=
       Some (reasoning ++ " [Fallback rule-based decision]")%string;
     dd_fallback_strategy := Some "Continue with best-effort delivery";
     dd_decision_confidence := Some 0.6%Q;
     dd_model_used := Some "rule-based-fallback";
     dd_processing_time_ms := None |}.

(** The dict that [get_modality_decision] returns: its entries, and
    whether pydantic takes the values of all of them for their fields. *)
Record DecisionDict : Type := {
  dict_entries : DecisionData;
  dict_typed : bool
}.

Section Bedrock.

(** The text that the f-string of [_build_modality_decision_prompt]
    renders for a context whose [key_concepts] is a list.  Only the mock
    answer of a client-less [BedrockClient] inspects the text, so the
    rendering is kept abstract. *)
Variable prompt_text : DecisionContext -> string.

(** [', '.join(context.get('key_concepts', []))] raises [TypeError] when
    the key is there with the value [None]; every other placeholder of
    the f-string renders whatever the request holds. *)
Definition _build_modality_decision_prompt (context : DecisionContext)
  : Exc string :=
  match ctx_key_concepts context with
  | Some _ => mret (prompt_text context)
  | None => raise TypeError
  end.

Definition with_processing_time (decision : DecisionData) (ms : Z)
  : DecisionData :=
  {| dd_target_modality := dd_target_modality decision;
     dd_transition_timing := dd_transition_timing decision;
     dd_reasoning := dd_reasoning decision;
     dd_fallback_strategy := dd_fallback_strategy decision;
     dd_decision_confidence := dd_decision_confidence decision;
     dd_model_used := dd_model_used decision;
     dd_processing_time_ms := Some ms |}.

Definition get_modality_decision
    (client : BedrockClient) (context : DecisionContext)
  : Exc DecisionDict :=
  prompt ← _build_modality_decision_prompt context;
  match invoke_model client prompt with
  | InvokeSuccess content ms =>
      match content with
      | JsonObject decision =>
          mret {| dict_entries := with_processing_time decision ms;
                  dict_typed := true |}
      | JsonObjectMistyped decision =>
          mret {| dict_entries := with_processing_time decision ms;
                  dict_typed := false |}
      | NotJson =>
          mret {| dict_entries := _get_fallback_decision context;
                  dict_typed := true |}
      | JsonOther => raise TypeError
      end
  | InvokeFailure =>
      mret {| dict_entries := _get_fallback_decision context;
              dict_typed := true |}
  end.

End Bedrock.

(* ===================================================================== *)
(** * app/services/modality_orchestrator.py *)
(* ===================================================================== *)

(** [self.session_states], keyed by [session_id]. *)
Abbreviation SessionStates := (gmap string ModalityStatus).

Definition _update_session_state
    (session_states : SessionStates)
    (session_id device_id content_id : string)
    (from_modality to_modality : Modality)
    (content_position : Q) (success : bool) (now : Q)
  : SessionStates :=
  let status :=
    match session_states !! session_id with
    | Some status => status
    | None =>
        {| st_session_id := session_id;
           st_device_id := device_id;
           st_content_id := content_id;
           st_current_modality := to_modality;
           st_content_position := content_position;
           st_last_transition_timestamp := Some now;
           st_transition_count := 0;
           st_transition_history := [];
           st_total_buffering_events := 0;
           st_successful_transitions := 0;
           st_failed_transitions := 0 |}
    end in
  let '(count, history, succeeded, failed) :=
    if decide (from_modality <> to_modality) then
      let appended :=
        (st_transition_history status ++
         [ {| tr_from := Modality_value from_modality;
              tr_to := Modality_value to_modality;
              tr_timestamp := now;
              tr_position := content_position;
              tr_success := success |} ])%list in
      ((st_transition_count status + 1)%Z,
       (if (10 <? length appended)%nat then slice_last 10 appended
        else appended),
       (if success then (st_successful_transitions status + 1)%Z
        else st_successful_transitions status),
       (if success then st_failed_transitions status
        else (st_failed_transitions status + 1)%Z))
    else
      (st_transition_count status, st_transition_history status,
       st_successful_transitions status, st_failed_transitions status) in
  <[ session_id :=
       {| st_session_id := st_session_id status;
          st_device_id := st_device_id status;
          st_content_id := st_content_id status;
          st_current_modality := to_modality;
          st_content_position := content_position;
          st_last_transition_timestamp := Some now;
          st_transition_count := count;
          st_transition_history := history;
          st_total_buffering_events := st_total_buffering_events status;
          st_successful_transitions := succeeded;
          st_failed_transitions := failed |} ]> session_states.

Definition _get_safe_fallback_decision (request : ModalityDecisionRequest)
  : ModalityDecisionResponse :=
  let bandwidth := dr_available_bandwidth_kbps request in
  let '(target, why) :=
    if Qgeb bandwidth settings.VIDEO_MIN_BANDWIDTH then
      (VIDEO, "Sufficient bandwidth. Maintaining video. [Fallback decision]")
    else if Qgeb bandwidth settings.AUDIO_MIN_BANDWIDTH then
      (AUDIO,
       "Moderate bandwidth. Transitioning to audio. [Fallback decision]")
    else
      (TEXT_SUMMARY,
       "Low bandwidth. Transitioning to text summary. [Fallback decision]")
  in
  {| target_modality := target;
     transition_timing := IMMEDIATE;
     reasoning := why;
     fallback_strategy := Some "Continue best-effort delivery";
     decision_confidence := 0.6;
     model_used := "rule-based-fallback";
     processing_time_ms := Some 5%Z |}.

Definition handle_panic_signal
    (session_states : SessionStates) (request : PanicSignalRequest) (now : Q)
  : SessionStates * ModalityDecisionResponse :=
  let bandwidth := pr_current_bandwidth_kbps request in
  let buffer_level := pr_buffer_level_seconds request in
  let '(target, timing, why, confidence) :=
    if Qltb bandwidth settings.AUDIO_MIN_BANDWIDTH || Qltb buffer_level 1.0
    then
      (TEXT_SUMMARY, IMMEDIATE,
       "Critical network failure. Immediate transition to text summary to prevent complete interruption.",
       0.95%Q)
    else if Qltb bandwidth settings.VIDEO_MIN_BANDWIDTH then
      (AUDIO, IMMEDIATE,
       "Severe bandwidth degradation. Immediate transition to audio to maintain content flow.",
       0.90%Q)
    else
      (pr_current_modality request, WAIT_2S,
       "Bandwidth still acceptable. Monitoring situation before transition.",
       0.80%Q)
  in
  let response :=
    {| target_modality := target;
       transition_timing := timing;
       reasoning := why;
       fallback_strategy := Some "If fails, escalate to next lower modality";
       decision_confidence := confidence;
       model_used := "rule-based-panic-handler";
       processing_time_ms := Some 10%Z |} in
  (_update_session_state session_states
     (pr_session_id request) (pr_device_id request) (pr_content_id request)
     (pr_current_modality request) target
     (pr_content_position request) true now,
   response).

Definition get_session_status
    (session_states : SessionStates) (session_id : string)
  : option ModalityStatus :=
  session_states !! session_id.

Definition clear_session
    (session_states : SessionStates) (session_id : string)
  : SessionStates :=
  match session_states !! session_id with
  | Some _ => delete session_id session_states
  | None => session_states
  end.

Section Decide.

Variable prompt_text : DecisionContext -> string.

(** The [try] block of [decide_modality_transition] up to the response.
    [elapsed_ms] is the processing time that the method measures itself.
    Nothing in it reads or writes [self.session_states]. *)
Definition decide_try
    (request : ModalityDecisionRequest)
    (client : BedrockClient) (elapsed_ms : Z)
  : Exc ModalityDecisionResponse :=
  let context :=
    {| ctx_available_bandwidth_kbps := dr_available_bandwidth_kbps request;
       ctx_prediction_confidence := dr_prediction_confidence request;
       ctx_time_to_signal_drop := dr_time_to_signal_drop request;
       ctx_content_description := dr_content_description request;
       ctx_content_position := dr_content_position request;
       ctx_key_concepts := dr_key_concepts request;
       ctx_visual_dependency_score := dr_visual_dependency_score request;
       ctx_current_modality := Modality_value (dr_current_modality request);
       ctx_transition_history := dr_transition_history request |} in
  decision ← get_modality_decision prompt_text client context;
  let decision_data := dict_entries decision in
  target ← Modality_of (get_or (dd_target_modality decision_data) "VIDEO");
  timing ← TransitionTiming_of
             (get_or (dd_transition_timing decision_data) "IMMEDIATE");
  if dict_typed decision then
    new_ModalityDecisionResponse target timing
      (get_or (dd_reasoning decision_data) "AI decision reasoning")
      (dd_fallback_strategy decision_data)
      (get_or (dd_decision_confidence decision_data) 0.8%Q)
      (get_or (dd_model_used decision_data) "bedrock-claude-3.5-sonnet")
      (Some (get_or (dd_processing_time_ms decision_data) elapsed_ms))
  else raise ValidationError.

(** The session table is written by the last statement of the [try]
    block, after the response exists; the [except] branch returns the
    safe fallback and leaves the table as it was. *)
Definition decide_modality_transition
    (session_states : SessionStates) (request : ModalityDecisionRequest)
    (client : BedrockClient) (elapsed_ms : Z) (now : Q)
  : SessionStates * ModalityDecisionResponse :=
  match decide_try request client elapsed_ms with
  | inr response =>
      (_update_session_state session_states
         (dr_session_id request) (dr_device_id request)
         (dr_content_id request)
         (dr_current_modality request) (target_modality response)
         (dr_content_position request) true now,
       response)
  | inl _ => (session_states, _get_safe_fallback_decision request)
  end.

End Decide.

(* ===================================================================== *)
(** * app/models/telemetry.py *)
(* ===================================================================== *)

Record NetworkTelemetry : Type := {
  t_device_id : string;
  t_session_id : string;
  t_timestamp : Q;
  t_signal_strength : Q;
  t_latency_ms : Z;
  t_packet_loss_percent : Q;
  t_bandwidth_kbps : Q;
  t_gps_velocity_kmh : Q;
  t_location_hash : option string;
  t_content_id : option string;
  t_content_position : option Q
}.

Record SignalDropPrediction : Type := {
  p_device_id : string;
  p_session_id : string;
  p_timestamp : Q;
  p_confidence : Q;
  p_predicted_time_seconds : Q;
  p_predicted_bandwidth_kbps : Q;
  p_prediction_horizon_seconds : Z;
  p_model_version : string;
  p_predictor_type : string;
  p_features_used : list string
}.

(** The constructor of [SignalDropPrediction]: pydantic checks
    [confidence] in [0, 1], [predicted_time_seconds] in [0, 10] and
    [predicted_bandwidth_kbps >= 0]. *)
Definition new_SignalDropPrediction
    (device_id session_id : string) (timestamp confidence : Q)
    (predicted_time_seconds predicted_bandwidth_kbps : Q)
    (prediction_horizon_seconds : Z)
    (model_version predictor_type : string) (features_used : list string)
  : Exc SignalDropPrediction :=
  if Qleb 0.0 confidence && Qleb confidence 1.0
     && Qleb 0.0 predicted_time_seconds && Qleb predicted_time_seconds 10.0
     && Qleb 0 predicted_bandwidth_kbps
  then
    mret {| p_device_id := device_id;
            p_session_id := session_id;
            p_timestamp := timestamp;
            p_confidence := confidence;
            p_predicted_time_seconds := predicted_time_seconds;
            p_predicted_bandwidth_kbps := predicted_bandwidth_kbps;
            p_prediction_horizon_seconds := prediction_horizon_seconds;
            p_model_version := model_version;
            p_predictor_type := predictor_type;
            p_features_used := features_used |}
  else raise ValidationError.

Record PredictionResponse : Type := {
  prediction : option SignalDropPrediction;
  should_prepare_transition : bool;
  recommended_action : string
}.

Record TelemetryBatch : Type := {
  b_device_id : string;
  b_session_id : string;
  b_telemetry : list NetworkTelemetry
}.

(** The constructor of [TelemetryBatch]: between 1 and 100 points, and
    [validate_device_consistency] wants the batch's [device_id] on every
    point. *)
Definition new_TelemetryBatch
    (device_id session_id : string) (telemetry : list NetworkTelemetry)
  : Exc TelemetryBatch :=
  if (1 <=? length telemetry)%nat && (length telemetry <=? 100)%nat
     && forallb (fun point => String.eqb (t_device_id point) device_id)
          telemetry
  then mret {| b_device_id := device_id;
               b_session_id := session_id;
               b_telemetry := telemetry |}
  else raise ValidationError.

Record PredictionRequest : Type := {
  q_device_id : string;
  q_session_id : string;
  q_recent_telemetry : list NetworkTelemetry
}.

(** The constructor of [PredictionRequest]: between 5 and 30 points. *)
Definition new_PredictionRequest
    (device_id session_id : string) (recent_telemetry : list NetworkTelemetry)
  : Exc PredictionRequest :=
  if (5 <=? length recent_telemetry)%nat
     && (length recent_telemetry <=? 30)%nat
  then mret {| q_device_id := device_id;
               q_session_id := session_id;
               q_recent_telemetry := recent_telemetry |}
  else raise ValidationError.

(* ===================================================================== *)
(** * numpy *)
(* ===================================================================== *)

Definition Qsum (l : list Q) : Q := foldr Qplus 0%Q l.

(** The sample indices [range(n)] as floats. *)
Definition indices (n : nat) : list Q :=
  map (fun i => inject_Z (Z.of_nat i)) (seq 0 n).

(** The slope of the least-squares line through the points [(i, ys[i])],
    in closed form (n Sxy - Sx Sy) / (n Sxx - Sx Sx): the number that
    [np.polyfit(range(len(ys)), ys, 1)[0]] approximates in double
    precision. *)
Definition polyfit_slope (ys : list Q) : Q :=
  let xs := indices (length ys) in
  let n := inject_Z (Z.of_nat (length ys)) in
  let sx := Qsum xs in
  let sy := Qsum ys in
  let sxx := Qsum (map (fun x => x * x)%Q xs) in
  let sxy := Qsum (zip_with Qmult xs ys) in
  ((n * sxy - sx * sy) / (n * sxx - sx * sx))%Q.

(** The intercept of the same line. *)
Definition polyfit_intercept (ys : list Q) : Q :=
  let xs := indices (length ys) in
  let n := inject_Z (Z.of_nat (length ys)) in
  ((Qsum ys - polyfit_slope ys * Qsum xs) / n)%Q.

(** The second argument of a [np.polyfit] call of the predictor: a list
    of Python floats, or a list of Python ints (the latencies, which have
    no upper bound). *)
Inductive Series : Type :=
| Floats (ys : list Q)
| Ints (ys : list Z).

Definition series_values (series : Series) : list Q :=
  match series with
  | Floats ys => ys
  | Ints ys => map inject_Z ys
  end.

(* ===================================================================== *)
(** * app/ml/lstm_predictor.py *)
(* ===================================================================== *)

Module LSTMPredictor.

(** A loaded Keras model: [float(self.model.predict(x)[0][0])] on the
    normalised feature rows, [None] when the call raises. *)
Definition Model : Type := list (list Q) -> option Q.

(** [np.polyfit(range(len(ys)), ys, 1)[0]] as the numpy under the process
    computes it: the slope in double precision, or an exception.  numpy
    raises on a list that it cannot turn into an array of floats, such as
    ints beyond 64 bits, which become an array of Python objects. *)
Definition Polyfit : Type := Series -> Exc Q.

(** [self.model] is [None] when no model file was loaded; [polyfit] is
    the numpy that the methods call. *)
Record t : Type := { model : option Model; polyfit : Polyfit }.

Definition model_version : string := "lstm_v1".
Definition sequence_length : nat := 10.
Definition prediction_horizon : Z := 5.

Definition feature_means : list Q := [0.7; 200.0; 5.0; 2000.0; 30.0]%Q.
Definition feature_stds : list Q := [0.2; 150.0; 8.0; 1500.0; 40.0]%Q.

(** The normalisation is exact here and rounded in the code; nothing
    below compares a normalised value with a number. *)
Definition prepare_features (telemetry_points : list NetworkTelemetry)
  : list (list Q) :=
  map (fun point =>
         let feature_vector :=
           [ t_signal_strength point;
             inject_Z (t_latency_ms point);
             t_packet_loss_percent point;
             t_bandwidth_kbps point;
             t_gps_velocity_kmh point ] in
         zip_with Qdiv (zip_with Qminus feature_vector feature_means)
           feature_stds)
      telemetry_points.

Definition _estimate_time_to_drop (self : t) (features : list (list Q))
  : Exc Q :=
  let signal_strengths := map (fun row => nth 0 row 0%Q) features in
  let dflt := 3.0%Q in
  if (2 <=? length signal_strengths)%nat then
    trend ← polyfit self (Floats signal_strengths);
    if Qltb trend 0 then
      let current_signal :=
        (List.last signal_strengths 0 * nth 0 feature_stds 0
         + nth 0 feature_means 0)%Q in
      if Qgtb current_signal 0.2 then
        let actual_trend := (trend * nth 0 feature_stds 0)%Q in
        let time_to_drop := ((0.2 - current_signal) / actual_trend)%Q in
        mret (Qmax 0.5
                (Qmin (inject_Z prediction_horizon) (Qabs time_to_drop)))
      else mret dflt
    else mret dflt
  else mret dflt.

(** The body of [_predict_with_model] runs inside [try]; any exception,
    of the model, of numpy or of the constructor, makes the method return
    [None]. *)
Definition _predict_with_model
    (self : t) (m : Model) (features : list (list Q))
    (device_id session_id : string) (now : Q)
  : option SignalDropPrediction :=
  match m features with
  | None => None
  | Some drop_probability =>
      match last features ≫= (fun row => row !! 3%nat) with
      | None => None
      | Some bandwidth_feature =>
          let predicted_bandwidth :=
            (bandwidth_feature * nth 3 feature_stds 0
             + nth 3 feature_means 0)%Q in
          if Qgeb drop_probability settings.PREDICTION_THRESHOLD then
            match
              time_to_drop ← _estimate_time_to_drop self features;
              new_SignalDropPrediction device_id session_id now
                drop_probability time_to_drop
                (Qmax 0 predicted_bandwidth)
                prediction_horizon model_version "lstm"
                [ "signal_strength"; "latency_ms";
                  "packet_loss_percent"; "bandwidth_kbps";
                  "gps_velocity_kmh" ]
            with
            | inr p => Some p
            | inl _ => None
            end
          else None
      end
  end.

(** Nothing here is inside a [try]: an exception of [np.polyfit] leaves
    the method. *)
Definition _predict_with_heuristic
    (self : t) (telemetry_points : list NetworkTelemetry)
    (device_id session_id : string) (now : Q)
  : Exc (option SignalDropPrediction) :=
  let signal_strengths := map t_signal_strength telemetry_points in
  let bandwidths := map t_bandwidth_kbps telemetry_points in
  let latencies := map t_latency_ms telemetry_points in
  signal_trend ← polyfit self (Floats signal_strengths);
  bandwidth_trend ← polyfit self (Floats bandwidths);
  latency_trend ← polyfit self (Ints latencies);
  let current_signal := List.last signal_strengths 0%Q in
  let current_bandwidth := List.last bandwidths 0%Q in
  let current_latency := inject_Z (List.last latencies 0%Z) in
  let signal_declining := Qltb signal_trend (-0.05) in
  let bandwidth_declining := Qltb bandwidth_trend (-100) in
  let latency_increasing := Qgtb latency_trend 50 in
  let indicators_triggered :=
    (Nat.b2n signal_declining + Nat.b2n bandwidth_declining
     + Nat.b2n latency_increasing)%nat in
  let base_confidence :=
    if (2 <=? indicators_triggered)%nat then 0.6%Q else 0.0%Q in
  let base_confidence :=
    if Qltb current_signal 0.3 then (base_confidence + 0.2)%Q
    else base_confidence in
  let base_confidence :=
    if Qltb current_bandwidth 500 then (base_confidence + 0.15)%Q
    else base_confidence in
  let base_confidence :=
    if Qgtb current_latency 500 then (base_confidence + 0.15)%Q
    else base_confidence in
  let confidence := Qmin 1.0 base_confidence in
  if Qgeb confidence settings.PREDICTION_THRESHOLD then
    let time_to_drop :=
      if signal_declining && Qneqb signal_trend 0 then
        Qmax 0.5
          (Qmin 5.0 (Qabs ((0.2 - current_signal) / signal_trend)))
      else 3.0%Q in
    let predicted_bandwidth :=
      Qmax 0 (current_bandwidth + bandwidth_trend * 3) in
    p ← new_SignalDropPrediction device_id session_id now
           confidence time_to_drop predicted_bandwidth
           prediction_horizon "heuristic_fallback" "heuristic"
           [ "signal_strength_trend"; "bandwidth_trend";
             "latency_trend" ];
    mret (Some p)
  else mret None.

Definition predict_signal_drop
    (self : t) (telemetry_history : list NetworkTelemetry)
    (device_id session_id : string) (now : Q)
  : Exc (option SignalDropPrediction) :=
  if (length telemetry_history <? sequence_length)%nat then mret None
  else
    let recent_points := slice_last sequence_length telemetry_history in
    let features := prepare_features recent_points in
    match model self with
    | Some m =>
        mret (_predict_with_model self m features device_id session_id now)
    | None =>
        _predict_with_heuristic self recent_points device_id session_id now
    end.

End LSTMPredictor.

(* ===================================================================== *)
(** * app/services/network_sentry.py *)
(* ===================================================================== *)

Module NetworkSentryAgent.

Record t : Type := {
  predictor : LSTMPredictor.t;
  telemetry_buffer : gmap string (list NetworkTelemetry);
  prediction_cache : gmap string SignalDropPrediction
}.

Definition max_buffer_size : nat := 100.
Definition cache_ttl_seconds : Q := 2.

(** [__init__] *)
Definition init (predictor : LSTMPredictor.t) : t :=
  {| predictor := predictor;
     telemetry_buffer := ∅;
     prediction_cache := ∅ |}.

(** The f-string [f"{device_id}:{session_id}"]. *)
Definition session_key (device_id session_id : string) : string :=
  (device_id ++ ":" ++ session_id)%string.

(** [self.telemetry_buffer] is a [defaultdict(list)]: reading a missing
    key through [[]] yields the empty list. *)
Definition ingest_telemetry (self : t) (telemetry : NetworkTelemetry)
  : t * bool :=
  let key := session_key (t_device_id telemetry) (t_session_id telemetry) in
  let appended :=
    (default [] (telemetry_buffer self !! key) ++ [telemetry])%list in
  let kept :=
    if (max_buffer_size <? length appended)%nat
    then slice_last max_buffer_size appended
    else appended in
  ({| predictor := predictor self;
      telemetry_buffer := <[ key := kept ]> (telemetry_buffer self);
      prediction_cache := prediction_cache self |},
   true).

Definition ingest_telemetry_batch (self : t) (batch : list NetworkTelemetry)
  : t * Z :=
  foldl (fun '(agent, success_count) telemetry =>
           let '(agent', ok) := ingest_telemetry agent telemetry in
           (agent', if ok then (success_count + 1)%Z else success_count))
        (self, 0%Z) batch.

Definition get_recent_telemetry
    (self : t) (device_id session_id : string) (count : nat)
  : list NetworkTelemetry :=
  let key := session_key device_id session_id in
  let telemetry_list := default [] (telemetry_buffer self !! key) in
  slice_last count telemetry_list.

Definition _get_cached_prediction (self : t) (cache_key : string) (now : Q)
  : t * option SignalDropPrediction :=
  match prediction_cache self !! cache_key with
  | Some prediction =>
      let age := (now - p_timestamp prediction)%Q in
      if Qltb age cache_ttl_seconds then (self, Some prediction)
      else
        ({| predictor := predictor self;
            telemetry_buffer := telemetry_buffer self;
            prediction_cache := delete cache_key (prediction_cache self) |},
         None)
  | None => (self, None)
  end.

Definition _cache_prediction
    (self : t) (cache_key : string) (prediction : SignalDropPrediction)
  : t :=
  {| predictor := predictor self;
     telemetry_buffer := telemetry_buffer self;
     prediction_cache := <[ cache_key := prediction ]> (prediction_cache self) |}.

Definition _determine_recommended_action
    (prediction : SignalDropPrediction) (current_telemetry : NetworkTelemetry)
  : string :=
  let predicted_bandwidth := p_predicted_bandwidth_kbps prediction in
  let time_to_drop := p_predicted_time_seconds prediction in
  let confidence := p_confidence prediction in
  if Qgtb confidence 0.9 && Qltb time_to_drop 2.0 then
    if Qltb predicted_bandwidth settings.AUDIO_MIN_BANDWIDTH
    then "IMMEDIATE_TEXT_FALLBACK"
    else "IMMEDIATE_AUDIO_FALLBACK"
  else if Qgtb confidence 0.75 && Qltb time_to_drop 5.0 then
    if Qltb predicted_bandwidth settings.AUDIO_MIN_BANDWIDTH
    then "PREPARE_TEXT_FALLBACK"
    else "PREPARE_AUDIO_FALLBACK"
  else "PREPARE_FALLBACK".

(** [recent_telemetry = None] reads the last 30 points of the buffer.
    An exception of the predictor is caught and answered with the
    ["ERROR"] action; the eviction done by the cache lookup stays. *)
Definition predict_signal_drop
    (self : t) (device_id session_id : string)
    (recent_telemetry : option (list NetworkTelemetry)) (now : Q)
  : t * PredictionResponse :=
  let cache_key := session_key device_id session_id in
  let '(self, cached_prediction) :=
    _get_cached_prediction self cache_key now in
  match cached_prediction with
  | Some cached =>
      (self, {| prediction := Some cached;
                should_prepare_transition := true;
                recommended_action := "PREPARE_FALLBACK" |})
  | None =>
      let recent_telemetry :=
        match recent_telemetry with
        | Some l => l
        | None => get_recent_telemetry self device_id session_id 30
        end in
      if (length recent_telemetry <? 5)%nat then
        (self, {| prediction := None;
                  should_prepare_transition := false;
                  recommended_action := "COLLECT_MORE_DATA" |})
      else
        match LSTMPredictor.predict_signal_drop (predictor self)
                recent_telemetry device_id session_id now with
        | inl _ =>
            (self, {| prediction := None;
                      should_prepare_transition := false;
                      recommended_action := "ERROR" |})
        | inr (Some p) =>
            match last recent_telemetry with
            | Some current =>
                (_cache_prediction self cache_key p,
                 {| prediction := Some p;
                    should_prepare_transition := true;
                    recommended_action :=
                      _determine_recommended_action p current |})
            | None =>
                (_cache_prediction self cache_key p,
                 {| prediction := None;
                    should_prepare_transition := false;
                    recommended_action := "ERROR" |})
            end
        | inr None =>
            (self, {| prediction := None;
                      should_prepare_transition := false;
                      recommended_action := "CONTINUE_MONITORING" |})
        end
  end.

Definition clear_session_data (self : t) (device_id session_id : string)
  : t :=
  let key := session_key device_id session_id in
  {| predictor := predictor self;
     telemetry_buffer := delete key (telemetry_buffer self);
     prediction_cache := delete key (prediction_cache self) |}.

(** [get_recent_telemetry] for any Python [int] as [count], as the
    endpoint passes it on. *)
Definition get_recent_telemetry_int
    (self : t) (device_id session_id : string) (count : Z)
  : list NetworkTelemetry :=
  let key := session_key device_id session_id in
  let telemetry_list := default [] (telemetry_buffer self !! key) in
  slice_last_int count telemetry_list.

(** The variance of the signal strengths, as the generator expression
    computes it; exact here and rounded in the code, so that a variance
    within rounding error of 0.1 can fall on the other side of the test
    [variance > 0.1]. *)
Definition signal_variance (signal_strengths : list Q) : Q :=
  let n := inject_Z (Z.of_nat (length signal_strengths)) in
  (Qsum (map (fun x => (x - Qsum signal_strengths / n)
                       * (x - Qsum signal_strengths / n))
           signal_strengths) / n)%Q.

Definition should_increase_monitoring_frequency
    (self : t) (device_id session_id : string)
  : bool :=
  let recent_telemetry := get_recent_telemetry self device_id session_id 5 in
  match last recent_telemetry with
  | None => false   (* [if not recent_telemetry] *)
  | Some latest =>
      if Qgeb (t_gps_velocity_kmh latest) settings.HIGH_SPEED_THRESHOLD_KMH
      then true
      else if (5 <=? length recent_telemetry)%nat then
        let signal_strengths := map t_signal_strength recent_telemetry in
        if Qgtb (signal_variance signal_strengths) 0.1 then true else false
      else false
  end.

Definition get_monitoring_frequency
    (self : t) (device_id session_id : string)
  : Z :=
  if should_increase_monitoring_frequency self device_id session_id
  then settings.HIGH_SPEED_MONITORING_FREQUENCY_HZ
  else settings.MONITORING_FREQUENCY_HZ.

End NetworkSentryAgent.

(* ===================================================================== *)
(** * Calls and runs *)
(* ===================================================================== *)

(** One call of a deciding method of the orchestrator, with what its
    environment does during the call. *)
Inductive DecisionCall : Type :=
| Decide (request : ModalityDecisionRequest)
         (client : BedrockClient) (elapsed_ms : Z) (now : Q)
| HandlePanic (request : PanicSignalRequest) (now : Q).

(** One call of any public method of the orchestrator. *)
Inductive ApiCall : Type :=
| CallDecision (c : DecisionCall)
| CallStatus (session_id : string)
| CallClear (session_id : string).

Inductive ApiReply : Type :=
| ReplyDecision (response : ModalityDecisionResponse)
| ReplyStatus (status : option ModalityStatus)
| ReplyCleared.

Definition call_device (c : DecisionCall) : string :=
  match c with
  | Decide request _ _ _ => dr_device_id request
  | HandlePanic request _ => pr_device_id request
  end.

Definition call_session (c : DecisionCall) : string :=
  match c with
  | Decide request _ _ _ => dr_session_id request
  | HandlePanic request _ => pr_session_id request
  end.

Definition api_session (c : ApiCall) : string :=
  match c with
  | CallDecision c => call_session c
  | CallStatus session_id => session_id
  | CallClear session_id => session_id
  end.

Section Runs.

Variable prompt_text : DecisionContext -> string.

Definition decision_call (session_states : SessionStates) (c : DecisionCall)
  : SessionStates * ModalityDecisionResponse :=
  match c with
  | Decide request client elapsed_ms now =>
      decide_modality_transition prompt_text
        session_states request client elapsed_ms now
  | HandlePanic request now =>
      handle_panic_signal session_states request now
  end.

Definition api_call (session_states : SessionStates) (c : ApiCall)
  : SessionStates * ApiReply :=
  match c with
  | CallDecision c =>
      let '(session_states', response) := decision_call session_states c in
      (session_states', ReplyDecision response)
  | CallStatus session_id =>
      (session_states,
       ReplyStatus (get_session_status session_states session_id))
  | CallClear session_id =>
      (clear_session session_states session_id, ReplyCleared)
  end.

(** The session table after a sequence of deciding calls. *)
Definition run (session_states : SessionStates) (calls : list DecisionCall)
  : SessionStates :=
  foldl (fun states c => fst (decision_call states c)) session_states calls.

(** The history entry that a deciding call appends, if it appends one:
    the call must reach [_update_session_state] and change the
    modality. *)
Definition recorded_transition (c : DecisionCall)
  : option TransitionRecord :=
  match c with
  | Decide request client elapsed_ms now =>
      match decide_try prompt_text
              request client elapsed_ms with
      | inr response =>
          if decide (dr_current_modality request <> target_modality response)
          then Some {| tr_from := Modality_value (dr_current_modality request);
                       tr_to := Modality_value (target_modality response);
                       tr_timestamp := now;
                       tr_position := dr_content_position request;
                       tr_success := true |}
          else None
      | inl _ => None
      end
  | HandlePanic request now =>
      let response := snd (handle_panic_signal ∅ request now) in
      if decide (pr_current_modality request <> target_modality response)
      then Some {| tr_from := Modality_value (pr_current_modality request);
                   tr_to := Modality_value (target_modality response);
                   tr_timestamp := now;
                   tr_position := pr_content_position request;
                   tr_success := true |}
      else None
  end.

(** All transitions of one session id, oldest first. *)
Definition session_log (session_id : string) (calls : list DecisionCall)
  : list TransitionRecord :=
  omap (fun c => if decide (call_session c = session_id)
                 then recorded_transition c else None) calls.

End Runs.

(* ===================================================================== *)
(** * app/api/modality.py and app/api/telemetry.py *)
(* ===================================================================== *)

(** The endpoints work on the process-wide orchestrator and agent; here
    they receive them as arguments.  A request body has passed the
    constructor of its pydantic model when the handler runs. *)
Inductive HTTPException : Type :=
| HTTP_404_NOT_FOUND
| HTTP_500_INTERNAL_SERVER_ERROR.

Module modality_api.

Definition get_modality_status
    (session_states : SessionStates) (session_id : string)
  : HTTPException + ModalityStatus :=
  match get_session_status session_states session_id with
  | None => inl HTTP_404_NOT_FOUND
  | Some status_data => inr status_data
  end.

Definition clear_session_state
    (session_states : SessionStates) (session_id : string)
  : SessionStates :=
  clear_session session_states session_id.

End modality_api.

Module telemetry_api.

Record BatchResult : Type := {
  total_points : nat;
  successful_points : Z
}.

Record FrequencyResult : Type := {
  frequency_hz : Z;
  interval_ms : Z
}.

Record RecentResult : Type := {
  count : nat;
  telemetry : list NetworkTelemetry
}.

Definition submit_telemetry_batch
    (sentry : NetworkSentryAgent.t) (batch : TelemetryBatch)
  : NetworkSentryAgent.t * BatchResult :=
  let '(sentry', success_count) :=
    NetworkSentryAgent.ingest_telemetry_batch sentry (b_telemetry batch) in
  (sentry', {| total_points := length (b_telemetry batch);
               successful_points := success_count |}).

Definition predict_signal_drop
    (sentry : NetworkSentryAgent.t) (request : PredictionRequest) (now : Q)
  : NetworkSentryAgent.t * PredictionResponse :=
  NetworkSentryAgent.predict_signal_drop sentry
    (q_device_id request) (q_session_id request)
    (Some (q_recent_telemetry request)) now.

Definition get_monitoring_frequency
    (sentry : NetworkSentryAgent.t) (device_id session_id : string)
  : FrequencyResult :=
  let frequency_hz :=
    NetworkSentryAgent.get_monitoring_frequency sentry device_id session_id in
  {| frequency_hz := frequency_hz;
     interval_ms := py_int (1000 / inject_Z frequency_hz) |}.

Definition get_recent_telemetry
    (sentry : NetworkSentryAgent.t) (device_id session_id : string)
    (count : Z)
  : RecentResult :=
  let recent :=
    NetworkSentryAgent.get_recent_telemetry_int sentry device_id session_id
      count in
  {| count := length recent; telemetry := recent |}.

End telemetry_api.

(** One state-changing call of the agent. *)
Inductive AgentCall : Type :=
| Ingest (telemetry : NetworkTelemetry)
| IngestBatch (batch : list NetworkTelemetry)
| PredictDrop (device_id session_id : string)
              (recent_telemetry : option (list NetworkTelemetry)) (now : Q)
| ClearData (device_id session_id : string).

Definition agent_call (self : NetworkSentryAgent.t) (c : AgentCall)
  : NetworkSentryAgent.t :=
  match c with
  | Ingest telemetry => fst (NetworkSentryAgent.ingest_telemetry self telemetry)
  | IngestBatch batch =>
      fst (NetworkSentryAgent.ingest_telemetry_batch self batch)
  | PredictDrop device_id session_id recent_telemetry now =>
      fst (NetworkSentryAgent.predict_signal_drop self device_id session_id
             recent_telemetry now)
  | ClearData device_id session_id =>
      NetworkSentryAgent.clear_session_data self device_id session_id
  end.

Definition agent_run (self : NetworkSentryAgent.t) (calls : list AgentCall)
  : NetworkSentryAgent.t :=
  foldl agent_call self calls.

(** Every buffer holds at most [max_buffer_size] points, all filed under
    their own key, and every cached prediction sits under the key of its
    own ids. *)
Definition agent_consistent (self : NetworkSentryAgent.t) : Prop :=
  (forall key points,
     NetworkSentryAgent.telemetry_buffer self !! key = Some points ->
     (length points <= 100)%nat
     /\ Forall (fun point =>
                  NetworkSentryAgent.session_key
                    (t_device_id point) (t_session_id point) = key) points)
  /\ (forall key p,
        NetworkSentryAgent.prediction_cache self !! key = Some p ->
        NetworkSentryAgent.session_key (p_device_id p) (p_session_id p) = key).

(* ===================================================================== *)
(** * app/services/multi_modal_transformer.py: the summary cache *)
(* ===================================================================== *)

Module MultiModalTransformer.

(** [self.summary_cache]: a Python dict, which keeps its keys in the order
    of their first insertion; an association list with distinct keys,
    oldest first. *)
Fixpoint dict_get {V : Type} (d : list (string * V)) (key : string)
  : option V :=
  match d with
  | [] => None
  | (k, v) :: rest => if String.eqb k key then Some v else dict_get rest key
  end.

(** [d[key] = v]: an existing key keeps its place. *)
Fixpoint dict_set {V : Type} (d : list (string * V)) (key : string) (v : V)
  : list (string * V) :=
  match d with
  | [] => [(key, v)]
  | (k, w) :: rest =>
      if String.eqb k key then (k, v) :: rest
      else (k, w) :: dict_set rest key v
  end.

(** [del d[key]] for a key of [d]. *)
Definition dict_del {V : Type} (d : list (string * V)) (key : string)
  : list (string * V) :=
  List.filter (fun entry => negb (String.eqb (fst entry) key)) d.

Definition _get_cached_summary {V : Type}
    (summary_cache : list (string * V)) (cache_key : string)
  : option V :=
  dict_get summary_cache cache_key.

Definition _cache_summary {V : Type}
    (summary_cache : list (string * V)) (cache_key : string) (summary : V)
  : list (string * V) :=
  let summary_cache := dict_set summary_cache cache_key summary in
  if (1000 <? length summary_cache)%nat then
    let oldest_keys := take 100 (map fst summary_cache) in
    foldl dict_del summary_cache oldest_keys
  else summary_cache.

End MultiModalTransformer.

(** The session table after a sequence of calls of any public method. *)
Definition api_run
    (build_prompt : DecisionContext -> string)
    (session_states : SessionStates) (calls : list ApiCall)
  : SessionStates :=
  foldl (fun states c => fst (api_call build_prompt states c))
        session_states calls.

(** What every entry of the session table looks like, whatever the calls
    were. *)
Definition entry_wellformed (key : string) (status : ModalityStatus) : Prop :=
  st_session_id status = key
  /\ st_total_buffering_events status = 0%Z
  /\ st_failed_transitions status = 0%Z
  /\ st_successful_transitions status = st_transition_count status
  /\ (0 <= st_transition_count status)%Z
  /\ Z.of_nat (length (st_transition_history status))
     = Z.min (st_transition_count status) 10
  /\ Forall (fun entry => tr_success entry = true
                          /\ tr_from entry <> tr_to entry)
            (st_transition_history status).

(** A sequence of [ingest_telemetry] calls, one per point. *)
Definition ingest_all
    (self : NetworkSentryAgent.t) (points : list NetworkTelemetry)
  : NetworkSentryAgent.t :=
  foldl (fun agent point => fst (NetworkSentryAgent.ingest_telemetry agent point))
        self points.

Definition point_key (point : NetworkTelemetry) : string :=
  NetworkSentryAgent.session_key (t_device_id point) (t_session_id point).

(** The points of a list that carry a given device id and session id, in
    their order. *)
Definition ingested_for
    (device_id session_id : string) (points : list NetworkTelemetry)
  : list NetworkTelemetry :=
  filter (fun point => t_device_id point = device_id
                       /\ t_session_id point = session_id) points.

(** The decision context that [decide_modality_transition] builds. *)
Definition context_of (request : ModalityDecisionRequest) : DecisionContext :=
  {| ctx_available_bandwidth_kbps := dr_available_bandwidth_kbps request;
     ctx_prediction_confidence := dr_prediction_confidence request;
     ctx_time_to_signal_drop := dr_time_to_signal_drop request;
     ctx_content_description := dr_content_description request;
     ctx_content_position := dr_content_position request;
     ctx_key_concepts := dr_key_concepts request;
     ctx_visual_dependency_score := dr_visual_dependency_score request;
     ctx_current_modality := Modality_value (dr_current_modality request);
     ctx_transition_history := dr_transition_history request |}.

(** A request for which the prompt cannot be built: [key_concepts] is an
    [Optional] field, and [None] is not a list that [str.join] takes. *)
Definition prompt_fails (request : ModalityDecisionRequest) : Prop :=
  dr_key_concepts request = None.

(** The failures that the Bedrock client turns into its own rule-based
    decision: the invocation raises (API error, timeout), or the answer is
    not JSON. *)
Definition absorbed_by_client (client : BedrockClient) : Prop :=
  client = Some Raises \/ exists ms, client = Some (Answers NotJson ms).

(** A decision object that the orchestrator cannot turn into a response:
    its modality or timing is not a member of the enum, or its confidence
    is outside [0, 1]. *)
Definition malformed (d : DecisionData) : Prop :=
  Modality_of (get_or (dd_target_modality d) "VIDEO") = inl ValueError
  \/ TransitionTiming_of (get_or (dd_transition_timing d) "IMMEDIATE")
     = inl ValueError
  \/ ~ (0 <= get_or (dd_decision_confidence d) 0.8 <= 1)%Q.

(** The answers that surface as an exception inside
    [decide_modality_transition]: JSON that is not an object, an object
    with a value that pydantic does not take for its field, or a
    malformed decision object. *)
Definition raised_into_decide (client : BedrockClient) : Prop :=
  exists ms,
    client = Some (Answers JsonOther ms)
    \/ (exists d, client = Some (Answers (JsonObjectMistyped d) ms))
    \/ exists d, client = Some (Answers (JsonObject d) ms) /\ malformed d.

(** The JSON object without entries. *)
Definition empty_decision : DecisionData :=
  {| dd_target_modality := None;
     dd_transition_timing := None;
     dd_reasoning := None;
     dd_fallback_strategy := None;
     dd_decision_confidence := None;
     dd_model_used := None;
     dd_processing_time_ms := None |}.

(** The bookkeeping of one session entry ([None]: no entry yet) agrees
    with the list [log] of all transitions recorded for the session, oldest
    first. *)
Definition tracks (log : list TransitionRecord) (entry : option ModalityStatus)
  : Prop :=
  from_option st_transition_history [] entry = slice_last 10 log
  /\ from_option st_transition_count 0%Z entry = Z.of_nat (length log)
  /\ (from_option st_transition_count 0%Z entry
      = from_option st_successful_transitions 0%Z entry
        + from_option st_failed_transitions 0%Z entry)%Z.

(* ===================================================================== *)
(** * The heuristic predictor as the specification words it *)
(* ===================================================================== *)

(** Sum of squared residuals of the line [slope * i + intercept] on the
    points [(i, ys[i])]. *)
Definition squared_error (ys : list Q) (slope intercept : Q) : Q :=
  Qsum (zip_with (fun x y => (y - (slope * x + intercept))
                             * (y - (slope * x + intercept)))%Q
          (indices (length ys)) ys).

Definition clamp01 (x : Q) : Q := Qmax 0 (Qmin 1 x).

(** The three series of a window that the heuristic strategy fits. *)
Definition signal_series (window : list NetworkTelemetry) : Series :=
  Floats (map t_signal_strength window).
Definition bandwidth_series (window : list NetworkTelemetry) : Series :=
  Floats (map t_bandwidth_kbps window).
Definition latency_series (window : list NetworkTelemetry) : Series :=
  Ints (map t_latency_ms window).

(** The confidence of the heuristic strategy on a window, given the
    three slopes: two or more of the three trend flags give the base 0.6,
    the three severity bonuses are added, and the sum is clamped to
    [0, 1]. *)
Definition rule_confidence
    (signal_slope bandwidth_slope latency_slope : Q)
    (window : list NetworkTelemetry) : Q :=
  let signal := map t_signal_strength window in
  let bandwidth := map t_bandwidth_kbps window in
  let latency := map (fun p => inject_Z (t_latency_ms p)) window in
  let signalDeclining := Qltb signal_slope (-0.05) in
  let bandwidthDeclining := Qltb bandwidth_slope (-100) in
  let latencyIncreasing := Qgtb latency_slope 50 in
  let indicatorsTriggered :=
    length (filter (fun flag => flag = true)
              [signalDeclining; bandwidthDeclining; latencyIncreasing]) in
  let base := if (2 <=? indicatorsTriggered)%nat then 0.6%Q else 0.0%Q in
  clamp01 (base
           + (if Qltb (List.last signal 0) 0.3 then 0.2 else 0)
           + (if Qltb (List.last bandwidth 0) 500 then 0.15 else 0)
           + (if Qgtb (List.last latency 0) 500 then 0.15 else 0))%Q.

(** The same with the least-squares slopes of the three series, as the
    specification words it. *)
Definition spec_confidence (window : list NetworkTelemetry) : Q :=
  rule_confidence
    (polyfit_slope (series_values (signal_series window)))
    (polyfit_slope (series_values (bandwidth_series window)))
    (polyfit_slope (series_values (latency_series window)))
    window.

(** A computed slope is within [eps] of the least-squares slope of its
    series, and that slope is more than [eps] away from the threshold. *)
Definition clear_of (eps threshold : Q) (computed : Q) (series : Series)
  : Prop :=
  (Qabs (computed - polyfit_slope (series_values series)) <= eps)%Q
  /\ (eps < Qabs (polyfit_slope (series_values series) - threshold))%Q.

(* ===================================================================== *)
(** * Scenario inputs *)
(* ===================================================================== *)

Definition panic_request
    (device_id session_id : string) (current : Modality)
    (bandwidth buffer_level position : Q)
  : PanicSignalRequest :=
  {| pr_device_id := device_id;
     pr_session_id := session_id;
     pr_content_id := "video_edu_123";
     pr_content_position := position;
     pr_current_modality := current;
     pr_current_bandwidth_kbps := bandwidth;
     pr_is_buffering := true;
     pr_buffer_level_seconds := buffer_level |}.

Definition decision_request
    (device_id session_id : string) (current : Modality)
    (bandwidth visual_dependency position : Q)
  : ModalityDecisionRequest :=
  {| dr_device_id := device_id;
     dr_session_id := session_id;
     dr_content_id := "video_edu_123";
     dr_content_position := position;
     dr_available_bandwidth_kbps := bandwidth;
     dr_predicted_signal_drop := true;
     dr_prediction_confidence := 0.85;
     dr_time_to_signal_drop := Some 3.5%Q;
     dr_content_description := Some "Introduction to calculus derivatives";
     dr_key_concepts := Some ["derivative"; "rate of change"; "slope"];
     dr_visual_dependency_score := visual_dependency;
     dr_current_modality := current;
     dr_transition_history := [] |}.

(** A prompt renderer for closed examples: it names the current modality
    only. *)
Definition modality_prompt (context : DecisionContext) : string :=
  ("Current Modality: " ++ ctx_current_modality context)%string.

Definition telemetry_point
    (device_id session_id : string) (timestamp signal : Q) (latency : Z)
    (bandwidth : Q)
  : NetworkTelemetry :=
  {| t_device_id := device_id;
     t_session_id := session_id;
     t_timestamp := timestamp;
     t_signal_strength := signal;
     t_latency_ms := latency;
     t_packet_loss_percent := 2.5;
     t_bandwidth_kbps := bandwidth;
     t_gps_velocity_kmh := 45.0;
     t_location_hash := None;
     t_content_id := None;
     t_content_position := None |}.

Definition cached_prediction (timestamp : Q) : SignalDropPrediction :=
  {| p_device_id := "device_abc123";
     p_session_id := "session_xyz789";
     p_timestamp := timestamp;
     p_confidence := 0.85;
     p_predicted_time_seconds := 3.5;
     p_predicted_bandwidth_kbps := 450.0;
     p_prediction_horizon_seconds := 5;
     p_model_version := "heuristic_fallback";
     p_predictor_type := "heuristic";
     p_features_used := [] |}.

(** A numpy that fits without rounding error and never raises, for
    closed examples. *)
Definition exact_polyfit : LSTMPredictor.Polyfit :=
  fun series => inr (polyfit_slope (series_values series)).

(** A predictor without a loaded model, as [LSTMPredictor()] builds it,
    on that numpy. *)
Definition heuristic_predictor : LSTMPredictor.t :=
  {| LSTMPredictor.model := None; LSTMPredictor.polyfit := exact_polyfit |}.

(** Scenario A: ten samples with the signal strength falling linearly
    from 0.9 to 0.1 and the bandwidth from 3000 to 200 Kbps, one per
    second; the latencies are left open. *)
Definition scenario_A (latencies : list Z) : list NetworkTelemetry :=
  zip_with
    (fun i latency =>
       telemetry_point "device_abc123" "session_xyz789"
         (1709251200 + inject_Z (Z.of_nat i))
         (0.9 - inject_Z (Z.of_nat i) * (0.8 / 9))
         latency
         (3000 - inject_Z (Z.of_nat i) * (2800 / 9)))
    (seq 0 10) latencies.

(** Ten samples with the signal strength falling from 1.0 to 0.1, the
    bandwidth falling by exactly 100 Kbps per sample from 2000 to 1100
    Kbps, and a steady latency of 100 ms. *)
Definition ramp_window : list NetworkTelemetry :=
  map (fun i =>
         telemetry_point "device_abc123" "session_xyz789"
           (1709251200 + inject_Z (Z.of_nat i))
           (1 - inject_Z (Z.of_nat i) * 0.1)
           100
           (2000 - inject_Z (Z.of_nat i) * 100))
      (seq 0 10).

Definition Qlist_eqb (xs ys : list Q) : bool :=
  (length xs =? length ys)%nat
  && forallb (fun xy => Qeq_bool (fst xy) (snd xy)) (zip xs ys).

(** [numpy.polyfit] at two inputs where its result is not the exact
    slope: for the bandwidths of [ramp_window] it returns
    -100.00000000000007 in double precision, and on a list with an int of
    64 bits or more it raises, the array being one of Python objects.
    Everywhere else the exact slope stands in for the computed one. *)
Definition observed_polyfit : LSTMPredictor.Polyfit :=
  fun series =>
    match series with
    | Floats ys =>
        if Qlist_eqb ys (map t_bandwidth_kbps ramp_window)
        then inr (-100.00000000000007)%Q
        else inr (polyfit_slope ys)
    | Ints ys =>
        if existsb (fun y => (2 ^ 64 <=? y)%Z) ys then raise TypeError
        else inr (polyfit_slope (map inject_Z ys))
    end.

(* ===================================================================== *)
(** * Facts about the helpers *)
(* ===================================================================== *)

Lemma Qltb_lt (x y : Q) : Qltb x y = true <-> (x < y)%Q.
Proof.
  unfold Qltb. rewrite negb_true_iff, <- not_true_iff_false, Qle_bool_iff.
  split; [apply Qnot_le_lt | apply Qlt_not_le].
Qed.

Lemma Qltb_ge (x y : Q) : Qltb x y = false <-> (y <= x)%Q.
Proof.
  unfold Qltb. rewrite negb_false_iff. apply Qle_bool_iff.
Qed.

Lemma Qgeb_ge (x y : Q) : Qgeb x y = true <-> (y <= x)%Q.
Proof. apply Qle_bool_iff. Qed.

Lemma Qgeb_lt (x y : Q) : Qgeb x y = false <-> (x < y)%Q.
Proof.
  unfold Qgeb. rewrite <- not_true_iff_false, Qle_bool_iff.
  split; [apply Qnot_le_lt | apply Qlt_not_le].
Qed.

Lemma Qleb_le (x y : Q) : Qleb x y = true <-> (x <= y)%Q.
Proof. apply Qle_bool_iff. Qed.

Lemma Qgtb_gt (x y : Q) : Qgtb x y = true <-> (y < x)%Q.
Proof. apply (Qltb_lt y x). Qed.

Lemma slice_last_length {A : Type} (n : nat) (l : list A) :
  (0 < n)%nat -> (length (slice_last n l) <= n)%nat.
Proof.
  intros Hn. destruct n as [|n]; [lia|].
  unfold slice_last. rewrite length_drop. lia.
Qed.

Lemma slice_last_short {A : Type} (n : nat) (l : list A) :
  (length l <= n)%nat -> slice_last n l = l.
Proof.
  intros Hl. destruct n as [|n]; [reflexivity|].
  unfold slice_last. replace (length l - S n)%nat with 0%nat by lia.
  reflexivity.
Qed.

(** Trimming after every append keeps the last [n] of everything that was
    appended. *)
Lemma slice_last_snoc {A : Type} (n : nat) (l : list A) (x : A) :
  (0 < n)%nat ->
  slice_last n (slice_last n l ++ [x]) = slice_last n (l ++ [x]).
Proof.
  intros Hn. destruct n as [|n]; [lia|]. unfold slice_last.
  rewrite !length_app, length_drop. simpl.
  destruct (decide (length l <= S n)%nat) as [Hle|Hgt].
  - replace (length l - S n)%nat with 0%nat by lia.
    rewrite drop_0, Nat.sub_0_r. reflexivity.
  - rewrite drop_app_le by (rewrite length_drop; lia).
    rewrite drop_app_le by lia.
    rewrite drop_drop. f_equal. f_equal. lia.
Qed.

(** The bookkeeping step of the code: append, then trim when longer than
    [n]. *)
Lemma append_trim {A : Type} (n : nat) (l : list A) (x : A) :
  (0 < n)%nat ->
  (if (n <? length (l ++ [x]))%nat then slice_last n (l ++ [x]) else l ++ [x])
  = slice_last n (l ++ [x]).
Proof.
  intros Hn. destruct (Nat.ltb_spec n (length (l ++ [x]))) as [H|H].
  - reflexivity.
  - symmetry. apply slice_last_short. exact H.
Qed.

Lemma slice_last_last {A : Type} (n : nat) (l : list A) (x : A) :
  (0 < n)%nat -> last (slice_last n (l ++ [x])) = Some x.
Proof.
  intros Hn. destruct n as [|n]; [lia|]. unfold slice_last.
  rewrite length_app. simpl.
  rewrite drop_app_le by lia. apply last_snoc.
Qed.

(* ===================================================================== *)
(** * Facts about the session table *)
(* ===================================================================== *)

Lemma update_session_state_other
    (states : SessionStates) (sid dev cid : string) (m1 m2 : Modality)
    (pos : Q) (ok : bool) (now : Q) (sid' : string) :
  sid <> sid' ->
  _update_session_state states sid dev cid m1 m2 pos ok now !! sid'
  = states !! sid'.
Proof.
  intros Hne. unfold _update_session_state.
  destruct (decide (m1 <> m2)); simpl; apply lookup_insert_ne; exact Hne.
Qed.

Lemma update_session_state_is_Some
    (states : SessionStates) (sid dev cid : string) (m1 m2 : Modality)
    (pos : Q) (ok : bool) (now : Q) :
  is_Some (_update_session_state states sid dev cid m1 m2 pos ok now !! sid).
Proof.
  unfold _update_session_state.
  destruct (decide (m1 <> m2)); simpl; rewrite lookup_insert_eq; eauto.
Qed.

(** The entry of [sid] after an update is a function of its entry
    before. *)
Lemma update_session_state_local
    (states1 states2 : SessionStates) (sid dev cid : string)
    (m1 m2 : Modality) (pos : Q) (ok : bool) (now : Q) :
  states1 !! sid = states2 !! sid ->
  _update_session_state states1 sid dev cid m1 m2 pos ok now !! sid
  = _update_session_state states2 sid dev cid m1 m2 pos ok now !! sid.
Proof.
  intros Heq. unfold _update_session_state. rewrite Heq.
  destruct (decide (m1 <> m2)); simpl; rewrite !lookup_insert_eq; reflexivity.
Qed.

(** An update that does not change the modality keeps the counters and
    the history (zero and empty for a session that is new). *)
Lemma update_session_state_same_modality
    (states : SessionStates) (sid dev cid : string) (m : Modality)
    (pos : Q) (ok : bool) (now : Q) :
  let after := _update_session_state states sid dev cid m m pos ok now !! sid in
  from_option st_transition_count 0%Z after
    = from_option st_transition_count 0%Z (states !! sid)
  /\ from_option st_transition_history [] after
    = from_option st_transition_history [] (states !! sid)
  /\ from_option st_successful_transitions 0%Z after
    = from_option st_successful_transitions 0%Z (states !! sid)
  /\ from_option st_failed_transitions 0%Z after
    = from_option st_failed_transitions 0%Z (states !! sid).
Proof.
  unfold _update_session_state.
  destruct (decide (m <> m)) as [Hne|_]; [congruence|].
  simpl. rewrite lookup_insert_eq. simpl.
  destruct (states !! sid); simpl; auto.
Qed.

(* ===================================================================== *)
(** * The panic path *)
(* ===================================================================== *)

(** C6.  [handle_panic_signal] answers TEXT_SUMMARY, IMMEDIATE, 0.95 when
    the bandwidth is below 500 Kbps or the buffer level is below 1.0
    seconds, and otherwise AUDIO, IMMEDIATE, 0.90 when the bandwidth is
    below 1000 Kbps.  In particular bandwidth 200 with buffer level 0.5
    gives TEXT_SUMMARY / IMMEDIATE / 0.95, and bandwidth 700 with buffer
    level 5.0 gives AUDIO / IMMEDIATE / 0.90. *)
Theorem handle_panic_signal_rule
    (states : SessionStates) (request : PanicSignalRequest) (now : Q) :
  let response := snd (handle_panic_signal states request now) in
  let bandwidth := pr_current_bandwidth_kbps request in
  let buffer_level := pr_buffer_level_seconds request in
  ((bandwidth < 500 \/ buffer_level < 1.0)%Q ->
     target_modality response = TEXT_SUMMARY
     /\ transition_timing response = IMMEDIATE
     /\ decision_confidence response = 0.95%Q)
  /\ (~ (bandwidth < 500 \/ buffer_level < 1.0)%Q -> (bandwidth < 1000)%Q ->
     target_modality response = AUDIO
     /\ transition_timing response = IMMEDIATE
     /\ decision_confidence response = 0.90%Q)
  /\ ((bandwidth == 200)%Q -> (buffer_level == 0.5)%Q ->
     target_modality response = TEXT_SUMMARY
     /\ transition_timing response = IMMEDIATE
     /\ decision_confidence response = 0.95%Q)
  /\ ((bandwidth == 700)%Q -> (buffer_level == 5.0)%Q ->
     target_modality response = AUDIO
     /\ transition_timing response = IMMEDIATE
     /\ decision_confidence response = 0.90%Q).
Proof.
  intros response bandwidth buffer_level.
  assert (Hcritical :
    (bandwidth < 500 \/ buffer_level < 1.0)%Q ->
    target_modality response = TEXT_SUMMARY
    /\ transition_timing response = IMMEDIATE
    /\ decision_confidence response = 0.95%Q).
  { intros Hlow. subst response. unfold handle_panic_signal.
    fold bandwidth buffer_level.
    assert (Qltb bandwidth settings.AUDIO_MIN_BANDWIDTH
            || Qltb buffer_level 1.0 = true) as ->.
    { apply orb_true_iff.
      destruct Hlow as [H|H]; [left|right]; apply Qltb_lt; exact H. }
    simpl. auto. }
  assert (Hsevere :
    ~ (bandwidth < 500 \/ buffer_level < 1.0)%Q -> (bandwidth < 1000)%Q ->
    target_modality response = AUDIO
    /\ transition_timing response = IMMEDIATE
    /\ decision_confidence response = 0.90%Q).
  { intros Hnot Hmid. subst response. unfold handle_panic_signal.
    fold bandwidth buffer_level.
    assert (Qltb bandwidth settings.AUDIO_MIN_BANDWIDTH
            || Qltb buffer_level 1.0 = false) as ->.
    { apply orb_false_iff. split; apply not_true_iff_false;
        rewrite Qltb_lt; intros H; apply Hnot; [left|right]; exact H. }
    assert (Qltb bandwidth settings.VIDEO_MIN_BANDWIDTH = true) as ->
      by (apply Qltb_lt; exact Hmid).
    simpl. auto. }
  split; [exact Hcritical|]. split; [exact Hsevere|]. split.
  - intros Hb Hl. apply Hcritical. left. rewrite Hb. reflexivity.
  - intros Hb Hl. apply Hsevere.
    + rewrite Hb, Hl. intros [H|H]; discriminate H.
    + rewrite Hb. reflexivity.
Qed.

Lemma handle_panic_signal_rule_witness :
  ((200 < 500 \/ 0.5 < 1.0)%Q
   /\ (let response :=
         snd (handle_panic_signal ∅
                (panic_request "device_abc123" "session_xyz789" VIDEO
                   200 0.5 125) 1709251200) in
       target_modality response = TEXT_SUMMARY
       /\ transition_timing response = IMMEDIATE
       /\ decision_confidence response = 0.95%Q))
  /\ ((700 == 700)%Q /\ (5.0 == 5.0)%Q
      /\ (let response :=
            snd (handle_panic_signal ∅
                   (panic_request "device_abc123" "session_xyz789" VIDEO
                      700 5.0 125) 1709251200) in
          target_modality response = AUDIO
          /\ transition_timing response = IMMEDIATE
          /\ decision_confidence response = 0.90%Q)).
Proof.
  split.
  - split; [left; reflexivity|].
    apply (proj1 (handle_panic_signal_rule ∅
                    (panic_request "device_abc123" "session_xyz789" VIDEO
                       200 0.5 125) 1709251200)).
    left; reflexivity.
  - split; [reflexivity|]. split; [reflexivity|].
    apply (proj2 (proj2 (proj2 (handle_panic_signal_rule ∅
                    (panic_request "device_abc123" "session_xyz789" VIDEO
                       700 5.0 125) 1709251200)))); reflexivity.
Defined.

(** C10.  The decision of [handle_panic_signal] has timing IMMEDIATE or
    WAIT_2S, never WAIT_5S; its confidence is one of 0.95, 0.90 and 0.80;
    and when the timing is WAIT_2S the target is the current modality of
    the request, so the call leaves the transition count, the history and
    the success and failure counts of the session as they were (zero and
    empty for a session that the call creates). *)
Theorem handle_panic_signal_shape
    (states : SessionStates) (request : PanicSignalRequest) (now : Q) :
  let states' := fst (handle_panic_signal states request now) in
  let response := snd (handle_panic_signal states request now) in
  let before := states !! pr_session_id request in
  let after := states' !! pr_session_id request in
  (transition_timing response = IMMEDIATE
   \/ transition_timing response = WAIT_2S)
  /\ transition_timing response <> WAIT_5S
  /\ (decision_confidence response = 0.95%Q
      \/ decision_confidence response = 0.90%Q
      \/ decision_confidence response = 0.80%Q)
  /\ (transition_timing response = WAIT_2S ->
      target_modality response = pr_current_modality request
      /\ is_Some after
      /\ from_option st_transition_count 0%Z after
         = from_option st_transition_count 0%Z before
      /\ from_option st_transition_history [] after
         = from_option st_transition_history [] before
      /\ from_option st_successful_transitions 0%Z after
         = from_option st_successful_transitions 0%Z before
      /\ from_option st_failed_transitions 0%Z after
         = from_option st_failed_transitions 0%Z before).
Proof.
  unfold handle_panic_signal.
  destruct (Qltb (pr_current_bandwidth_kbps request)
              settings.AUDIO_MIN_BANDWIDTH
            || Qltb (pr_buffer_level_seconds request) 1.0).
  - simpl. repeat split; auto; discriminate.
  - destruct (Qltb (pr_current_bandwidth_kbps request)
                settings.VIDEO_MIN_BANDWIDTH).
    + simpl. repeat split; auto; discriminate.
    + cbn [fst snd target_modality transition_timing decision_confidence].
      split; [right; reflexivity|]. split; [discriminate|].
      split; [right; right; reflexivity|].
      intros _. split; [reflexivity|].
      split; [apply update_session_state_is_Some|].
      apply update_session_state_same_modality.
Qed.

Lemma handle_panic_signal_shape_witness :
  let request :=
    panic_request "device_abc123" "session_xyz789" AUDIO 1500 5.0 125 in
  let states' := fst (handle_panic_signal ∅ request 1709251200) in
  let response := snd (handle_panic_signal ∅ request 1709251200) in
  transition_timing response = WAIT_2S
  /\ target_modality response = AUDIO
  /\ from_option st_transition_count 0%Z (states' !! "session_xyz789") = 0%Z.
Proof.
  intros request states' response.
  split; [reflexivity|].
  pose proof (handle_panic_signal_shape ∅ request 1709251200) as H.
  destruct H as (_ & _ & _ & H).
  specialize (H eq_refl).
  destruct H as (Htarget & _ & Hcount & _).
  split; [exact Htarget | exact Hcount].
Defined.

(* ===================================================================== *)
(** * The prediction cache *)
(* ===================================================================== *)

(** C7.  [_get_cached_prediction] never returns a prediction whose age has
    reached the TTL of 2 seconds: it returns [None] when the key has no
    entry, and when the entry's age is at least 2 seconds it returns
    [None] and the returned agent no longer holds the entry; whatever it
    returns is the stored entry and is younger than 2 seconds. *)
Theorem get_cached_prediction_ttl
    (self : NetworkSentryAgent.t) (cache_key : string) (now : Q) :
  let cache := NetworkSentryAgent.prediction_cache self in
  let self' := fst (NetworkSentryAgent._get_cached_prediction self cache_key now) in
  let result := snd (NetworkSentryAgent._get_cached_prediction self cache_key now) in
  (cache !! cache_key = None -> result = None /\ self' = self)
  /\ (forall p, cache !! cache_key = Some p ->
                (2 <= now - p_timestamp p)%Q ->
                result = None
                /\ NetworkSentryAgent.prediction_cache self' = delete cache_key cache
                /\ NetworkSentryAgent.prediction_cache self' !! cache_key = None)
  /\ (forall p, result = Some p ->
                cache !! cache_key = Some p
                /\ (now - p_timestamp p < 2)%Q).
Proof.
  unfold NetworkSentryAgent._get_cached_prediction.
  destruct (NetworkSentryAgent.prediction_cache self !! cache_key)
    as [stored|] eqn:Hlookup.
  - destruct (Qltb (now - p_timestamp stored)
                NetworkSentryAgent.cache_ttl_seconds) eqn:Hage; simpl.
    + apply Qltb_lt in Hage. split; [discriminate|]. split.
      * intros p [= <-] Hold. exfalso.
        apply (Qlt_irrefl 2). eapply Qle_lt_trans; [exact Hold | exact Hage].
      * intros p [= <-]. split; [reflexivity | exact Hage].
    + split; [discriminate|]. split.
      * intros p _ _. split; [reflexivity|]. split; [reflexivity|].
        apply lookup_delete_eq.
      * discriminate.
  - simpl. split; [auto|]. split; [discriminate | discriminate].
Qed.

Lemma get_cached_prediction_ttl_witness :
  let key := NetworkSentryAgent.session_key "device_abc123" "session_xyz789" in
  let empty := NetworkSentryAgent.init heuristic_predictor in
  let agent :=
    NetworkSentryAgent._cache_prediction empty key (cached_prediction 100) in
  (NetworkSentryAgent.prediction_cache agent !! key
     = Some (cached_prediction 100)
   /\ (2 <= 102 - p_timestamp (cached_prediction 100))%Q
   /\ snd (NetworkSentryAgent._get_cached_prediction agent key 102) = None
   /\ NetworkSentryAgent.prediction_cache
        (fst (NetworkSentryAgent._get_cached_prediction agent key 102)) !! key
      = None)
  /\ (snd (NetworkSentryAgent._get_cached_prediction agent key 101)
        = Some (cached_prediction 100)
      /\ (101 - p_timestamp (cached_prediction 100) < 2)%Q)
  /\ (NetworkSentryAgent.prediction_cache empty !! key = None
      /\ snd (NetworkSentryAgent._get_cached_prediction empty key 101) = None).
Proof.
  intros key empty agent.
  assert (Hstored : NetworkSentryAgent.prediction_cache agent !! key
                    = Some (cached_prediction 100))
    by (vm_compute; reflexivity).
  assert (Hold : (2 <= 102 - p_timestamp (cached_prediction 100))%Q)
    by (vm_compute; discriminate).
  assert (Hfresh : snd (NetworkSentryAgent._get_cached_prediction agent key 101)
                   = Some (cached_prediction 100))
    by (vm_compute; reflexivity).
  assert (Hmiss : NetworkSentryAgent.prediction_cache empty !! key = None)
    by (vm_compute; reflexivity).
  split; [|split].
  - split; [exact Hstored|]. split; [exact Hold|].
    destruct (get_cached_prediction_ttl agent key 102) as (_ & Hexpired & _).
    destruct (Hexpired _ Hstored Hold) as (Hnone & _ & Hgone).
    split; [exact Hnone | exact Hgone].
  - split; [exact Hfresh|].
    destruct (get_cached_prediction_ttl agent key 101) as (_ & _ & Hreturned).
    exact (proj2 (Hreturned _ Hfresh)).
  - split; [exact Hmiss|].
    destruct (get_cached_prediction_ttl empty key 101) as (Habsent & _).
    exact (proj1 (Habsent Hmiss)).
Defined.

(* ===================================================================== *)
(** * The telemetry buffer *)
(* ===================================================================== *)

Lemma ingest_all_snoc
    (agent : NetworkSentryAgent.t) (points : list NetworkTelemetry)
    (point : NetworkTelemetry) :
  ingest_all agent (points ++ [point])
  = fst (NetworkSentryAgent.ingest_telemetry (ingest_all agent points) point).
Proof. unfold ingest_all. rewrite foldl_app. reflexivity. Qed.

Lemma ingest_telemetry_buffer
    (agent : NetworkSentryAgent.t) (point : NetworkTelemetry) (key : string) :
  default [] (NetworkSentryAgent.telemetry_buffer
                (fst (NetworkSentryAgent.ingest_telemetry agent point)) !! key)
  = if decide (point_key point = key)
    then slice_last 100
           (default [] (NetworkSentryAgent.telemetry_buffer agent !! key)
            ++ [point])
    else default [] (NetworkSentryAgent.telemetry_buffer agent !! key).
Proof.
  unfold NetworkSentryAgent.ingest_telemetry. simpl.
  fold (point_key point).
  destruct (decide (point_key point = key)) as [<-|Hne].
  - rewrite lookup_insert_eq. simpl.
    apply (append_trim 100). lia.
  - rewrite lookup_insert_ne by exact Hne. reflexivity.
Qed.

Lemma contains_tail (needle : string) (c : ascii) (hay : string) :
  contains needle (String c hay) = false -> contains needle hay = false.
Proof.
  intros H. cbn [contains] in H.
  destruct (String.prefix needle (String c hay)); [discriminate H | exact H].
Qed.

(** The buffer key joins the two ids with a colon.  Device ids without a
    colon give every pair of ids a key of its own; with a colon inside,
    two pairs can meet on one key. *)
Lemma session_key_inj (device1 session1 device2 session2 : string) :
  contains ":" device1 = false ->
  contains ":" device2 = false ->
  NetworkSentryAgent.session_key device1 session1
  = NetworkSentryAgent.session_key device2 session2 ->
  device1 = device2 /\ session1 = session2.
Proof.
  unfold NetworkSentryAgent.session_key.
  revert device2.
  induction device1 as [|c1 device1 IH]; intros [|c2 device2] H1 H2 Hkey;
    cbn [String.append] in Hkey.
  - injection Hkey as Hkey. split; [reflexivity | exact Hkey].
  - injection Hkey as Hc _. subst c2.
    destruct device2; simpl in H2; discriminate H2.
  - injection Hkey as Hc _. subst c1.
    destruct device1; simpl in H1; discriminate H1.
  - injection Hkey as Hc Hrest. subst c2.
    assert (H1' : contains ":" device1 = false)
      by exact (contains_tail _ _ _ H1).
    assert (H2' : contains ":" device2 = false)
      by exact (contains_tail _ _ _ H2).
    destruct (IH device2 H1' H2' Hrest) as [-> ->]. split; reflexivity.
Qed.

Example session_key_collision :
  NetworkSentryAgent.session_key "a:b" "c"
  = NetworkSentryAgent.session_key "a" "b:c".
Proof. reflexivity. Qed.

(** The buffer of a key string holds the last 100 of the points filed
    under that string. *)
Lemma ingest_all_fresh_buffer
    (predictor : LSTMPredictor.t) (points : list NetworkTelemetry)
    (key : string) :
  default [] (NetworkSentryAgent.telemetry_buffer
                (ingest_all (NetworkSentryAgent.init predictor) points)
                !! key)
  = slice_last 100 (filter (fun p => point_key p = key) points).
Proof.
  induction points as [|point points IH] using rev_ind.
  - simpl. rewrite lookup_empty. reflexivity.
  - rewrite ingest_all_snoc, ingest_telemetry_buffer, filter_app.
    rewrite IH.
    destruct (decide (point_key point = key)) as [Heq|Hne].
    + rewrite filter_cons_True by exact Heq. rewrite filter_nil.
      apply slice_last_snoc. lia.
    + rewrite filter_cons_False by exact Hne. rewrite filter_nil, app_nil_r.
      reflexivity.
Qed.

(** Among points whose device id has no colon, those filed under the key
    of a pair of ids are those that carry the pair. *)
Lemma filter_key_ingested_for
    (device_id session_id : string) (points : list NetworkTelemetry) :
  contains ":" device_id = false ->
  Forall (fun point => contains ":" (t_device_id point) = false) points ->
  filter (fun p => point_key p
                   = NetworkSentryAgent.session_key device_id session_id)
    points
  = ingested_for device_id session_id points.
Proof.
  intros Hdevice Hpoints. unfold ingested_for.
  induction Hpoints as [|point points Hpoint _ IH]; [reflexivity|].
  destruct (decide (t_device_id point = device_id
                    /\ t_session_id point = session_id)) as [[Hd Hs]|Hne].
  - rewrite (filter_cons_True (fun p => t_device_id p = device_id
                                        /\ t_session_id p = session_id))
      by (split; assumption).
    rewrite filter_cons_True
      by (unfold point_key; rewrite Hd, Hs; reflexivity).
    rewrite IH. reflexivity.
  - rewrite (filter_cons_False (fun p => t_device_id p = device_id
                                         /\ t_session_id p = session_id))
      by exact Hne.
    rewrite filter_cons_False; [exact IH|].
    intros Hkey. apply Hne.
    apply (session_key_inj _ _ _ _ Hpoint Hdevice Hkey).
Qed.

(** C8, amended.  After any sequence of [ingest_telemetry] calls on a
    fresh agent no buffer holds more than 100 points, and each buffer
    holds exactly the most recent 100 points filed under its key string,
    in the order of ingestion.  When no device id contains a colon, the
    buffer of a (device id, session id) pair holds exactly the most
    recent 100 points ingested with that device id and session id.  The
    key is the string [device_id:session_id], so with a colon in a device
    id two pairs can share one buffer. *)
Theorem telemetry_buffer_fifo
    (predictor : LSTMPredictor.t) (points : list NetworkTelemetry)
    (device_id session_id : string) :
  let agent := ingest_all (NetworkSentryAgent.init predictor) points in
  let buffer key :=
    default [] (NetworkSentryAgent.telemetry_buffer agent !! key) in
  (forall key,
     (length (buffer key) <= 100)%nat
     /\ buffer key
        = slice_last 100 (filter (fun p => point_key p = key) points))
  /\ (contains ":" device_id = false ->
      Forall (fun point => contains ":" (t_device_id point) = false) points ->
      buffer (NetworkSentryAgent.session_key device_id session_id)
      = slice_last 100 (ingested_for device_id session_id points)
      /\ NetworkSentryAgent.get_recent_telemetry agent device_id session_id
           100
         = slice_last 100 (ingested_for device_id session_id points)).
Proof.
  intros agent buffer.
  assert (Hkey : forall key,
            buffer key
            = slice_last 100 (filter (fun p => point_key p = key) points)).
  { intros key. subst buffer agent. apply ingest_all_fresh_buffer. }
  split.
  { intros key. split; [|apply Hkey].
    rewrite Hkey. apply slice_last_length. lia. }
  intros Hdevice Hpoints.
  assert (Hpair :
    buffer (NetworkSentryAgent.session_key device_id session_id)
    = slice_last 100 (ingested_for device_id session_id points)).
  { rewrite Hkey. f_equal.
    apply filter_key_ingested_for; assumption. }
  split; [exact Hpair|].
  unfold NetworkSentryAgent.get_recent_telemetry.
  fold (buffer (NetworkSentryAgent.session_key device_id session_id)).
  rewrite Hpair.
  apply slice_last_short. apply slice_last_length. lia.
Qed.

Lemma telemetry_buffer_fifo_witness :
  let mine1 := telemetry_point "device_A" "session_1" 1 0.9 100 3000 in
  let theirs := telemetry_point "device_B" "session_1" 2 0.8 110 2600 in
  let mine2 := telemetry_point "device_A" "session_1" 3 0.7 120 2200 in
  let points := [mine1; theirs; mine2] in
  let agent :=
    ingest_all (NetworkSentryAgent.init heuristic_predictor) points in
  contains ":" "device_A" = false
  /\ Forall (fun point => contains ":" (t_device_id point) = false) points
  /\ NetworkSentryAgent.get_recent_telemetry agent "device_A" "session_1" 100
     = [mine1; mine2].
Proof.
  intros mine1 theirs mine2 points agent.
  assert (Hdevice : contains ":" "device_A" = false) by reflexivity.
  assert (Hpoints :
    Forall (fun point => contains ":" (t_device_id point) = false) points)
    by (repeat constructor).
  split; [exact Hdevice|]. split; [exact Hpoints|].
  etransitivity;
    [ exact (proj2 (proj2 (telemetry_buffer_fifo heuristic_predictor points
                             "device_A" "session_1") Hdevice Hpoints))
    | vm_compute; reflexivity ].
Defined.

(** C8 as stated fails for pairs of ids: a point ingested for device
    "a:b" and session "c" is filed under the string "a:b:c", which is also
    the key of device "a" and session "b:c".  The buffer read for that
    pair returns the point, though nothing was ingested for it. *)
Lemma colon_in_device_id_shares_buffer :
  let point := telemetry_point "a:b" "c" 1 0.9 100 3000 in
  let agent :=
    ingest_all (NetworkSentryAgent.init heuristic_predictor) [point] in
  ("a", "b:c") <> ("a:b", "c")
  /\ ingested_for "a" "b:c" [point] = []
  /\ NetworkSentryAgent.get_recent_telemetry agent "a" "b:c" 100 = [point]
  /\ NetworkSentryAgent.get_recent_telemetry agent "a:b" "c" 100 = [point].
Proof.
  intros point agent.
  split; [discriminate|].
  split; [vm_compute; reflexivity|].
  split; vm_compute; reflexivity.
Qed.

(* ===================================================================== *)
(** * Insufficient telemetry *)
(* ===================================================================== *)

(** C9.  On a telemetry window with fewer than 10 points the predictor
    returns [None], whether or not a model is loaded, and it returns
    normally: the agent that calls it on a cache miss answers without a
    prediction and with an action other than ["ERROR"]. *)
Theorem predict_signal_drop_insufficient_data
    (self : LSTMPredictor.t) (telemetry_history : list NetworkTelemetry)
    (device_id session_id : string) (now : Q) :
  (length telemetry_history < 10)%nat ->
  LSTMPredictor.predict_signal_drop self telemetry_history
    device_id session_id now = inr None
  /\ forall agent : NetworkSentryAgent.t,
       NetworkSentryAgent.predictor agent = self ->
       NetworkSentryAgent.prediction_cache agent
         !! NetworkSentryAgent.session_key device_id session_id = None ->
       let response :=
         snd (NetworkSentryAgent.predict_signal_drop agent device_id
                session_id (Some telemetry_history) now) in
       prediction response = None
       /\ should_prepare_transition response = false
       /\ recommended_action response <> "ERROR".
Proof.
  intros Hshort.
  assert (Hnone :
    LSTMPredictor.predict_signal_drop self telemetry_history
      device_id session_id now = inr None).
  { unfold LSTMPredictor.predict_signal_drop.
    destruct (Nat.ltb_spec (length telemetry_history)
                LSTMPredictor.sequence_length) as [_|Hge].
    - reflexivity.
    - unfold LSTMPredictor.sequence_length in Hge. lia. }
  split; [exact Hnone|].
  intros agent Hpredictor Hmiss.
  unfold NetworkSentryAgent.predict_signal_drop,
    NetworkSentryAgent._get_cached_prediction.
  rewrite Hmiss.
  destruct (length telemetry_history <? 5)%nat.
  - simpl. repeat split. discriminate.
  - rewrite Hpredictor, Hnone. simpl. repeat split. discriminate.
Qed.

Lemma predict_signal_drop_insufficient_data_witness :
  let window :=
    [ telemetry_point "device_abc123" "session_xyz789" 1 0.9 100 3000;
      telemetry_point "device_abc123" "session_xyz789" 2 0.8 110 2600 ] in
  (length window < 10)%nat
  /\ LSTMPredictor.predict_signal_drop heuristic_predictor window
       "device_abc123" "session_xyz789" 3 = inr None.
Proof.
  intros window.
  assert (Hshort : (length window < 10)%nat) by (simpl; lia).
  split; [exact Hshort|].
  exact (proj1 (predict_signal_drop_insufficient_data heuristic_predictor
                  window "device_abc123" "session_xyz789" 3 Hshort)).
Defined.

(* ===================================================================== *)
(** * Session bookkeeping *)
(* ===================================================================== *)

(** An update that changes the modality appends one entry, trims the
    history to its last 10 entries and counts the outcome. *)
Lemma update_session_state_transition
    (states : SessionStates) (sid dev cid : string) (m1 m2 : Modality)
    (pos : Q) (ok : bool) (now : Q) :
  m1 <> m2 ->
  let before := states !! sid in
  let after := _update_session_state states sid dev cid m1 m2 pos ok now !! sid in
  from_option st_transition_history [] after
    = slice_last 10
        (from_option st_transition_history [] before
         ++ [ {| tr_from := Modality_value m1; tr_to := Modality_value m2;
                 tr_timestamp := now; tr_position := pos;
                 tr_success := ok |} ])
  /\ from_option st_transition_count 0%Z after
     = (from_option st_transition_count 0%Z before + 1)%Z
  /\ from_option st_successful_transitions 0%Z after
     = (from_option st_successful_transitions 0%Z before
        + if ok then 1 else 0)%Z
  /\ from_option st_failed_transitions 0%Z after
     = (from_option st_failed_transitions 0%Z before
        + if ok then 0 else 1)%Z.
Proof.
  intros Hne. unfold _update_session_state.
  destruct (decide (m1 <> m2)) as [_|Heq]; [|contradiction].
  cbn zeta. rewrite lookup_insert_eq. cbn [from_option].
  cbn [st_transition_history st_transition_count
       st_successful_transitions st_failed_transitions].
  rewrite (append_trim 10) by lia.
  destruct (states !! sid) as [status|]; cbn [from_option];
    cbn [st_transition_history st_transition_count
         st_successful_transitions st_failed_transitions];
    destruct ok; repeat split; lia.
Qed.

Lemma tracks_update_same
    (states : SessionStates) (sid dev cid : string) (m : Modality)
    (pos : Q) (ok : bool) (now : Q) (log : list TransitionRecord) :
  tracks log (states !! sid) ->
  tracks log (_update_session_state states sid dev cid m m pos ok now !! sid).
Proof.
  unfold tracks.
  destruct (update_session_state_same_modality states sid dev cid m pos ok now)
    as (-> & -> & -> & ->).
  auto.
Qed.

Lemma tracks_update_transition
    (states : SessionStates) (sid dev cid : string) (m1 m2 : Modality)
    (pos : Q) (ok : bool) (now : Q) (log : list TransitionRecord) :
  m1 <> m2 ->
  tracks log (states !! sid) ->
  tracks (log ++ [ {| tr_from := Modality_value m1; tr_to := Modality_value m2;
                      tr_timestamp := now; tr_position := pos;
                      tr_success := ok |} ])
         (_update_session_state states sid dev cid m1 m2 pos ok now !! sid).
Proof.
  intros Hne (Hhistory & Hcount & Hsum). unfold tracks.
  destruct (update_session_state_transition states sid dev cid m1 m2
              pos ok now Hne) as (-> & -> & -> & ->).
  rewrite Hhistory, Hcount, length_app.
  split; [apply slice_last_snoc; lia|].
  split; [simpl; lia|].
  rewrite Hcount in Hsum. destruct ok; simpl; lia.
Qed.

(** The rule of the panic path does not look at the session table, and the
    table it returns is one [_update_session_state] away. *)
Lemma handle_panic_signal_response
    (states1 states2 : SessionStates) (request : PanicSignalRequest) (now : Q) :
  snd (handle_panic_signal states1 request now)
  = snd (handle_panic_signal states2 request now).
Proof.
  unfold handle_panic_signal.
  destruct (Qltb _ _ || Qltb _ _); [reflexivity|].
  destruct (Qltb _ _); reflexivity.
Qed.

Lemma handle_panic_signal_state
    (states : SessionStates) (request : PanicSignalRequest) (now : Q) :
  fst (handle_panic_signal states request now)
  = _update_session_state states
      (pr_session_id request) (pr_device_id request) (pr_content_id request)
      (pr_current_modality request)
      (target_modality (snd (handle_panic_signal states request now)))
      (pr_content_position request) true now.
Proof.
  unfold handle_panic_signal.
  destruct (Qltb _ _ || Qltb _ _); [reflexivity|].
  destruct (Qltb _ _); reflexivity.
Qed.

Section OrchestratorRuns.

Variable build_prompt : DecisionContext -> string.

Lemma decision_call_other
    (states : SessionStates) (c : DecisionCall) (sid : string) :
  call_session c <> sid ->
  fst (decision_call build_prompt states c) !! sid = states !! sid.
Proof.
  intros Hne. destruct c as [request client elapsed now | request now]; simpl in *.
  - unfold decide_modality_transition.
    destruct (decide_try build_prompt request client elapsed); simpl.
    + reflexivity.
    + apply update_session_state_other. exact Hne.
  - rewrite handle_panic_signal_state.
    apply update_session_state_other. exact Hne.
Qed.

Lemma decision_call_response
    (states1 states2 : SessionStates) (c : DecisionCall) :
  snd (decision_call build_prompt states1 c)
  = snd (decision_call build_prompt states2 c).
Proof.
  destruct c as [request client elapsed now | request now]; simpl.
  - unfold decide_modality_transition.
    destruct (decide_try build_prompt request client elapsed); reflexivity.
  - apply handle_panic_signal_response.
Qed.

Lemma decision_call_local
    (states1 states2 : SessionStates) (c : DecisionCall) :
  states1 !! call_session c = states2 !! call_session c ->
  fst (decision_call build_prompt states1 c) !! call_session c
  = fst (decision_call build_prompt states2 c) !! call_session c.
Proof.
  intros Heq. destruct c as [request client elapsed now | request now];
    simpl in *.
  - unfold decide_modality_transition.
    destruct (decide_try build_prompt request client elapsed); simpl.
    + exact Heq.
    + apply update_session_state_local. exact Heq.
  - rewrite !handle_panic_signal_state.
    rewrite (handle_panic_signal_response states1 states2).
    apply update_session_state_local. exact Heq.
Qed.

Lemma decision_call_tracks
    (states : SessionStates) (c : DecisionCall) (sid : string)
    (log : list TransitionRecord) :
  tracks log (states !! sid) ->
  tracks (log ++ session_log build_prompt sid [c])
         (fst (decision_call build_prompt states c) !! sid).
Proof.
  intros Htracks. unfold session_log. simpl.
  destruct (decide (call_session c = sid)) as [Heq|Hne].
  - subst sid.
    destruct c as [request client elapsed now | request now]; simpl in *.
    + unfold decide_modality_transition.
      destruct (decide_try build_prompt request client elapsed)
        as [e|response]; simpl.
      * rewrite app_nil_r. exact Htracks.
      * destruct (decide (dr_current_modality request
                          <> target_modality response)) as [Hchange|Hsame].
        -- apply tracks_update_transition; assumption.
        -- rewrite app_nil_r.
           assert (dr_current_modality request = target_modality response)
             as <- by (destruct (decide (dr_current_modality request
                                         = target_modality response));
                       [assumption | contradiction]).
           apply tracks_update_same. exact Htracks.
    + rewrite handle_panic_signal_state.
      rewrite (handle_panic_signal_response states ∅).
      destruct (decide (pr_current_modality request
                        <> target_modality
                             (snd (handle_panic_signal ∅ request now))))
        as [Hchange|Hsame].
      * apply tracks_update_transition; assumption.
      * rewrite app_nil_r.
        assert (pr_current_modality request
                = target_modality (snd (handle_panic_signal ∅ request now)))
          as <- by (destruct (decide (pr_current_modality request
                       = target_modality
                           (snd (handle_panic_signal ∅ request now))));
                    [assumption | contradiction]).
        apply tracks_update_same. exact Htracks.
  - rewrite app_nil_r, decision_call_other by exact Hne. exact Htracks.
Qed.

Lemma run_snoc
    (states : SessionStates) (calls : list DecisionCall) (c : DecisionCall) :
  run build_prompt states (calls ++ [c])
  = fst (decision_call build_prompt (run build_prompt states calls) c).
Proof. unfold run. rewrite foldl_app. reflexivity. Qed.

Lemma session_log_snoc
    (sid : string) (calls : list DecisionCall) (c : DecisionCall) :
  session_log build_prompt sid (calls ++ [c])
  = session_log build_prompt sid calls ++ session_log build_prompt sid [c].
Proof. unfold session_log. apply omap_app. Qed.

Lemma run_tracks (calls : list DecisionCall) (sid : string) :
  tracks (session_log build_prompt sid calls)
         (run build_prompt ∅ calls !! sid).
Proof.
  induction calls as [|c calls IH] using rev_ind.
  - unfold tracks, run. simpl. rewrite lookup_empty. simpl. auto.
  - rewrite run_snoc, session_log_snoc. apply decision_call_tracks. exact IH.
Qed.

(** C4.  After any sequence of [decide_modality_transition] and
    [handle_panic_signal] calls on a fresh orchestrator, every session
    entry has [transition_count = successful_transitions +
    failed_transitions], and its history has at most 10 entries: the last
    10 of the transitions recorded for the session, oldest first, so the
    most recent one is last. *)
Theorem session_state_invariant
    (calls : list DecisionCall) (sid : string) (status : ModalityStatus) :
  run build_prompt ∅ calls !! sid = Some status ->
  (st_transition_count status
   = st_successful_transitions status + st_failed_transitions status)%Z
  /\ (length (st_transition_history status) <= 10)%nat
  /\ st_transition_history status
     = slice_last 10 (session_log build_prompt sid calls)
  /\ last (st_transition_history status)
     = last (session_log build_prompt sid calls).
Proof.
  intros Hstatus.
  pose proof (run_tracks calls sid) as (Hhistory & Hcount & Hsum).
  rewrite Hstatus in Hhistory, Hcount, Hsum. cbn [from_option] in *.
  split; [exact Hsum|].
  split; [rewrite Hhistory; apply slice_last_length; lia|].
  split; [exact Hhistory|].
  rewrite Hhistory.
  destruct (session_log build_prompt sid calls) as [|e log _] using rev_ind.
  - reflexivity.
  - rewrite slice_last_last by lia. symmetry. apply last_snoc.
Qed.

End OrchestratorRuns.

Lemma session_state_invariant_witness :
  let calls :=
    [ HandlePanic
        (panic_request "device_abc123" "session_xyz789" VIDEO 200 0.5 125) 1;
      Decide
        (decision_request "device_abc123" "session_xyz789" TEXT_SUMMARY
           1200 0.5 130)
        (Some Raises) 5 2 ] in
  exists status,
    run modality_prompt ∅ calls !! "session_xyz789" = Some status
    /\ st_transition_count status = 2%Z
    /\ (st_transition_count status
        = st_successful_transitions status + st_failed_transitions status)%Z
    /\ (length (st_transition_history status) <= 10)%nat.
Proof.
  intros calls. eexists.
  split; [vm_compute; reflexivity|].
  split; [reflexivity|].
  refine (let H := session_state_invariant modality_prompt calls
                     "session_xyz789" _ _ in
          conj (proj1 H) (proj1 (proj2 H))).
  vm_compute; reflexivity.
Defined.

(* ===================================================================== *)
(** * Isolation of sessions *)
(* ===================================================================== *)

Section Isolation.

Variable build_prompt : DecisionContext -> string.

(** C3, amended.  The session id alone is the unit of isolation of the
    session table: a call of [decide_modality_transition],
    [handle_panic_signal], [get_session_status] or [clear_session] leaves
    the entry of every other session id as it was, and both its reply and
    the entry it leaves for its own session id depend on the table only
    through that entry. *)
Theorem session_id_isolation
    (states other : SessionStates) (c : ApiCall) (sid : string) :
  (api_session c <> sid ->
   get_session_status (fst (api_call build_prompt states c)) sid
   = get_session_status states sid)
  /\ (states !! api_session c = other !! api_session c ->
      snd (api_call build_prompt states c) = snd (api_call build_prompt other c)
      /\ get_session_status (fst (api_call build_prompt states c))
           (api_session c)
         = get_session_status (fst (api_call build_prompt other c))
             (api_session c)).
Proof.
  unfold get_session_status.
  destruct c as [c | session_id | session_id]; simpl.
  - pose proof (decision_call_response build_prompt states other c) as Hreply.
    pose proof (decision_call_local build_prompt states other c) as Hlocal.
    pose proof (decision_call_other build_prompt states c sid) as Hother.
    destruct (decision_call build_prompt states c) as [states' response].
    destruct (decision_call build_prompt other c) as [other' response'].
    simpl in *. split; [exact Hother|].
    intros Heq. split; [f_equal; exact Hreply | apply Hlocal; exact Heq].
  - split; [reflexivity|]. intros Heq. split; [f_equal|]; exact Heq.
  - unfold clear_session. split.
    + intros Hne. destruct (states !! session_id); [|reflexivity].
      apply lookup_delete_ne. exact Hne.
    + intros Heq. split; [reflexivity|].
      rewrite <- Heq.
      destruct (states !! session_id) eqn:Hlookup.
      * rewrite !lookup_delete_eq. reflexivity.
      * rewrite Hlookup. symmetry. congruence.
Qed.

End Isolation.

Lemma session_id_isolation_witness :
  let mine := panic_request "device_A" "session_1" VIDEO 1500 5.0 10 in
  let theirs := panic_request "device_B" "session_2" VIDEO 200 0.5 99 in
  let states := fst (handle_panic_signal ∅ mine 1) in
  let call := CallDecision (HandlePanic theirs 2) in
  (api_session call <> "session_1"
   /\ get_session_status (fst (api_call modality_prompt states call))
        "session_1"
      = get_session_status states "session_1")
  /\ (states !! api_session call = (∅ : SessionStates) !! api_session call
      /\ snd (api_call modality_prompt states call)
         = snd (api_call modality_prompt ∅ call)).
Proof.
  intros mine theirs states call.
  assert (Hne : api_session call <> "session_1") by (vm_compute; discriminate).
  assert (Hsame : states !! api_session call
                  = (∅ : SessionStates) !! api_session call)
    by (vm_compute; reflexivity).
  split.
  - split; [exact Hne|].
    exact (proj1 (session_id_isolation modality_prompt states ∅ call
                    "session_1") Hne).
  - split; [exact Hsame|].
    exact (proj1 (proj2 (session_id_isolation modality_prompt states ∅ call
                           "session_1") Hsame)).
Defined.

(** C3 as stated fails: two requests that differ in [device_id] and share
    the [session_id] work on one entry.  The panic call of device_B
    rewrites the entry that the call of device_A created. *)
Lemma device_id_shares_session_state :
  let first := panic_request "device_A" "session_1" VIDEO 1500 5.0 10 in
  let second := panic_request "device_B" "session_1" VIDEO 200 0.5 99 in
  let states1 := fst (handle_panic_signal ∅ first 1) in
  let states2 := fst (handle_panic_signal states1 second 2) in
  (pr_device_id first, pr_session_id first)
    <> (pr_device_id second, pr_session_id second)
  /\ st_device_id <$> get_session_status states1 "session_1" = Some "device_A"
  /\ st_current_modality <$> get_session_status states1 "session_1"
     = Some VIDEO
  /\ st_transition_count <$> get_session_status states1 "session_1"
     = Some 0%Z
  /\ st_device_id <$> get_session_status states2 "session_1" = Some "device_A"
  /\ st_current_modality <$> get_session_status states2 "session_1"
     = Some TEXT_SUMMARY
  /\ st_transition_count <$> get_session_status states2 "session_1"
     = Some 1%Z
  /\ get_session_status states2 "session_1"
     <> get_session_status states1 "session_1".
Proof.
  intros first second states1 states2.
  split; [vm_compute; discriminate|].
  split; [vm_compute; reflexivity|].
  split; [vm_compute; reflexivity|].
  split; [vm_compute; reflexivity|].
  split; [vm_compute; reflexivity|].
  split; [vm_compute; reflexivity|].
  split; [vm_compute; reflexivity|].
  intros Heq.
  assert (H : st_transition_count <$> get_session_status states2 "session_1"
              = st_transition_count <$> get_session_status states1 "session_1")
    by (rewrite Heq; reflexivity).
  vm_compute in H. discriminate H.
Qed.

(* ===================================================================== *)
(** * Oracle failures *)
(* ===================================================================== *)

(** The three branches of the rule inside the Bedrock client. *)
Lemma fallback_decision_cases (context : DecisionContext) :
  let bandwidth := ctx_available_bandwidth_kbps context in
  let visual_dependency := ctx_visual_dependency_score context in
  let d := _get_fallback_decision context in
  dd_decision_confidence d = Some 0.6%Q
  /\ dd_model_used d = Some "rule-based-fallback"
  /\ dd_fallback_strategy d = Some "Continue with best-effort delivery"
  /\ dd_processing_time_ms d = None
  /\ ((1000 <= bandwidth)%Q /\ (visual_dependency < 0.7)%Q
      /\ dd_target_modality d = Some "VIDEO"
      /\ dd_transition_timing d = Some "IMMEDIATE"
      /\ dd_reasoning d = Some "Sufficient bandwidth and low visual dependency. Maintain video. [Fallback rule-based decision]"
      \/ (500 <= bandwidth)%Q
         /\ ~ ((1000 <= bandwidth)%Q /\ (visual_dependency < 0.7)%Q)
         /\ dd_target_modality d = Some "AUDIO"
         /\ dd_transition_timing d = Some "WAIT_2S"
         /\ dd_reasoning d = Some "Moderate bandwidth. Transition to audio after current segment. [Fallback rule-based decision]"
      \/ (bandwidth < 500)%Q
         /\ dd_target_modality d = Some "TEXT_SUMMARY"
         /\ dd_transition_timing d = Some "IMMEDIATE"
         /\ dd_reasoning d = Some "Low bandwidth. Immediate transition to text summary. [Fallback rule-based decision]").
Proof.
  unfold _get_fallback_decision.
  destruct (Qgeb (ctx_available_bandwidth_kbps context) 1000) eqn:Hvideo;
    [destruct (Qltb (ctx_visual_dependency_score context) 0.7) eqn:Hvisual|];
    simpl.
  - apply Qgeb_ge in Hvideo. apply Qltb_lt in Hvisual.
    repeat (split; [reflexivity|]). left. repeat split; assumption.
  - destruct (Qgeb (ctx_available_bandwidth_kbps context) 500) eqn:Haudio;
      simpl.
    + apply Qgeb_ge in Haudio. apply Qltb_ge in Hvisual.
      repeat (split; [reflexivity|]). right; left.
      split; [exact Haudio|]. split; [|repeat split].
      intros [_ Hlt]. apply (Qlt_irrefl 0.7).
      eapply Qle_lt_trans; [exact Hvisual | exact Hlt].
    + apply Qgeb_ge in Hvideo. apply Qgeb_lt in Haudio. exfalso.
      apply (Qlt_irrefl 500). eapply Qle_lt_trans; [|exact Haudio].
      eapply Qle_trans; [|exact Hvideo]. discriminate.
  - apply Qgeb_lt in Hvideo.
    destruct (Qgeb (ctx_available_bandwidth_kbps context) 500) eqn:Haudio;
      simpl.
    + apply Qgeb_ge in Haudio.
      repeat (split; [reflexivity|]). right; left.
      split; [exact Haudio|]. split; [|repeat split].
      intros [Hge _]. apply (Qlt_irrefl 1000).
      eapply Qle_lt_trans; [exact Hge | exact Hvideo].
    + apply Qgeb_lt in Haudio.
      repeat (split; [reflexivity|]). right; right.
      split; [exact Haudio|]. repeat split.
Qed.

Lemma safe_fallback_decision_cases (request : ModalityDecisionRequest) :
  let bandwidth := dr_available_bandwidth_kbps request in
  let response := _get_safe_fallback_decision request in
  ((1000 <= bandwidth)%Q -> target_modality response = VIDEO)
  /\ ((500 <= bandwidth)%Q -> (bandwidth < 1000)%Q ->
      target_modality response = AUDIO)
  /\ ((bandwidth < 500)%Q -> target_modality response = TEXT_SUMMARY)
  /\ transition_timing response = IMMEDIATE
  /\ decision_confidence response = 0.6%Q
  /\ model_used response = "rule-based-fallback"
  /\ contains "[Fallback" (reasoning response) = true.
Proof.
  unfold _get_safe_fallback_decision.
  destruct (Qgeb (dr_available_bandwidth_kbps request)
              settings.VIDEO_MIN_BANDWIDTH) eqn:Hvideo;
    [|destruct (Qgeb (dr_available_bandwidth_kbps request)
                  settings.AUDIO_MIN_BANDWIDTH) eqn:Haudio];
    simpl.
  - apply Qgeb_ge in Hvideo.
    split; [reflexivity|]. split; [|split; [|repeat split]].
    + intros _ Hlt. exfalso. apply (Qlt_irrefl 1000).
      eapply Qle_lt_trans; [exact Hvideo | exact Hlt].
    + intros Hlt. exfalso. apply (Qlt_irrefl 500).
      eapply Qle_lt_trans; [|exact Hlt].
      eapply Qle_trans; [|exact Hvideo]. discriminate.
  - apply Qgeb_lt in Hvideo. apply Qgeb_ge in Haudio.
    split; [|split; [reflexivity|split; [|repeat split]]].
    + intros Hge. exfalso. apply (Qlt_irrefl 1000).
      eapply Qle_lt_trans; [exact Hge | exact Hvideo].
    + intros Hlt. exfalso. apply (Qlt_irrefl 500).
      eapply Qle_lt_trans; [exact Haudio | exact Hlt].
  - apply Qgeb_lt in Hvideo. apply Qgeb_lt in Haudio.
    split; [|split; [|repeat split]].
    + intros Hge. exfalso. apply (Qlt_irrefl 1000).
      eapply Qle_lt_trans; [exact Hge | exact Hvideo].
    + intros Hge _. exfalso. apply (Qlt_irrefl 500).
      eapply Qle_lt_trans; [exact Hge | exact Haudio].
Qed.

Section OracleFailures.

Variable build_prompt : DecisionContext -> string.

(** The prompt is built before the client is used: for a request whose
    [key_concepts] is [None] the [try] block raises whatever the client
    would do. *)
Lemma decide_try_prompt_fails
    (request : ModalityDecisionRequest) (client : BedrockClient) (elapsed : Z) :
  prompt_fails request ->
  decide_try build_prompt request client elapsed = inl TypeError.
Proof.
  unfold prompt_fails. intros Hkey.
  unfold decide_try, get_modality_decision, _build_modality_decision_prompt.
  cbn [ctx_key_concepts]. rewrite Hkey. reflexivity.
Qed.

Lemma get_modality_decision_absorbed
    (client : BedrockClient) (context : DecisionContext) :
  ctx_key_concepts context <> None ->
  absorbed_by_client client ->
  get_modality_decision build_prompt client context
  = inr {| dict_entries := _get_fallback_decision context;
           dict_typed := true |}.
Proof.
  intros Hkey Hclient.
  unfold get_modality_decision, _build_modality_decision_prompt.
  destruct (ctx_key_concepts context); [|contradiction].
  destruct Hclient as [-> | [ms ->]]; reflexivity.
Qed.

(** A failure absorbed by the client reaches the orchestrator as an
    ordinary decision: the [try] block succeeds on it. *)
Lemma decide_try_absorbed
    (request : ModalityDecisionRequest) (client : BedrockClient) (elapsed : Z) :
  ~ prompt_fails request ->
  absorbed_by_client client ->
  exists response,
    decide_try build_prompt request client elapsed = inr response
    /\ Some (Modality_value (target_modality response))
       = dd_target_modality (_get_fallback_decision (context_of request))
    /\ Some (TransitionTiming_value (transition_timing response))
       = dd_transition_timing (_get_fallback_decision (context_of request))
    /\ Some (reasoning response)
       = dd_reasoning (_get_fallback_decision (context_of request))
    /\ decision_confidence response = 0.6%Q
    /\ model_used response = "rule-based-fallback"
    /\ processing_time_ms response = Some elapsed.
Proof.
  intros Hkey Habsorbed. unfold decide_try. fold (context_of request).
  rewrite (get_modality_decision_absorbed client (context_of request)
             Hkey Habsorbed).
  destruct (fallback_decision_cases (context_of request))
    as (Hconf & Hmodel & _ & Htime & Hcases).
  cbn [mbind Exc_bind dict_entries dict_typed].
  rewrite Hconf, Hmodel, Htime.
  destruct Hcases as [(_ & _ & -> & -> & ->)
                     | [(_ & _ & -> & -> & ->) | (_ & -> & -> & ->)]];
    eexists; (split; [reflexivity|]); repeat split.
Qed.

(** The answers that make the [try] block raise. *)
Lemma decide_try_not_object
    (request : ModalityDecisionRequest) (elapsed ms : Z) :
  decide_try build_prompt request (Some (Answers JsonOther ms)) elapsed
  = inl TypeError.
Proof.
  unfold decide_try, get_modality_decision, _build_modality_decision_prompt.
  cbn [ctx_key_concepts]. destruct (dr_key_concepts request); reflexivity.
Qed.

Lemma decide_try_unknown_modality
    (request : ModalityDecisionRequest) (d : DecisionData) (elapsed ms : Z) :
  ~ prompt_fails request ->
  Modality_of (get_or (dd_target_modality d) "VIDEO") = inl ValueError ->
  decide_try build_prompt request (Some (Answers (JsonObject d) ms)) elapsed
  = inl ValueError.
Proof.
  unfold prompt_fails. intros Hkey Hunknown.
  unfold decide_try, get_modality_decision, _build_modality_decision_prompt.
  cbn [ctx_key_concepts]. destruct (dr_key_concepts request); [|contradiction].
  simpl. rewrite Hunknown. reflexivity.
Qed.

Lemma Modality_of_error (s : string) (e : PyError) :
  Modality_of s = inl e -> e = ValueError.
Proof.
  unfold Modality_of.
  repeat (destruct (String.eqb s _); [discriminate|]).
  intros [= <-]. reflexivity.
Qed.

Lemma TransitionTiming_of_error (s : string) (e : PyError) :
  TransitionTiming_of s = inl e -> e = ValueError.
Proof.
  unfold TransitionTiming_of.
  repeat (destruct (String.eqb s _); [discriminate|]).
  intros [= <-]. reflexivity.
Qed.

Lemma new_ModalityDecisionResponse_raises
    (tm : Modality) (tt : TransitionTiming) (why : string)
    (fb : option string) (conf : Q) (model : string) (ms : option Z) :
  (exists e, new_ModalityDecisionResponse tm tt why fb conf model ms = inl e)
  <-> ~ (0 <= conf <= 1)%Q.
Proof.
  unfold new_ModalityDecisionResponse.
  destruct (Qleb 0.0 conf) eqn:Hlow; [destruct (Qleb conf 1.0) eqn:Hhigh|];
    simpl.
  - apply Qleb_le in Hlow, Hhigh. split.
    + intros [e He]. discriminate He.
    + intros Hnot. exfalso. apply Hnot. split.
      * eapply Qle_trans; [|exact Hlow]. discriminate.
      * eapply Qle_trans; [exact Hhigh|]. discriminate.
  - split; [|eauto]. intros _ [_ Hle].
    apply not_true_iff_false in Hhigh. apply Hhigh. apply Qleb_le.
    eapply Qle_trans; [exact Hle|]. discriminate.
  - split; [|eauto]. intros _ [Hle _].
    apply not_true_iff_false in Hlow. apply Hlow. apply Qleb_le.
    eapply Qle_trans; [|exact Hle]. discriminate.
Qed.

Lemma malformed_dec (d : DecisionData) : malformed d \/ ~ malformed d.
Proof.
  unfold malformed.
  destruct (Modality_of (get_or (dd_target_modality d) "VIDEO"))
    as [e|tm] eqn:Htm.
  { left. left. f_equal. eapply Modality_of_error. exact Htm. }
  destruct (TransitionTiming_of
              (get_or (dd_transition_timing d) "IMMEDIATE"))
    as [e|tt] eqn:Htt.
  { left. right; left. f_equal. eapply TransitionTiming_of_error. exact Htt. }
  destruct (Qlt_le_dec (get_or (dd_decision_confidence d) 0.8%Q) 0%Q)
    as [Hneg|Hlow].
  { left. right; right. intros [Hle _].
    apply (Qlt_irrefl 0). eapply Qle_lt_trans; [exact Hle | exact Hneg]. }
  destruct (Qlt_le_dec 1%Q (get_or (dd_decision_confidence d) 0.8%Q))
    as [Hbig|Hhigh].
  { left. right; right. intros [_ Hle].
    apply (Qlt_irrefl 1). eapply Qlt_le_trans; [exact Hbig | exact Hle]. }
  right. intros [H | [H | H]]; [discriminate H | discriminate H |].
  apply H. split; assumption.
Qed.

(** What the [try] block makes of a decision object that pydantic can
    read: the entries, with the defaults of the [get] calls for those that
    are missing, and the processing time measured by [invoke_model]. *)
Lemma decide_try_object
    (request : ModalityDecisionRequest) (d : DecisionData) (elapsed ms : Z) :
  ~ prompt_fails request ->
  decide_try build_prompt request (Some (Answers (JsonObject d) ms)) elapsed
  = (target ← Modality_of (get_or (dd_target_modality d) "VIDEO");
     timing ← TransitionTiming_of
                (get_or (dd_transition_timing d) "IMMEDIATE");
     new_ModalityDecisionResponse target timing
       (get_or (dd_reasoning d) "AI decision reasoning")
       (dd_fallback_strategy d)
       (get_or (dd_decision_confidence d) 0.8%Q)
       (get_or (dd_model_used d) "bedrock-claude-3.5-sonnet")
       (Some ms)).
Proof.
  unfold prompt_fails. intros Hkey.
  unfold decide_try, get_modality_decision, _build_modality_decision_prompt.
  cbn [ctx_key_concepts]. destruct (dr_key_concepts request); [|contradiction].
  reflexivity.
Qed.

Lemma decide_try_mistyped
    (request : ModalityDecisionRequest) (d : DecisionData) (elapsed ms : Z) :
  exists e,
    decide_try build_prompt request
      (Some (Answers (JsonObjectMistyped d) ms)) elapsed = inl e.
Proof.
  unfold decide_try, get_modality_decision, _build_modality_decision_prompt.
  cbn [ctx_key_concepts]. destruct (dr_key_concepts request); [|simpl; eauto].
  simpl.
  destruct (Modality_of _); [eauto|]. simpl.
  destruct (TransitionTiming_of _); [eauto|]. simpl. eauto.
Qed.

(** The [try] block raises exactly when the prompt cannot be built or the
    answer is one of [raised_into_decide]. *)
Lemma decide_try_raises_iff
    (request : ModalityDecisionRequest) (client : BedrockClient) (elapsed : Z) :
  (exists e, decide_try build_prompt request client elapsed = inl e)
  <-> prompt_fails request \/ raised_into_decide client.
Proof.
  destruct (dr_key_concepts request) as [concepts|] eqn:Hkey.
  2:{ split; [intros _; left; exact Hkey|]. intros _.
      exists TypeError. apply decide_try_prompt_fails. exact Hkey. }
  assert (Hbuilds : ~ prompt_fails request)
    by (unfold prompt_fails; congruence).
  split.
  - intros [e He]. right. destruct client as [[|content ms]|].
    + destruct (decide_try_absorbed request (Some Raises) elapsed)
        as (r & Hr & _); [exact Hbuilds | left; reflexivity |]. congruence.
    + destruct content as [ | d | | d ].
      * destruct (decide_try_absorbed request (Some (Answers NotJson ms))
                    elapsed) as (r & Hr & _);
          [exact Hbuilds | right; eauto |]. congruence.
      * exists ms. right; right. exists d. split; [reflexivity|].
        rewrite (decide_try_object request d elapsed ms Hbuilds) in He.
        unfold malformed.
        destruct (Modality_of (get_or (dd_target_modality d) "VIDEO"))
          as [e1|tm] eqn:Htm.
        { left. f_equal. eapply Modality_of_error. exact Htm. }
        destruct (TransitionTiming_of
                    (get_or (dd_transition_timing d) "IMMEDIATE"))
          as [e2|tt] eqn:Htt.
        { right; left. f_equal. eapply TransitionTiming_of_error. exact Htt. }
        right; right. simpl in He.
        eapply new_ModalityDecisionResponse_raises. eauto.
      * exists ms. left. reflexivity.
      * exists ms. right; left. exists d. reflexivity.
    + exfalso. revert He.
      unfold decide_try, get_modality_decision,
        _build_modality_decision_prompt, invoke_model, _get_mock_response.
      cbn [ctx_key_concepts]. rewrite Hkey. cbn [mbind Exc_bind mret Exc_ret].
      destruct (contains "800" _ || contains "low" _); discriminate.
  - intros [Hfails | [ms [-> | [[d ->] | [d [-> Hbad]]]]]].
    + contradiction.
    + exists TypeError. apply decide_try_not_object.
    + apply decide_try_mistyped.
    + rewrite (decide_try_object request d elapsed ms Hbuilds).
      destruct Hbad as [Htm | [Htt | Hconf]].
      * rewrite Htm. simpl. eauto.
      * destruct (Modality_of _); [simpl; eauto|]. simpl. rewrite Htt.
        simpl. eauto.
      * destruct (Modality_of _); [simpl; eauto|]. simpl.
        destruct (TransitionTiming_of _); [simpl; eauto|]. simpl.
        apply new_ModalityDecisionResponse_raises. exact Hconf.
Qed.

(** The [except] branch: the safe fallback is returned and the session
    table is the one the call started with. *)
Lemma decide_raised
    (states : SessionStates) (request : ModalityDecisionRequest)
    (client : BedrockClient) (elapsed : Z) (now : Q) (e : PyError) :
  decide_try build_prompt request client elapsed = inl e ->
  decide_modality_transition build_prompt states request client elapsed now
  = (states, _get_safe_fallback_decision request).
Proof.
  intros Hraised. unfold decide_modality_transition. rewrite Hraised.
  reflexivity.
Qed.

(** When the [try] block completes, the session of the request has an
    entry afterwards, with the target of the response as its modality. *)
Lemma decide_returned
    (states : SessionStates) (request : ModalityDecisionRequest)
    (client : BedrockClient) (elapsed : Z) (now : Q)
    (response : ModalityDecisionResponse) :
  decide_try build_prompt request client elapsed = inr response ->
  snd (decide_modality_transition build_prompt states request client
         elapsed now) = response
  /\ st_current_modality
       <$> get_session_status
             (fst (decide_modality_transition build_prompt states request
                     client elapsed now))
             (dr_session_id request)
     = Some (target_modality response).
Proof.
  intros Hreturned. unfold decide_modality_transition. rewrite Hreturned.
  split; [reflexivity|].
  unfold get_session_status, _update_session_state. simpl.
  destruct (decide (dr_current_modality request <> target_modality response));
    simpl; rewrite lookup_insert_eq; reflexivity.
Qed.

(** Without a client the answer is the built-in mock, which is not a
    fallback decision. *)
Lemma decide_without_client
    (states : SessionStates) (request : ModalityDecisionRequest)
    (elapsed : Z) (now : Q) :
  ~ prompt_fails request ->
  let response :=
    snd (decide_modality_transition build_prompt states request None
           elapsed now) in
  (target_modality response = AUDIO
   /\ transition_timing response = WAIT_2S
   /\ decision_confidence response = 0.85%Q
   \/ target_modality response = VIDEO
      /\ transition_timing response = IMMEDIATE
      /\ decision_confidence response = 0.90%Q)
  /\ model_used response = "bedrock-claude-3.5-sonnet"
  /\ contains "[Fallback" (reasoning response) = false
  /\ processing_time_ms response = Some 300%Z.
Proof.
  unfold prompt_fails. intros Hkey.
  unfold decide_modality_transition, decide_try, get_modality_decision,
    _build_modality_decision_prompt, invoke_model, _get_mock_response.
  cbn [ctx_key_concepts]. destruct (dr_key_concepts request); [|contradiction].
  cbn [mbind Exc_bind mret Exc_ret].
  destruct (contains "800" _ || contains "low" _); simpl.
  - split; [left; repeat split | repeat split].
  - split; [right; repeat split | repeat split].
Qed.

(** What a readable, well-formed decision object becomes. *)
Lemma decide_object
    (states : SessionStates) (request : ModalityDecisionRequest)
    (d : DecisionData) (ms elapsed : Z) (now : Q) :
  ~ prompt_fails request ->
  ~ malformed d ->
  let response :=
    snd (decide_modality_transition build_prompt states request
           (Some (Answers (JsonObject d) ms)) elapsed now) in
  Modality_of (get_or (dd_target_modality d) "VIDEO")
  = inr (target_modality response)
  /\ TransitionTiming_of (get_or (dd_transition_timing d) "IMMEDIATE")
     = inr (transition_timing response)
  /\ reasoning response = get_or (dd_reasoning d) "AI decision reasoning"
  /\ fallback_strategy response = dd_fallback_strategy d
  /\ decision_confidence response = get_or (dd_decision_confidence d) 0.8%Q
  /\ model_used response
     = get_or (dd_model_used d) "bedrock-claude-3.5-sonnet"
  /\ processing_time_ms response = Some ms.
Proof.
  intros Hkey Hwell. cbv zeta. unfold decide_modality_transition.
  rewrite (decide_try_object request d elapsed ms Hkey).
  destruct (Modality_of (get_or (dd_target_modality d) "VIDEO"))
    as [e|tm] eqn:Htm.
  { exfalso. apply Hwell. left. rewrite Htm. f_equal.
    eapply Modality_of_error. exact Htm. }
  cbn [mbind Exc_bind].
  destruct (TransitionTiming_of
              (get_or (dd_transition_timing d) "IMMEDIATE"))
    as [e|tt] eqn:Htt.
  { exfalso. apply Hwell. right; left. rewrite Htt. f_equal.
    eapply TransitionTiming_of_error. exact Htt. }
  cbn [mbind Exc_bind].
  destruct (new_ModalityDecisionResponse tm tt _ _ _ _ _)
    as [e|response] eqn:Hnew.
  { exfalso. apply Hwell. right; right.
    eapply new_ModalityDecisionResponse_raises. eauto. }
  unfold new_ModalityDecisionResponse in Hnew.
  destruct (Qleb 0.0 _ && Qleb _ 1.0); [|discriminate Hnew].
  injection Hnew as <-. cbn. repeat split.
Qed.

(** C1, amended.  [decide_modality_transition] returns a rule-based
    decision with confidence 0.6 and a reasoning tagged as a fallback in
    two cases.  (1) An exception inside the method: the prompt cannot be
    built because [key_concepts] is null, the answer is JSON but not an
    object, or it is an object that names an unknown modality or timing
    or holds a confidence outside [0, 1] or a value of the wrong type.
    The target is then VIDEO for a bandwidth of at least 1000 Kbps, AUDIO
    for at least 500 Kbps and TEXT_SUMMARY below, with timing IMMEDIATE.
    (2) A failure absorbed by the Bedrock client: the invocation raises
    or times out, or the answer is not JSON.  The target is then VIDEO
    with timing IMMEDIATE only when the bandwidth is at least 1000 Kbps
    and the visual dependency score is below 0.7; otherwise AUDIO with
    timing WAIT_2S for at least 500 Kbps, and TEXT_SUMMARY with timing
    IMMEDIATE below.  A missing client is answered from the built-in mock
    (confidence 0.85 or 0.90, no tag), and an answer object with missing
    entries is completed with defaults (VIDEO, IMMEDIATE, 0.8 and no tag
    for the empty object); neither is a fallback.  Every call is of one
    of these kinds.  A bandwidth of 1200 Kbps with a visual dependency
    score below 0.7 yields VIDEO on both fallback paths. *)
Theorem decide_fallback_rules
    (states : SessionStates) (request : ModalityDecisionRequest)
    (client : BedrockClient) (elapsed : Z) (now : Q) :
  let response :=
    snd (decide_modality_transition build_prompt states request client
           elapsed now) in
  let bandwidth := dr_available_bandwidth_kbps request in
  let visual_dependency := dr_visual_dependency_score request in
  (prompt_fails request \/ raised_into_decide client
   \/ absorbed_by_client client \/ client = None
   \/ exists d ms, client = Some (Answers (JsonObject d) ms) /\ ~ malformed d)
  /\ (prompt_fails request \/ raised_into_decide client ->
     ((1000 <= bandwidth)%Q -> target_modality response = VIDEO)
     /\ ((500 <= bandwidth)%Q -> (bandwidth < 1000)%Q ->
         target_modality response = AUDIO)
     /\ ((bandwidth < 500)%Q -> target_modality response = TEXT_SUMMARY)
     /\ transition_timing response = IMMEDIATE
     /\ decision_confidence response = 0.6%Q
     /\ model_used response = "rule-based-fallback"
     /\ contains "[Fallback" (reasoning response) = true)
  /\ (~ prompt_fails request -> absorbed_by_client client ->
     ((1000 <= bandwidth)%Q -> (visual_dependency < 0.7)%Q ->
        target_modality response = VIDEO
        /\ transition_timing response = IMMEDIATE)
     /\ ((500 <= bandwidth)%Q ->
         ~ ((1000 <= bandwidth)%Q /\ (visual_dependency < 0.7)%Q) ->
         target_modality response = AUDIO
         /\ transition_timing response = WAIT_2S)
     /\ ((bandwidth < 500)%Q ->
         target_modality response = TEXT_SUMMARY
         /\ transition_timing response = IMMEDIATE)
     /\ decision_confidence response = 0.6%Q
     /\ model_used response = "rule-based-fallback"
     /\ contains "[Fallback" (reasoning response) = true)
  /\ (~ prompt_fails request -> client = None ->
     (decision_confidence response = 0.85%Q
      \/ decision_confidence response = 0.90%Q)
     /\ model_used response = "bedrock-claude-3.5-sonnet"
     /\ contains "[Fallback" (reasoning response) = false)
  /\ (~ prompt_fails request ->
      forall d ms, client = Some (Answers (JsonObject d) ms) ->
      ~ malformed d ->
      Modality_of (get_or (dd_target_modality d) "VIDEO")
      = inr (target_modality response)
      /\ TransitionTiming_of (get_or (dd_transition_timing d) "IMMEDIATE")
         = inr (transition_timing response)
      /\ reasoning response = get_or (dd_reasoning d) "AI decision reasoning"
      /\ decision_confidence response
         = get_or (dd_decision_confidence d) 0.8%Q
      /\ model_used response
         = get_or (dd_model_used d) "bedrock-claude-3.5-sonnet")
  /\ (~ prompt_fails request ->
      forall ms, client = Some (Answers (JsonObject empty_decision) ms) ->
      target_modality response = VIDEO
      /\ transition_timing response = IMMEDIATE
      /\ decision_confidence response = 0.8%Q
      /\ model_used response = "bedrock-claude-3.5-sonnet"
      /\ contains "[Fallback" (reasoning response) = false)
  /\ ((bandwidth == 1200)%Q -> (visual_dependency < 0.7)%Q ->
      prompt_fails request \/ raised_into_decide client
      \/ absorbed_by_client client ->
      target_modality response = VIDEO).
Proof.
  intros response bandwidth visual_dependency.
  assert (Hraised :
    prompt_fails request \/ raised_into_decide client ->
    response = _get_safe_fallback_decision request).
  { intros Hclient.
    apply (decide_try_raises_iff request client elapsed) in Hclient
      as [e He].
    subst response.
    rewrite (decide_raised states request client elapsed now e He).
    reflexivity. }
  assert (Habsorbed :
    ~ prompt_fails request ->
    absorbed_by_client client ->
    Some (Modality_value (target_modality response))
    = dd_target_modality (_get_fallback_decision (context_of request))
    /\ Some (TransitionTiming_value (transition_timing response))
       = dd_transition_timing (_get_fallback_decision (context_of request))
    /\ Some (reasoning response)
       = dd_reasoning (_get_fallback_decision (context_of request))
    /\ decision_confidence response = 0.6%Q
    /\ model_used response = "rule-based-fallback").
  { intros Hkey Hclient. subst response.
    destruct (decide_try_absorbed request client elapsed Hkey Hclient)
      as (r & Hr & H1 & H2 & H3 & H4 & H5 & _).
    unfold decide_modality_transition. rewrite Hr.
    repeat split; assumption. }
  assert (Hrule :
    ~ prompt_fails request ->
    absorbed_by_client client ->
    ((1000 <= bandwidth)%Q -> (visual_dependency < 0.7)%Q ->
       target_modality response = VIDEO
       /\ transition_timing response = IMMEDIATE)
    /\ ((500 <= bandwidth)%Q ->
        ~ ((1000 <= bandwidth)%Q /\ (visual_dependency < 0.7)%Q) ->
        target_modality response = AUDIO
        /\ transition_timing response = WAIT_2S)
    /\ ((bandwidth < 500)%Q ->
        target_modality response = TEXT_SUMMARY
        /\ transition_timing response = IMMEDIATE)
    /\ decision_confidence response = 0.6%Q
    /\ model_used response = "rule-based-fallback"
    /\ contains "[Fallback" (reasoning response) = true).
  { intros Hkey Hclient.
    destruct (Habsorbed Hkey Hclient)
      as (Htarget & Htiming & Hwhy & Hconf & Hmodel).
    destruct (fallback_decision_cases (context_of request))
      as (_ & _ & _ & _ & Hcases).
    cbn [context_of ctx_available_bandwidth_kbps ctx_visual_dependency_score]
      in Hcases.
    fold bandwidth visual_dependency in Hcases.
    destruct Hcases as [(Hb & Hv & Ht & Hti & Hr)
                       | [(Hb & Hnot & Ht & Hti & Hr) | (Hb & Ht & Hti & Hr)]];
      rewrite Ht in Htarget; rewrite Hti in Htiming; rewrite Hr in Hwhy;
      injection Hwhy as ->;
      destruct (target_modality response); try discriminate Htarget;
      destruct (transition_timing response); try discriminate Htiming.
    - split; [auto|]. split; [intros _ Hn; exfalso; apply Hn; auto|].
      split; [|auto].
      intros Hlow. exfalso. apply (Qlt_irrefl 500).
      eapply Qle_lt_trans; [|exact Hlow].
      eapply Qle_trans; [|exact Hb]. discriminate.
    - split; [intros H1 H2; exfalso; apply Hnot; auto|].
      split; [auto|]. split; [|auto].
      intros Hlow. exfalso. apply (Qlt_irrefl 500).
      eapply Qle_lt_trans; [exact Hb | exact Hlow].
    - assert (Hfalse : (500 <= bandwidth)%Q -> False).
      { intros Hge. apply (Qlt_irrefl 500).
        eapply Qle_lt_trans; [exact Hge | exact Hb]. }
      split; [intros Hge _; exfalso; apply Hfalse|].
      { eapply Qle_trans; [|exact Hge]. discriminate. }
      split; [intros Hge _; exfalso; apply Hfalse; exact Hge|].
      auto. }
  split.
  { destruct (dr_key_concepts request) as [concepts|] eqn:Hkey;
      [|left; exact Hkey].
    right. destruct client as [[|content ms]|].
    - right; left. left. reflexivity.
    - destruct content as [ | d | | d ].
      + right; left. right. eauto.
      + destruct (malformed_dec d) as [Hbad|Hwell].
        * left. exists ms. right; right. eauto.
        * right; right; right. eauto.
      + left. exists ms. left. reflexivity.
      + left. exists ms. right; left. eauto.
    - right; right; left. reflexivity. }
  split.
  { intros Hclient. rewrite (Hraised Hclient).
    apply safe_fallback_decision_cases. }
  split; [exact Hrule|].
  split.
  { intros Hkey ->. subst response.
    destruct (decide_without_client states request elapsed now Hkey)
      as ([(_ & _ & Hconf) | (_ & _ & Hconf)] & Hmodel & Htag & _);
      (split; [|split; assumption]); [left | right]; exact Hconf. }
  split.
  { intros Hkey d ms -> Hwell. subst response.
    destruct (decide_object states request d ms elapsed now Hkey Hwell)
      as (H1 & H2 & H3 & _ & H5 & H6 & _).
    repeat split; assumption. }
  split.
  { intros Hkey ms ->. subst response.
    assert (Hwell : ~ malformed empty_decision).
    { intros [H | [H | H]]; [discriminate H | discriminate H |].
      apply H. split; discriminate. }
    destruct (decide_object states request empty_decision ms elapsed now
                Hkey Hwell) as (H1 & H2 & H3 & _ & H5 & H6 & _).
    cbn in H1, H2, H3, H5, H6.
    injection H1 as <-. injection H2 as <-. rewrite H3.
    repeat split; assumption. }
  intros Hb Hv [Hclient | [Hclient | Hclient]].
  - rewrite (Hraised (or_introl Hclient)).
    apply safe_fallback_decision_cases.
    fold bandwidth. rewrite Hb. discriminate.
  - rewrite (Hraised (or_intror Hclient)).
    apply safe_fallback_decision_cases.
    fold bandwidth. rewrite Hb. discriminate.
  - destruct (dr_key_concepts request) as [concepts|] eqn:Hkey.
    + apply (Hrule ltac:(unfold prompt_fails; congruence) Hclient);
        [rewrite Hb; discriminate | exact Hv].
    + rewrite (Hraised (or_introl Hkey)).
      apply safe_fallback_decision_cases.
      fold bandwidth. rewrite Hb. discriminate.
Qed.

End OracleFailures.

Lemma decide_fallback_rules_witness :
  let request :=
    decision_request "device_abc123" "session_xyz789" VIDEO 1200 0.5 120.5 in
  let absorbed :=
    snd (decide_modality_transition modality_prompt ∅ request (Some Raises)
           450 1709251200) in
  let raised :=
    snd (decide_modality_transition modality_prompt ∅ request
           (Some (Answers JsonOther 450)) 450 1709251200) in
  let empty :=
    snd (decide_modality_transition modality_prompt ∅ request
           (Some (Answers (JsonObject empty_decision) 450)) 450
           1709251200) in
  (~ prompt_fails request
   /\ absorbed_by_client (Some Raises)
   /\ (1000 <= dr_available_bandwidth_kbps request)%Q
   /\ (dr_visual_dependency_score request < 0.7)%Q
   /\ target_modality absorbed = VIDEO
   /\ transition_timing absorbed = IMMEDIATE)
  /\ (raised_into_decide (Some (Answers JsonOther 450))
      /\ target_modality raised = VIDEO
      /\ transition_timing raised = IMMEDIATE
      /\ decision_confidence raised = 0.6%Q)
  /\ (target_modality empty = VIDEO
      /\ decision_confidence empty = 0.8%Q
      /\ contains "[Fallback" (reasoning empty) = false).
Proof.
  intros request absorbed raised empty.
  assert (Hkey : ~ prompt_fails request) by (vm_compute; discriminate).
  assert (Hclient : absorbed_by_client (Some Raises)) by (left; reflexivity).
  assert (Hb : (1000 <= dr_available_bandwidth_kbps request)%Q)
    by (vm_compute; discriminate).
  assert (Hv : (dr_visual_dependency_score request < 0.7)%Q)
    by (vm_compute; reflexivity).
  assert (Hraised : raised_into_decide (Some (Answers JsonOther 450)))
    by (exists 450%Z; left; reflexivity).
  split; [|split].
  - split; [exact Hkey|]. split; [exact Hclient|].
    split; [exact Hb|]. split; [exact Hv|].
    exact (proj1 (proj1 (proj2 (proj2 (decide_fallback_rules modality_prompt ∅
                                  request (Some Raises) 450 1709251200)))
                    Hkey Hclient) Hb Hv).
  - split; [exact Hraised|].
    pose proof (proj1 (proj2 (decide_fallback_rules modality_prompt ∅ request
                         (Some (Answers JsonOther 450)) 450 1709251200))
                  (or_intror Hraised)) as (Hvideo & _ & _ & Htiming & Hconf & _).
    split; [exact (Hvideo Hb)|]. split; [exact Htiming | exact Hconf].
  - pose proof (proj1 (proj2 (proj2 (proj2 (proj2 (proj2
                  (decide_fallback_rules modality_prompt ∅ request
                     (Some (Answers (JsonObject empty_decision) 450)) 450
                     1709251200))))))
                  Hkey 450%Z eq_refl) as (Hvideo & _ & Hconf & _ & Htag).
    split; [exact Hvideo|]. split; [exact Hconf | exact Htag].
Defined.

(** C1 as stated fails: with a bandwidth of 1200 Kbps and a visual
    dependency score of 0.8, an invocation that raises (a timeout) is
    answered by the rule inside the Bedrock client with AUDIO and WAIT_2S,
    where the claim has VIDEO and IMMEDIATE; and a missing client is
    answered from the mock, whose confidence is not 0.6 and whose
    reasoning carries no fallback tag. *)
Lemma fallback_inside_client_differs :
  let request :=
    decision_request "device_abc123" "session_xyz789" VIDEO 1200 0.8 120.5 in
  let timed_out :=
    snd (decide_modality_transition modality_prompt ∅ request (Some Raises)
           450 1709251200) in
  let no_client :=
    snd (decide_modality_transition modality_prompt ∅ request None
           450 1709251200) in
  (1000 <= dr_available_bandwidth_kbps request)%Q
  /\ target_modality timed_out = AUDIO
  /\ transition_timing timed_out = WAIT_2S
  /\ decision_confidence timed_out = 0.6%Q
  /\ model_used timed_out = "rule-based-fallback"
  /\ ~ (decision_confidence no_client == 0.6)%Q
  /\ model_used no_client = "bedrock-claude-3.5-sonnet"
  /\ contains "[Fallback" (reasoning no_client) = false.
Proof.
  intros request timed_out no_client.
  split; [vm_compute; discriminate|].
  split; [vm_compute; reflexivity|].
  split; [vm_compute; reflexivity|].
  split; [vm_compute; reflexivity|].
  split; [vm_compute; reflexivity|].
  split; [vm_compute; discriminate|].
  split; vm_compute; reflexivity.
Qed.

(* ===================================================================== *)
(** * The session update on the except path *)
(* ===================================================================== *)

(** C2.  The code misses the session update on one path.  When Bedrock
    answers with a JSON object whose [target_modality] is not a member of
    [Modality], the [try] block raises, the safe fallback (here AUDIO for
    700 Kbps, away from the current VIDEO) is returned, and the session has
    no entry afterwards.  On the sibling path, where the client absorbs the
    failure, the same request leaves an entry with the new modality and
    one counted transition. *)
Theorem decide_except_path_skips_session_update :
  let request :=
    decision_request "device_abc123" "session_xyz789" VIDEO 700 0.5 120.5 in
  let answer :=
    JsonObject
      {| dd_target_modality := Some "TEXT";
         dd_transition_timing := Some "IMMEDIATE";
         dd_reasoning := Some "Bandwidth too low for audio.";
         dd_fallback_strategy := None;
         dd_decision_confidence := Some 0.9%Q;
         dd_model_used := None;
         dd_processing_time_ms := None |} in
  let raised :=
    decide_modality_transition modality_prompt ∅ request
      (Some (Answers answer 450)) 450 1709251200 in
  let absorbed :=
    decide_modality_transition modality_prompt ∅ request
      (Some Raises) 450 1709251200 in
  decide_try modality_prompt request (Some (Answers answer 450)) 450
    = inl ValueError
  /\ target_modality (snd raised) = AUDIO
  /\ model_used (snd raised) = "rule-based-fallback"
  /\ get_session_status (fst raised) "session_xyz789" = None
  /\ target_modality (snd absorbed) = AUDIO
  /\ st_current_modality <$> get_session_status (fst absorbed) "session_xyz789"
     = Some AUDIO
  /\ st_transition_count <$> get_session_status (fst absorbed) "session_xyz789"
     = Some 1%Z.
Proof.
  intros request answer raised absorbed.
  repeat split; vm_compute; reflexivity.
Qed.

(* ===================================================================== *)
(** * The least-squares slope *)
(* ===================================================================== *)

Lemma Qsquare_nonneg (x : Q) : (0 <= x * x)%Q.
Proof.
  destruct (Qlt_le_dec x 0) as [Hneg|Hpos].
  - assert (Hsq : (x * x == (- x) * (- x))%Q) by ring.
    rewrite Hsq.
    apply Qmult_le_0_compat; apply (Qopp_le_compat x 0);
      apply Qlt_le_weak; exact Hneg.
  - apply Qmult_le_0_compat; exact Hpos.
Qed.

Lemma Qsum_squares_nonneg (f : Q -> Q) (l : list Q) :
  (0 <= Qsum (map (fun x => f x * f x)%Q l))%Q.
Proof.
  induction l as [|x l IH]; simpl.
  - discriminate.
  - apply (Qle_trans _ (0 + 0)%Q); [discriminate|].
    apply Qplus_le_compat; [apply Qsquare_nonneg | exact IH].
Qed.

(** On a window of [sequence_length] points, the line of [polyfit_slope]
    and [polyfit_intercept] has the least sum of squared residuals among
    all lines: the error of any other line exceeds it by a sum of
    squares. *)
Lemma polyfit_least_squares (ys : list Q) (a b : Q) :
  length ys = LSTMPredictor.sequence_length ->
  (squared_error ys (polyfit_slope ys) (polyfit_intercept ys)
   <= squared_error ys a b)%Q.
Proof.
  intros Hlen. unfold LSTMPredictor.sequence_length in Hlen.
  do 10 (destruct ys as [|? ys]; [discriminate Hlen|]).
  destruct ys; [|discriminate Hlen]. clear Hlen.
  set (ys := [q; q0; q1; q2; q3; q4; q5; q6; q7; q8]).
  assert (Hsplit :
    (squared_error ys a b
     == squared_error ys (polyfit_slope ys) (polyfit_intercept ys)
        + Qsum (map (fun x =>
                       ((a - polyfit_slope ys) * x + (b - polyfit_intercept ys))
                       * ((a - polyfit_slope ys) * x
                          + (b - polyfit_intercept ys)))
                  (indices 10)))%Q).
  { subst ys.
    unfold squared_error, polyfit_intercept, polyfit_slope, indices, Qsum.
    simpl. field. }
  rewrite Hsplit.
  eapply Qle_trans; [|apply Qplus_le_compat; [apply Qle_refl|]].
  - rewrite Qplus_0_r. apply Qle_refl.
  - apply (Qsum_squares_nonneg
             (fun x => (a - polyfit_slope ys) * x
                       + (b - polyfit_intercept ys))%Q).
Qed.

(* ===================================================================== *)
(** * The heuristic predictor *)
(* ===================================================================== *)

Lemma new_SignalDropPrediction_valid
    (device_id session_id : string) (timestamp confidence : Q)
    (time_to_drop bandwidth : Q) (horizon : Z)
    (version type : string) (features : list string) :
  (0 <= confidence)%Q -> (confidence <= 1)%Q ->
  (0 <= time_to_drop)%Q -> (time_to_drop <= 10)%Q ->
  (0 <= bandwidth)%Q ->
  new_SignalDropPrediction device_id session_id timestamp confidence
    time_to_drop bandwidth horizon version type features
  = inr {| p_device_id := device_id;
           p_session_id := session_id;
           p_timestamp := timestamp;
           p_confidence := confidence;
           p_predicted_time_seconds := time_to_drop;
           p_predicted_bandwidth_kbps := bandwidth;
           p_prediction_horizon_seconds := horizon;
           p_model_version := version;
           p_predictor_type := type;
           p_features_used := features |}.
Proof.
  intros Hc0 Hc1 Ht0 Ht1 Hb. unfold new_SignalDropPrediction.
  assert (Qleb 0.0 confidence = true) as ->
    by (apply Qleb_le; eapply Qle_trans; [|exact Hc0]; discriminate).
  assert (Qleb confidence 1.0 = true) as ->
    by (apply Qleb_le; eapply Qle_trans; [exact Hc1|]; discriminate).
  assert (Qleb 0.0 time_to_drop = true) as ->
    by (apply Qleb_le; eapply Qle_trans; [|exact Ht0]; discriminate).
  assert (Qleb time_to_drop 10.0 = true) as ->
    by (apply Qleb_le; eapply Qle_trans; [exact Ht1|]; discriminate).
  assert (Qleb 0 bandwidth = true) as -> by (apply Qleb_le; exact Hb).
  reflexivity.
Qed.

Lemma time_to_drop_bounds (declining : bool) (x : Q) :
  let t := if declining then Qmax 0.5 (Qmin 5.0 x) else 3.0%Q in
  (0 <= t)%Q /\ (t <= 10)%Q.
Proof.
  destruct declining; simpl.
  - split.
    + eapply Qle_trans; [|apply Q.le_max_l]. discriminate.
    + apply Q.max_lub; [discriminate|].
      eapply Qle_trans; [apply Q.le_min_l|]. discriminate.
  - split; discriminate.
Qed.

(** Replace every test of the goal that evaluates to a boolean constant by
    that constant. *)
Ltac eval_tests :=
  repeat match goal with
  | |- context [if ?c then _ else _] =>
      let v := eval vm_compute in c in
      match v with
      | true => change c with true
      | false => change c with false
      end; cbv iota
  end.

Lemma last_inject_Z (l : list Z) :
  List.last (map inject_Z l) 0%Q = inject_Z (List.last l 0%Z).
Proof.
  induction l as [|x [|y l] IH]; [reflexivity | reflexivity |].
  exact IH.
Qed.

(** The code follows the rule on the slopes that numpy returns: it emits
    exactly when the confidence of the rule reaches the threshold, and
    then with that confidence.  The sum is exact here and rounded in the
    code, where 0.6 + 0.2 + 0.15 is 0.9500000000000001; the two agree to
    within 1e-15, and on which side of 0.75 they lie. *)
Lemma predict_with_heuristic_rule
    (self : LSTMPredictor.t) (window : list NetworkTelemetry)
    (device_id session_id : string) (now : Q)
    (signal_trend bandwidth_trend latency_trend : Q) :
  LSTMPredictor.polyfit self (signal_series window) = inr signal_trend ->
  LSTMPredictor.polyfit self (bandwidth_series window) = inr bandwidth_trend ->
  LSTMPredictor.polyfit self (latency_series window) = inr latency_trend ->
  if Qgeb (rule_confidence signal_trend bandwidth_trend latency_trend window)
          0.75
  then exists p,
         LSTMPredictor._predict_with_heuristic self window
           device_id session_id now = inr (Some p)
         /\ (Qabs (p_confidence p
                   - rule_confidence signal_trend bandwidth_trend
                       latency_trend window)
             <= 0.000000000000001)%Q
         /\ (0.75 <= p_confidence p <= 1)%Q
         /\ p_predictor_type p = "heuristic"
         /\ p_device_id p = device_id /\ p_session_id p = session_id
         /\ p_timestamp p = now
         /\ p_prediction_horizon_seconds p = 5%Z
         /\ (0.5 <= p_predicted_time_seconds p <= 5)%Q
         /\ (0 <= p_predicted_bandwidth_kbps p)%Q
  else LSTMPredictor._predict_with_heuristic self window
         device_id session_id now = inr None.
Proof.
  unfold signal_series, bandwidth_series, latency_series.
  intros Hsignal Hbandwidth Hlatency.
  unfold LSTMPredictor._predict_with_heuristic, rule_confidence.
  rewrite Hsignal, Hbandwidth, Hlatency.
  cbn [mbind Exc_bind]. cbv zeta.
  rewrite <- (map_map t_latency_ms inject_Z), last_inject_Z.
  generalize (List.last (map t_signal_strength window) 0%Q).
  generalize (List.last (map t_bandwidth_kbps window) 0%Q).
  generalize (inject_Z (List.last (map t_latency_ms window) 0%Z)).
  intros current_latency current_bandwidth current_signal.
  assert (Htime : forall (declining : bool) (x : Q),
            (0.5 <= (if declining then Qmax 0.5 (Qmin 5.0 x) else 3.0)
             <= 5)%Q).
  { intros [|] x.
    - split; [apply Q.le_max_l|].
      apply Q.max_lub; [discriminate|].
      eapply Qle_trans; [apply Q.le_min_l|]. discriminate.
    - split; discriminate. }
  destruct (Qltb signal_trend (-0.05));
  destruct (Qltb bandwidth_trend (-100));
  destruct (Qgtb latency_trend 50);
  destruct (Qltb current_signal 0.3);
  destruct (Qltb current_bandwidth 500);
  destruct (Qgtb current_latency 500);
  eval_tests.
  all: try reflexivity.
  all: rewrite new_SignalDropPrediction_valid;
    [ eexists; split; [reflexivity|];
      split; [vm_compute; discriminate|];
      split; [split; vm_compute; discriminate|];
      split; [reflexivity|]; split; [reflexivity|];
      split; [reflexivity|]; split; [reflexivity|];
      split; [reflexivity|];
      split; [first [apply Htime | split; discriminate] | apply Q.le_max_l]
    | vm_compute; discriminate
    | vm_compute; discriminate
    | first [apply (proj1 (time_to_drop_bounds _ _)) | discriminate]
    | first [apply (proj2 (time_to_drop_bounds _ _)) | discriminate]
    | apply Q.le_max_l ].
Qed.

(** An exception of one of the three fits leaves the method. *)
Lemma predict_with_heuristic_raises
    (self : LSTMPredictor.t) (window : list NetworkTelemetry)
    (device_id session_id : string) (now : Q) :
  (exists e,
     LSTMPredictor.polyfit self (signal_series window) = inl e
     \/ LSTMPredictor.polyfit self (bandwidth_series window) = inl e
     \/ LSTMPredictor.polyfit self (latency_series window) = inl e)
  <-> exists e,
        LSTMPredictor._predict_with_heuristic self window
          device_id session_id now = inl e.
Proof.
  split.
  - intros Hraises.
    unfold LSTMPredictor._predict_with_heuristic.
    fold (signal_series window) (bandwidth_series window)
      (latency_series window).
    destruct (LSTMPredictor.polyfit self (signal_series window))
      as [e1|s1]; [simpl; eauto|].
    destruct (LSTMPredictor.polyfit self (bandwidth_series window))
      as [e2|s2]; [simpl; eauto|].
    destruct (LSTMPredictor.polyfit self (latency_series window))
      as [e3|s3]; [simpl; eauto|].
    destruct Hraises as [e [H | [H | H]]]; discriminate H.
  - intros [e He].
    destruct (LSTMPredictor.polyfit self (signal_series window))
      as [e1|s1] eqn:H1; [eauto|].
    destruct (LSTMPredictor.polyfit self (bandwidth_series window))
      as [e2|s2] eqn:H2; [eauto|].
    destruct (LSTMPredictor.polyfit self (latency_series window))
      as [e3|s3] eqn:H3; [eauto|].
    exfalso.
    pose proof (predict_with_heuristic_rule self window device_id session_id
                  now s1 s2 s3 H1 H2 H3) as Hrule.
    destruct (Qgeb _ 0.75).
    + destruct Hrule as (p & Hp & _). congruence.
    + congruence.
Qed.

(** A computed slope on the same side of a threshold as the exact one. *)
Lemma clear_of_lt (eps threshold computed : Q) (series : Series) :
  clear_of eps threshold computed series ->
  Qltb computed threshold
  = Qltb (polyfit_slope (series_values series)) threshold.
Proof.
  unfold clear_of.
  generalize (polyfit_slope (series_values series)). intros exact.
  intros [Hnear Hfar]. apply Qabs_Qle_condition in Hnear as [Hlow Hhigh].
  destruct (Qlt_le_dec exact threshold) as [Hlt|Hge].
  - rewrite Qabs_neg in Hfar by lra.
    rewrite (proj2 (Qltb_lt exact threshold) Hlt).
    apply Qltb_lt. lra.
  - rewrite Qabs_pos in Hfar by lra.
    rewrite (proj2 (Qltb_ge exact threshold) Hge).
    apply Qltb_ge. lra.
Qed.

Lemma clear_of_gt (eps threshold computed : Q) (series : Series) :
  clear_of eps threshold computed series ->
  Qgtb computed threshold
  = Qgtb (polyfit_slope (series_values series)) threshold.
Proof.
  unfold clear_of.
  generalize (polyfit_slope (series_values series)). intros exact.
  intros [Hnear Hfar]. apply Qabs_Qle_condition in Hnear as [Hlow Hhigh].
  destruct (Qlt_le_dec threshold exact) as [Hlt|Hge].
  - rewrite Qabs_pos in Hfar by lra.
    rewrite (proj2 (Qgtb_gt exact threshold) Hlt).
    apply Qgtb_gt. lra.
  - rewrite Qabs_neg in Hfar by lra.
    assert (Qgtb exact threshold = false) as ->.
    { unfold Qgtb. apply negb_false_iff. apply Qle_bool_iff. exact Hge. }
    unfold Qgtb. apply negb_false_iff. apply Qle_bool_iff. lra.
Qed.

(** Away from the thresholds the rule on the computed slopes is the rule
    on the least-squares slopes. *)
Lemma rule_confidence_exact
    (eps signal_trend bandwidth_trend latency_trend : Q)
    (window : list NetworkTelemetry) :
  clear_of eps (-0.05) signal_trend (signal_series window) ->
  clear_of eps (-100) bandwidth_trend (bandwidth_series window) ->
  clear_of eps 50 latency_trend (latency_series window) ->
  rule_confidence signal_trend bandwidth_trend latency_trend window
  = spec_confidence window.
Proof.
  intros Hsignal Hbandwidth Hlatency.
  unfold spec_confidence, rule_confidence. cbv zeta.
  rewrite (clear_of_lt _ _ _ _ Hsignal), (clear_of_lt _ _ _ _ Hbandwidth),
    (clear_of_gt _ _ _ _ Hlatency).
  reflexivity.
Qed.

Lemma scenario_A_signal (latencies : list Z) :
  length latencies = 10%nat ->
  map t_signal_strength (scenario_A latencies)
  = map (fun i => 0.9 - inject_Z (Z.of_nat i) * (0.8 / 9))%Q (seq 0 10).
Proof.
  intros Hlen.
  do 10 (destruct latencies as [|? latencies]; [discriminate Hlen|]).
  destruct latencies; [reflexivity | discriminate Hlen].
Qed.

Lemma scenario_A_bandwidth (latencies : list Z) :
  length latencies = 10%nat ->
  map t_bandwidth_kbps (scenario_A latencies)
  = map (fun i => 3000 - inject_Z (Z.of_nat i) * (2800 / 9))%Q (seq 0 10).
Proof.
  intros Hlen.
  do 10 (destruct latencies as [|? latencies]; [discriminate Hlen|]).
  destruct latencies; [reflexivity | discriminate Hlen].
Qed.

Lemma scenario_A_length (latencies : list Z) :
  length latencies = 10%nat -> length (scenario_A latencies) = 10%nat.
Proof.
  intros Hlen. unfold scenario_A. rewrite length_zip_with, length_seq. lia.
Qed.

(** On scenario A the two falling series raise their flags for every
    computed slope within 0.03 (signal) and 200 (bandwidth) of the exact
    one, whatever the latencies do. *)
Lemma scenario_A_confidence
    (latencies : list Z) (signal_trend bandwidth_trend latency_trend : Q) :
  length latencies = 10%nat ->
  (Qabs (signal_trend
         - polyfit_slope
             (series_values (signal_series (scenario_A latencies))))
   <= 0.03)%Q ->
  (Qabs (bandwidth_trend
         - polyfit_slope
             (series_values (bandwidth_series (scenario_A latencies))))
   <= 200)%Q ->
  (0.75 <= rule_confidence signal_trend bandwidth_trend latency_trend
             (scenario_A latencies))%Q.
Proof.
  intros Hlen Hsignal Hbandwidth.
  unfold signal_series, bandwidth_series, series_values in *.
  unfold rule_confidence. cbv zeta.
  rewrite (scenario_A_signal _ Hlen) in *.
  rewrite (scenario_A_bandwidth _ Hlen) in *.
  assert (Hs : (polyfit_slope
                  (map (fun i => 0.9 - inject_Z (Z.of_nat i) * (0.8 / 9))
                     (seq 0 10)) == - (4 # 45))%Q)
    by (vm_compute; reflexivity).
  assert (Hb : (polyfit_slope
                  (map (fun i => 3000 - inject_Z (Z.of_nat i) * (2800 / 9))
                     (seq 0 10)) == - (2800 # 9))%Q)
    by (vm_compute; reflexivity).
  rewrite Hs in Hsignal. rewrite Hb in Hbandwidth.
  apply Qabs_Qle_condition in Hsignal as [_ Hsignal].
  apply Qabs_Qle_condition in Hbandwidth as [_ Hbandwidth].
  assert (Qltb signal_trend (-0.05) = true) as -> by (apply Qltb_lt; lra).
  assert (Qltb bandwidth_trend (-100) = true) as -> by (apply Qltb_lt; lra).
  generalize (List.last
                (map (fun p => inject_Z (t_latency_ms p)) (scenario_A latencies))
                0%Q).
  intros current_latency.
  destruct (Qgtb latency_trend 50); destruct (Qgtb current_latency 500);
    vm_compute; discriminate.
Qed.

(** C5, amended.  Without a loaded model, [predict_signal_drop] works on
    the most recent 10 points.  It has numpy fit the slopes of signal
    strength, bandwidth and latency, and raises when numpy raises on one
    of the three series.  On the slopes that numpy returns it raises the
    flags for a signal slope below -0.05, a bandwidth slope below -100
    and a latency slope above 50; starts from 0.6 when at least two flags
    are raised and from 0.0 otherwise; adds 0.2 for a current signal
    below 0.3, 0.15 for a current bandwidth below 500 and 0.15 for a
    current latency above 500; clamps the sum to [0, 1]
    ([rule_confidence]); and emits a prediction, with that confidence
    (up to the rounding of the sum) and predictor type "heuristic",
    exactly when the confidence is at least 0.75.  The result is that of the rule on the least-squares slopes
    ([spec_confidence]; [polyfit_slope] minimises the squared error)
    whenever each computed slope is within some [eps] of the least-squares
    slope and that slope is more than [eps] away from its threshold.  On
    the ten points of scenario A, with computed slopes within 0.03
    (signal) and 200 (bandwidth) of the least-squares slopes, it emits a
    prediction with confidence at least 0.75 and predictor type
    "heuristic". *)
Theorem heuristic_predictor_rule
    (self : LSTMPredictor.t) (telemetry_history : list NetworkTelemetry)
    (device_id session_id : string) (now : Q) :
  LSTMPredictor.model self = None ->
  (10 <= length telemetry_history)%nat ->
  let window := slice_last 10 telemetry_history in
  let result :=
    LSTMPredictor.predict_signal_drop self telemetry_history
      device_id session_id now in
  let fit := LSTMPredictor.polyfit self in
  ((exists e, fit (signal_series window) = inl e
              \/ fit (bandwidth_series window) = inl e
              \/ fit (latency_series window) = inl e)
   <-> exists e, result = inl e)
  /\ (forall signal_trend bandwidth_trend latency_trend,
        fit (signal_series window) = inr signal_trend ->
        fit (bandwidth_series window) = inr bandwidth_trend ->
        fit (latency_series window) = inr latency_trend ->
        let confidence :=
          rule_confidence signal_trend bandwidth_trend latency_trend
            window in
        ((0.75 <= confidence)%Q ->
         exists p, result = inr (Some p)
                   /\ (Qabs (p_confidence p - confidence)
                       <= 0.000000000000001)%Q
                   /\ (0.75 <= p_confidence p <= 1)%Q
                   /\ p_predictor_type p = "heuristic")
        /\ ((confidence < 0.75)%Q -> result = inr None)
        /\ (forall eps,
              clear_of eps (-0.05) signal_trend (signal_series window) ->
              clear_of eps (-100) bandwidth_trend (bandwidth_series window) ->
              clear_of eps 50 latency_trend (latency_series window) ->
              confidence = spec_confidence window)
        /\ (forall latencies,
              length latencies = 10%nat ->
              telemetry_history = scenario_A latencies ->
              (Qabs (signal_trend
                     - polyfit_slope (series_values (signal_series window)))
               <= 0.03)%Q ->
              (Qabs (bandwidth_trend
                     - polyfit_slope
                         (series_values (bandwidth_series window)))
               <= 200)%Q ->
              exists p, result = inr (Some p)
                        /\ (0.75 <= p_confidence p)%Q
                        /\ p_predictor_type p = "heuristic"))
  /\ (forall series, series ∈ [ signal_series window;
                                bandwidth_series window;
                                latency_series window ] ->
      forall a b,
        (squared_error (series_values series)
           (polyfit_slope (series_values series))
           (polyfit_intercept (series_values series))
         <= squared_error (series_values series) a b)%Q).
Proof.
  intros Hmodel Hlen window result fit.
  assert (Hwindow : length window = 10%nat).
  { subst window. unfold slice_last. rewrite length_drop. lia. }
  assert (Hresult :
    result = LSTMPredictor._predict_with_heuristic self window
               device_id session_id now).
  { subst result. unfold LSTMPredictor.predict_signal_drop.
    destruct (Nat.ltb_spec (length telemetry_history)
                LSTMPredictor.sequence_length) as [Hlt|_].
    - unfold LSTMPredictor.sequence_length in Hlt. lia.
    - rewrite Hmodel. reflexivity. }
  split.
  { rewrite Hresult. apply predict_with_heuristic_raises. }
  split.
  { intros signal_trend bandwidth_trend latency_trend H1 H2 H3 confidence.
    pose proof (predict_with_heuristic_rule self window device_id session_id
                  now signal_trend bandwidth_trend latency_trend H1 H2 H3)
      as Hrule.
    rewrite <- Hresult in Hrule. fold confidence in Hrule.
    assert (Hemit :
      (0.75 <= confidence)%Q ->
      exists p, result = inr (Some p)
                /\ (Qabs (p_confidence p - confidence)
                    <= 0.000000000000001)%Q
                /\ (0.75 <= p_confidence p <= 1)%Q
                /\ p_predictor_type p = "heuristic").
    { intros Hge. apply Qgeb_ge in Hge. rewrite Hge in Hrule.
      destruct Hrule as (p & Hp & Hconf & Hbounds & Htype & _). eauto. }
    split; [exact Hemit|].
    split.
    { intros Hlt. apply Qgeb_lt in Hlt. rewrite Hlt in Hrule. exact Hrule. }
    split.
    { intros eps. apply rule_confidence_exact. }
    intros latencies Hten Hscenario Hsignal Hbandwidth.
    assert (Hsame : window = scenario_A latencies).
    { subst window. rewrite Hscenario. apply slice_last_short.
      rewrite (scenario_A_length _ Hten). lia. }
    assert (Hconf : (0.75 <= confidence)%Q).
    { subst confidence. rewrite Hsame in *.
      apply scenario_A_confidence; assumption. }
    destruct (Hemit Hconf) as (p & Hp & _ & Hpc & Hpt).
    exists p. split; [exact Hp|]. split; [exact (proj1 Hpc) | exact Hpt]. }
  intros series Hseries a b. apply polyfit_least_squares.
  unfold LSTMPredictor.sequence_length.
  repeat (apply elem_of_cons in Hseries as [-> | Hseries];
          [cbn [series_values signal_series bandwidth_series latency_series];
           rewrite ?length_map; exact Hwindow|]).
  apply elem_of_nil in Hseries. contradiction.
Qed.

Lemma heuristic_predictor_rule_witness :
  let latencies := [100; 110; 120; 130; 140; 150; 160; 170; 180; 190]%Z in
  let window := slice_last 10 (scenario_A latencies) in
  LSTMPredictor.model heuristic_predictor = None
  /\ (10 <= length (scenario_A latencies))%nat
  /\ exists signal_trend bandwidth_trend latency_trend,
       LSTMPredictor.polyfit heuristic_predictor (signal_series window)
       = inr signal_trend
       /\ LSTMPredictor.polyfit heuristic_predictor (bandwidth_series window)
          = inr bandwidth_trend
       /\ LSTMPredictor.polyfit heuristic_predictor (latency_series window)
          = inr latency_trend
       /\ (Qabs (signal_trend
                 - polyfit_slope (series_values (signal_series window)))
           <= 0.03)%Q
       /\ (Qabs (bandwidth_trend
                 - polyfit_slope (series_values (bandwidth_series window)))
           <= 200)%Q
       /\ exists p,
            LSTMPredictor.predict_signal_drop heuristic_predictor
              (scenario_A latencies) "device_abc123" "session_xyz789"
              1709251210
            = inr (Some p)
            /\ (0.75 <= p_confidence p)%Q
            /\ p_predictor_type p = "heuristic".
Proof.
  intros latencies window.
  assert (Hmodel : LSTMPredictor.model heuristic_predictor = None)
    by reflexivity.
  assert (Hlen : (10 <= length (scenario_A latencies))%nat) by (simpl; lia).
  split; [exact Hmodel|]. split; [exact Hlen|].
  exists (polyfit_slope (series_values (signal_series window))),
         (polyfit_slope (series_values (bandwidth_series window))),
         (polyfit_slope (series_values (latency_series window))).
  assert (Hsignal :
    (Qabs (polyfit_slope (series_values (signal_series window))
           - polyfit_slope (series_values (signal_series window)))
     <= 0.03)%Q) by (vm_compute; discriminate).
  assert (Hbandwidth :
    (Qabs (polyfit_slope (series_values (bandwidth_series window))
           - polyfit_slope (series_values (bandwidth_series window)))
     <= 200)%Q) by (vm_compute; discriminate).
  split; [reflexivity|]. split; [reflexivity|]. split; [reflexivity|].
  split; [exact Hsignal|]. split; [exact Hbandwidth|].
  exact (proj2 (proj2 (proj2
           (proj1 (proj2
              (heuristic_predictor_rule heuristic_predictor
                 (scenario_A latencies)
                 "device_abc123" "session_xyz789" 1709251210 Hmodel Hlen))
              _ _ _ eq_refl eq_refl eq_refl)))
           latencies eq_refl eq_refl Hsignal Hbandwidth).
Defined.

(** C5 as stated fails where a computed slope and the exact one lie on
    different sides of a threshold, and where numpy cannot fit.  On
    [ramp_window] the least-squares slope of the bandwidth is exactly
    -100, which is not below -100: the worded rule raises one flag, has
    confidence 0.2 and emits nothing.  numpy returns -100.00000000000007,
    the code raises two flags and emits a prediction.  On scenario A with
    one latency of 2^70 ms numpy raises, and so does the method, where
    the claim has a prediction. *)
Lemma heuristic_rule_computed_slope :
  let predictor :=
    {| LSTMPredictor.model := None;
       LSTMPredictor.polyfit := observed_polyfit |} in
  let latencies :=
    [100; 110; 120; 130; 140; 150; 160; 170; 180; 2 ^ 70]%Z in
  (polyfit_slope (series_values (bandwidth_series ramp_window)) == -100)%Q
  /\ (spec_confidence ramp_window < 0.75)%Q
  /\ (exists p,
        LSTMPredictor.predict_signal_drop predictor ramp_window
          "device_abc123" "session_xyz789" 1709251210 = inr (Some p)
        /\ (0.75 <= p_confidence p)%Q
        /\ p_predictor_type p = "heuristic")
  /\ (0.75 <= spec_confidence (scenario_A latencies))%Q
  /\ LSTMPredictor.predict_signal_drop predictor (scenario_A latencies)
       "device_abc123" "session_xyz789" 1709251210 = inl TypeError.
Proof.
  intros predictor latencies.
  split; [vm_compute; reflexivity|].
  split; [vm_compute; reflexivity|].
  split.
  { eexists. split; [vm_compute; reflexivity|].
    split; [vm_compute; discriminate | reflexivity]. }
  split; [vm_compute; discriminate|].
  vm_compute. reflexivity.
Qed.

(* ===================================================================== *)
(** * Further properties: the network sentry agent *)
(* ===================================================================== *)

Lemma ingest_telemetry_batch_fold
    (batch : list NetworkTelemetry) (self : NetworkSentryAgent.t) (n : Z) :
  foldl (fun '(agent, success_count) telemetry =>
           let '(agent', ok) := NetworkSentryAgent.ingest_telemetry agent telemetry in
           (agent', if ok then (success_count + 1)%Z else success_count))
        (self, n) batch
  = (ingest_all self batch, (n + Z.of_nat (length batch))%Z).
Proof.
  revert self n. induction batch as [|point batch IH]; intros self n.
  - simpl. f_equal. lia.
  - cbn [foldl]. 
    change (let '(agent', ok) := NetworkSentryAgent.ingest_telemetry self point in
            (agent', if ok then (n + 1)%Z else n))
      with (fst (NetworkSentryAgent.ingest_telemetry self point), (n + 1)%Z).
    rewrite IH. unfold ingest_all. cbn [foldl length]. f_equal. lia.
Qed.

(** X1.  [ingest_telemetry_batch] ingests every point of the batch, one
    after the other as single [ingest_telemetry] calls would, and reports
    the length of the batch as the number of successes; the batch endpoint
    therefore always answers with [successful_points = total_points]. *)
Theorem submit_telemetry_batch_ingests_all
    (sentry : NetworkSentryAgent.t) (batch : TelemetryBatch) :
  let sentry' := fst (telemetry_api.submit_telemetry_batch sentry batch) in
  let result := snd (telemetry_api.submit_telemetry_batch sentry batch) in
  NetworkSentryAgent.ingest_telemetry_batch sentry (b_telemetry batch)
  = (ingest_all sentry (b_telemetry batch),
     Z.of_nat (length (b_telemetry batch)))
  /\ sentry' = ingest_all sentry (b_telemetry batch)
  /\ telemetry_api.successful_points result
     = Z.of_nat (telemetry_api.total_points result).
Proof.
  assert (H : NetworkSentryAgent.ingest_telemetry_batch sentry (b_telemetry batch)
  = (ingest_all sentry (b_telemetry batch),
     Z.of_nat (length (b_telemetry batch)))).
  { unfold NetworkSentryAgent.ingest_telemetry_batch.
    rewrite ingest_telemetry_batch_fold. reflexivity. }
  unfold telemetry_api.submit_telemetry_batch. rewrite H. simpl. auto.
Qed.

Lemma new_SignalDropPrediction_inv
    (device_id session_id : string) (timestamp confidence : Q)
    (time_to_drop bandwidth : Q) (horizon : Z)
    (version type : string) (features : list string)
    (p : SignalDropPrediction) :
  new_SignalDropPrediction device_id session_id timestamp confidence
    time_to_drop bandwidth horizon version type features = inr p ->
  p = {| p_device_id := device_id;
         p_session_id := session_id;
         p_timestamp := timestamp;
         p_confidence := confidence;
         p_predicted_time_seconds := time_to_drop;
         p_predicted_bandwidth_kbps := bandwidth;
         p_prediction_horizon_seconds := horizon;
         p_model_version := version;
         p_predictor_type := type;
         p_features_used := features |}
  /\ (0 <= confidence <= 1)%Q
  /\ (0 <= time_to_drop <= 10)%Q
  /\ (0 <= bandwidth)%Q.
Proof.
  unfold new_SignalDropPrediction.
  destruct (Qleb 0.0 confidence) eqn:H1; [|discriminate].
  destruct (Qleb confidence 1.0) eqn:H2; [|discriminate].
  destruct (Qleb 0.0 time_to_drop) eqn:H3; [|discriminate].
  destruct (Qleb time_to_drop 10.0) eqn:H4; [|discriminate].
  destruct (Qleb 0 bandwidth) eqn:H5; [|discriminate].
  simpl. intros [= <-].
  apply Qleb_le in H1, H2, H3, H4, H5.
  split; [reflexivity|].
  repeat split; try assumption.
  - eapply Qle_trans; [|exact H1]. discriminate.
  - eapply Qle_trans; [exact H2|]. discriminate.
  - eapply Qle_trans; [|exact H3]. discriminate.
  - eapply Qle_trans; [exact H4|]. discriminate.
Qed.

Lemma predict_with_heuristic_ids
    (self : LSTMPredictor.t) (window : list NetworkTelemetry)
    (device_id session_id : string) (now : Q)
    (p : SignalDropPrediction) :
  LSTMPredictor._predict_with_heuristic self window device_id session_id now
  = inr (Some p) ->
  p_device_id p = device_id /\ p_session_id p = session_id
  /\ p_timestamp p = now.
Proof.
  intros Hp.
  destruct (LSTMPredictor.polyfit self (signal_series window))
    as [e1|s1] eqn:H1.
  { exfalso. revert Hp. unfold LSTMPredictor._predict_with_heuristic.
    fold (signal_series window). rewrite H1. discriminate. }
  destruct (LSTMPredictor.polyfit self (bandwidth_series window))
    as [e2|s2] eqn:H2.
  { exfalso. revert Hp. unfold LSTMPredictor._predict_with_heuristic.
    fold (signal_series window) (bandwidth_series window).
    rewrite H1, H2. discriminate. }
  destruct (LSTMPredictor.polyfit self (latency_series window))
    as [e3|s3] eqn:H3.
  { exfalso. revert Hp. unfold LSTMPredictor._predict_with_heuristic.
    fold (signal_series window) (bandwidth_series window)
      (latency_series window).
    rewrite H1, H2, H3. discriminate. }
  pose proof (predict_with_heuristic_rule self window device_id session_id
                now s1 s2 s3 H1 H2 H3) as Hrule.
  destruct (Qgeb _ 0.75).
  - destruct Hrule as (q & Hq & _ & _ & _ & Hd & Hs & Ht & _).
    assert (p = q) as -> by congruence. auto.
  - congruence.
Qed.

Lemma predict_with_model_ids
    (self : LSTMPredictor.t) (m : LSTMPredictor.Model)
    (features : list (list Q))
    (device_id session_id : string) (now : Q) (p : SignalDropPrediction) :
  LSTMPredictor._predict_with_model self m features device_id session_id now
  = Some p ->
  p_device_id p = device_id /\ p_session_id p = session_id
  /\ p_timestamp p = now.
Proof.
  unfold LSTMPredictor._predict_with_model.
  destruct (m features) as [q|]; [|discriminate].
  destruct (last features ≫= _) as [b|]; [|discriminate].
  destruct (Qgeb q settings.PREDICTION_THRESHOLD); [|discriminate].
  destruct (LSTMPredictor._estimate_time_to_drop self features) as [e|t];
    [discriminate|].
  cbn [mbind Exc_bind].
  match goal with
  | |- match ?m with inl _ => _ | inr _ => _ end = _ -> _ =>
      destruct m as [e|r] eqn:Hnew; [discriminate|]
  end.
  intros [= <-].
  apply new_SignalDropPrediction_inv in Hnew as (-> & _). auto.
Qed.

Lemma predictor_prediction_ids
    (self : LSTMPredictor.t) (history : list NetworkTelemetry)
    (device_id session_id : string) (now : Q) (p : SignalDropPrediction) :
  LSTMPredictor.predict_signal_drop self history device_id session_id now
  = inr (Some p) ->
  p_device_id p = device_id /\ p_session_id p = session_id
  /\ p_timestamp p = now.
Proof.
  unfold LSTMPredictor.predict_signal_drop.
  destruct (length history <? LSTMPredictor.sequence_length)%nat;
    [discriminate|].
  destruct (LSTMPredictor.model self) as [m|].
  - intros [= H]. eapply predict_with_model_ids. exact H.
  - apply predict_with_heuristic_ids.
Qed.

Lemma agent_consistent_init (predictor : LSTMPredictor.t) :
  agent_consistent (NetworkSentryAgent.init predictor).
Proof.
  split; intros key x H; simpl in H; rewrite lookup_empty in H; discriminate.
Qed.

Lemma agent_consistent_ingest
    (self : NetworkSentryAgent.t) (point : NetworkTelemetry) :
  agent_consistent self ->
  agent_consistent (fst (NetworkSentryAgent.ingest_telemetry self point)).
Proof.
  intros [Hbuffer Hcache]. split; [|exact Hcache].
  intros key points Hkey.
  pose proof (ingest_telemetry_buffer self point key) as Hnew.
  rewrite Hkey in Hnew.
  change (default [] (Some points)) with points in Hnew.
  unfold point_key in Hnew.
  assert (Hold :
    (length (default [] (NetworkSentryAgent.telemetry_buffer self !! key))
     <= 100)%nat
    /\ Forall (fun p => NetworkSentryAgent.session_key
                          (t_device_id p) (t_session_id p) = key)
         (default [] (NetworkSentryAgent.telemetry_buffer self !! key))).
  { destruct (NetworkSentryAgent.telemetry_buffer self !! key) as [old|] eqn:Hold;
      simpl; [apply (Hbuffer key old Hold) | split; [lia | constructor]]. }
  destruct (decide (NetworkSentryAgent.session_key (t_device_id point)
                      (t_session_id point) = key)) as [Heq|Hne];
    rewrite Hnew.
  - split; [apply slice_last_length; lia|].
    unfold slice_last. apply Forall_drop. apply Forall_app. split.
    + apply Hold.
    + constructor; [exact Heq | constructor].
  - exact Hold.
Qed.

Lemma agent_consistent_ingest_all
    (points : list NetworkTelemetry) (self : NetworkSentryAgent.t) :
  agent_consistent self -> agent_consistent (ingest_all self points).
Proof.
  revert self. induction points as [|point points IH]; intros self H.
  - exact H.
  - apply (IH _ (agent_consistent_ingest self point H)).
Qed.

Lemma agent_consistent_predict
    (self : NetworkSentryAgent.t) (device_id session_id : string)
    (recent : option (list NetworkTelemetry)) (now : Q) :
  agent_consistent self ->
  agent_consistent
    (fst (NetworkSentryAgent.predict_signal_drop self device_id session_id
            recent now)).
Proof.
  intros [Hbuffer Hcache].
  unfold NetworkSentryAgent.predict_signal_drop,
    NetworkSentryAgent._get_cached_prediction.
  set (key := NetworkSentryAgent.session_key device_id session_id).
  assert (Hevicted : agent_consistent
    {| NetworkSentryAgent.predictor := NetworkSentryAgent.predictor self;
       NetworkSentryAgent.telemetry_buffer := NetworkSentryAgent.telemetry_buffer self;
       NetworkSentryAgent.prediction_cache :=
         delete key (NetworkSentryAgent.prediction_cache self) |}).
  { split; [exact Hbuffer|]. simpl. intros k p Hk.
    apply lookup_delete_Some in Hk as [_ Hk]. apply (Hcache k p Hk). }
  assert (Hstep : forall agent : NetworkSentryAgent.t,
    agent_consistent agent ->
    agent_consistent
      (fst (let recent_telemetry :=
              match recent with
              | Some l => l
              | None => NetworkSentryAgent.get_recent_telemetry agent
                          device_id session_id 30
              end in
            if (length recent_telemetry <? 5)%nat then
              (agent, {| prediction := None;
                         should_prepare_transition := false;
                         recommended_action := "COLLECT_MORE_DATA" |})
            else
              match LSTMPredictor.predict_signal_drop
                      (NetworkSentryAgent.predictor agent)
                      recent_telemetry device_id session_id now with
              | inl _ =>
                  (agent, {| prediction := None;
                             should_prepare_transition := false;
                             recommended_action := "ERROR" |})
              | inr (Some p) =>
                  match last recent_telemetry with
                  | Some current =>
                      (NetworkSentryAgent._cache_prediction agent key p,
                       {| prediction := Some p;
                          should_prepare_transition := true;
                          recommended_action :=
                            NetworkSentryAgent._determine_recommended_action
                              p current |})
                  | None =>
                      (NetworkSentryAgent._cache_prediction agent key p,
                       {| prediction := None;
                          should_prepare_transition := false;
                          recommended_action := "ERROR" |})
                  end
              | inr None =>
                  (agent, {| prediction := None;
                             should_prepare_transition := false;
                             recommended_action := "CONTINUE_MONITORING" |})
              end))).
  { intros agent [Hb Hc]. cbv zeta.
    destruct (length _ <? 5)%nat; [split; assumption|].
    destruct (LSTMPredictor.predict_signal_drop _ _ _ _ _)
      as [e|[p|]] eqn:Hp; [split; assumption| |split; assumption].
    apply predictor_prediction_ids in Hp as (Hd & Hs & _).
    assert (agent_consistent
              (NetworkSentryAgent._cache_prediction agent key p)).
    { split; [exact Hb|]. simpl. intros k q Hk.
      apply lookup_insert_Some in Hk as [[<- <-] | [_ Hk]].
      - subst key. rewrite Hd, Hs. reflexivity.
      - apply (Hc k q Hk). }
    destruct (last _); assumption. }
  destruct (NetworkSentryAgent.prediction_cache self !! key) as [cached|].
  - destruct (Qltb _ _).
    + simpl. split; assumption.
    + apply Hstep. exact Hevicted.
  - apply Hstep. split; assumption.
Qed.

Lemma agent_consistent_clear
    (self : NetworkSentryAgent.t) (device_id session_id : string) :
  agent_consistent self ->
  agent_consistent
    (NetworkSentryAgent.clear_session_data self device_id session_id).
Proof.
  intros [Hbuffer Hcache]. split; simpl.
  - intros k l Hk. apply lookup_delete_Some in Hk as [_ Hk]. eauto.
  - intros k p Hk. apply lookup_delete_Some in Hk as [_ Hk]. eauto.
Qed.

(** X2.  Whatever sequence of ingestions, batch ingestions, predictions
    and session clears an agent has served since its creation, every
    telemetry buffer holds at most 100 points, every point sits in the
    buffer of its own [device_id:session_id] key, and every cached
    prediction sits under the key of the ids it was made for. *)
Theorem agent_run_consistent
    (predictor : LSTMPredictor.t) (calls : list AgentCall) :
  agent_consistent (agent_run (NetworkSentryAgent.init predictor) calls).
Proof.
  unfold agent_run.
  generalize (agent_consistent_init predictor).
  generalize (NetworkSentryAgent.init predictor).
  induction calls as [|c calls IH]; intros agent Hagent; [exact Hagent|].
  simpl. apply IH. destruct c as [t | batch | d s recent now | d s]; simpl.
  - apply agent_consistent_ingest. exact Hagent.
  - unfold NetworkSentryAgent.ingest_telemetry_batch.
    rewrite ingest_telemetry_batch_fold.
    apply agent_consistent_ingest_all. exact Hagent.
  - apply agent_consistent_predict. exact Hagent.
  - apply agent_consistent_clear. exact Hagent.
Qed.


(** X3.  The recent-telemetry endpoint returns a suffix of the stored
    buffer, newest last.  A positive [count] gives the last [count] points
    (all of them when fewer are stored); [count = 0] gives every stored
    point, not none; a negative [count] gives all but the [-count] oldest
    points. *)
Theorem get_recent_telemetry_count
    (sentry : NetworkSentryAgent.t) (device_id session_id : string)
    (count : Z) :
  let stored :=
    default [] (NetworkSentryAgent.telemetry_buffer sentry
                  !! NetworkSentryAgent.session_key device_id session_id) in
  let result :=
    telemetry_api.get_recent_telemetry sentry device_id session_id count in
  (exists older, stored = older ++ telemetry_api.telemetry result)
  /\ telemetry_api.count result = length (telemetry_api.telemetry result)
  /\ ((0 < count)%Z ->
      telemetry_api.count result = Nat.min (Z.to_nat count) (length stored)
      /\ telemetry_api.telemetry result
         = NetworkSentryAgent.get_recent_telemetry sentry device_id session_id
             (Z.to_nat count))
  /\ (count = 0%Z -> telemetry_api.telemetry result = stored)
  /\ ((count < 0)%Z ->
      telemetry_api.telemetry result = drop (Z.to_nat (- count)) stored
      /\ telemetry_api.count result
         = (length stored - Z.to_nat (- count))%nat).
Proof.
  cbv zeta.
  unfold telemetry_api.get_recent_telemetry,
    NetworkSentryAgent.get_recent_telemetry_int,
    NetworkSentryAgent.get_recent_telemetry.
  cbn [telemetry_api.count telemetry_api.telemetry].
  set (stored :=
         default [] (NetworkSentryAgent.telemetry_buffer sentry
                       !! NetworkSentryAgent.session_key device_id session_id)).
  unfold slice_last_int.
  split.
  { destruct (0 <? count)%Z.
    - exists (take (length stored - Z.to_nat count) stored).
      symmetry. apply take_drop.
    - exists (take (Z.to_nat (- count)) stored). symmetry. apply take_drop. }
  split; [reflexivity|].
  split.
  { intros Hpos. assert ((0 <? count)%Z = true) as -> by lia.
    rewrite length_drop. split; [lia|].
    unfold slice_last. destruct (Z.to_nat count) eqn:Hn; [lia|]. reflexivity. }
  split.
  { intros ->. reflexivity. }
  intros Hneg. assert ((0 <? count)%Z = false) as -> by lia.
  rewrite length_drop. split; reflexivity.
Qed.

Lemma get_recent_telemetry_count_witness :
  let sentry :=
    ingest_all (NetworkSentryAgent.init heuristic_predictor)
      [ telemetry_point "device_abc123" "session_xyz789" 1 0.9 100 3000;
        telemetry_point "device_abc123" "session_xyz789" 2 0.8 110 2600;
        telemetry_point "device_abc123" "session_xyz789" 3 0.7 120 2200 ] in
  ((0 < 2)%Z
   /\ telemetry_api.count
        (telemetry_api.get_recent_telemetry sentry
           "device_abc123" "session_xyz789" 2) = 2%nat)
  /\ ((-1 < 0)%Z
      /\ telemetry_api.count
           (telemetry_api.get_recent_telemetry sentry
              "device_abc123" "session_xyz789" (-1)) = 2%nat)
  /\ telemetry_api.count
       (telemetry_api.get_recent_telemetry sentry
          "device_abc123" "session_xyz789" 0) = 3%nat.
Proof.
  intros sentry.
  split; [split; [lia|]|split; [split; [lia|]|]].
  - rewrite (proj1 (proj1 (proj2 (proj2
               (get_recent_telemetry_count sentry
                  "device_abc123" "session_xyz789" 2))) ltac:(lia))).
    vm_compute. reflexivity.
  - rewrite (proj2 (proj2 (proj2 (proj2 (proj2
               (get_recent_telemetry_count sentry
                  "device_abc123" "session_xyz789" (-1))))) ltac:(lia))).
    vm_compute. reflexivity.
  - vm_compute. reflexivity.
Defined.

(** X4.  After [clear_session_data] the session has no telemetry and no
    cached prediction: reads return the empty list, a prediction asked
    from the buffer answers COLLECT_MORE_DATA, and the monitoring frequency
    is 1 Hz.  Buffers and cached predictions under every other key are
    untouched. *)
Theorem clear_session_data_forgets
    (self : NetworkSentryAgent.t) (device_id session_id : string) (now : Q) :
  let key := NetworkSentryAgent.session_key device_id session_id in
  let self' := NetworkSentryAgent.clear_session_data self device_id session_id in
  (forall count,
     NetworkSentryAgent.get_recent_telemetry self' device_id session_id count
     = [])
  /\ snd (NetworkSentryAgent._get_cached_prediction self' key now) = None
  /\ snd (NetworkSentryAgent.predict_signal_drop self' device_id session_id
            None now)
     = {| prediction := None;
          should_prepare_transition := false;
          recommended_action := "COLLECT_MORE_DATA" |}
  /\ NetworkSentryAgent.get_monitoring_frequency self' device_id session_id
     = 1%Z
  /\ (forall other,
        other <> key ->
        NetworkSentryAgent.telemetry_buffer self' !! other
        = NetworkSentryAgent.telemetry_buffer self !! other
        /\ NetworkSentryAgent.prediction_cache self' !! other
           = NetworkSentryAgent.prediction_cache self !! other).
Proof.
  intros key self'.
  assert (Hbuffer : NetworkSentryAgent.telemetry_buffer self' !! key = None)
    by apply lookup_delete_eq.
  assert (Hcache : NetworkSentryAgent.prediction_cache self' !! key = None)
    by apply lookup_delete_eq.
  assert (Hrecent : forall count,
    NetworkSentryAgent.get_recent_telemetry self' device_id session_id count
    = []).
  { intros count. unfold NetworkSentryAgent.get_recent_telemetry.
    fold key. rewrite Hbuffer. destruct count; reflexivity. }
  split; [exact Hrecent|].
  split.
  { unfold NetworkSentryAgent._get_cached_prediction. rewrite Hcache.
    reflexivity. }
  split.
  { unfold NetworkSentryAgent.predict_signal_drop,
      NetworkSentryAgent._get_cached_prediction.
    fold key. rewrite Hcache. rewrite Hrecent. reflexivity. }
  split.
  { unfold NetworkSentryAgent.get_monitoring_frequency,
      NetworkSentryAgent.should_increase_monitoring_frequency.
    rewrite Hrecent. reflexivity. }
  intros other Hne.
  split; apply lookup_delete_ne; intros Heq; apply Hne; symmetry; exact Heq.
Qed.

Lemma clear_session_data_forgets_witness :
  let sentry :=
    ingest_all (NetworkSentryAgent.init heuristic_predictor)
      [ telemetry_point "device_abc123" "session_xyz789" 1 0.9 100 3000;
        telemetry_point "device_B" "session_2" 2 0.8 110 2600 ] in
  let key := NetworkSentryAgent.session_key "device_abc123" "session_xyz789" in
  let other := NetworkSentryAgent.session_key "device_B" "session_2" in
  other <> key
  /\ NetworkSentryAgent.telemetry_buffer
       (NetworkSentryAgent.clear_session_data sentry
          "device_abc123" "session_xyz789") !! other
     = NetworkSentryAgent.telemetry_buffer sentry !! other.
Proof.
  intros sentry key other.
  assert (Hne : other <> key) by (vm_compute; discriminate).
  split; [exact Hne|].
  exact (proj1 (proj2 (proj2 (proj2 (proj2
           (clear_session_data_forgets sentry
              "device_abc123" "session_xyz789" 0)))) other Hne)).
Defined.

Lemma predict_signal_drop_cache_hit
    (self : NetworkSentryAgent.t) (device_id session_id : string)
    (recent : option (list NetworkTelemetry)) (now : Q)
    (p : SignalDropPrediction) :
  NetworkSentryAgent.prediction_cache self
    !! NetworkSentryAgent.session_key device_id session_id = Some p ->
  (now - p_timestamp p < 2)%Q ->
  NetworkSentryAgent.predict_signal_drop self device_id session_id recent now
  = (self, {| prediction := Some p;
              should_prepare_transition := true;
              recommended_action := "PREPARE_FALLBACK" |}).
Proof.
  intros Hcached Hfresh.
  unfold NetworkSentryAgent.predict_signal_drop,
    NetworkSentryAgent._get_cached_prediction.
  rewrite Hcached.
  assert (Qltb (now - p_timestamp p) NetworkSentryAgent.cache_ttl_seconds
          = true) as -> by (apply Qltb_lt; exact Hfresh).
  reflexivity.
Qed.

(** What one prediction call touches, and what it returns. *)
Lemma predict_signal_drop_cases
    (self : NetworkSentryAgent.t) (device_id session_id : string)
    (recent : option (list NetworkTelemetry)) (now : Q) :
  let key := NetworkSentryAgent.session_key device_id session_id in
  let self' :=
    fst (NetworkSentryAgent.predict_signal_drop self device_id session_id
           recent now) in
  let response :=
    snd (NetworkSentryAgent.predict_signal_drop self device_id session_id
           recent now) in
  NetworkSentryAgent.telemetry_buffer self'
  = NetworkSentryAgent.telemetry_buffer self
  /\ NetworkSentryAgent.predictor self' = NetworkSentryAgent.predictor self
  /\ (forall other, other <> key ->
        NetworkSentryAgent.prediction_cache self' !! other
        = NetworkSentryAgent.prediction_cache self !! other)
  /\ match prediction response with
     | Some p =>
         should_prepare_transition response = true
         /\ NetworkSentryAgent.prediction_cache self' !! key = Some p
         /\ (now - p_timestamp p < 2)%Q
     | None => should_prepare_transition response = false
     end.
Proof.
  cbv zeta.
  unfold NetworkSentryAgent.predict_signal_drop,
    NetworkSentryAgent._get_cached_prediction.
  set (key := NetworkSentryAgent.session_key device_id session_id).
  assert (Hnow : (now - now < 2)%Q).
  { assert (Hzero : (now - now == 0)%Q) by ring. rewrite Hzero. reflexivity. }
  destruct (NetworkSentryAgent.prediction_cache self !! key) as [cached|]
    eqn:Hcached;
    [destruct (Qltb (now - p_timestamp cached)
                 NetworkSentryAgent.cache_ttl_seconds) eqn:Hage|].
  - apply Qltb_lt in Hage. simpl. rewrite Hcached.
    repeat split; try reflexivity. exact Hage.
  - cbv zeta.
    destruct (length _ <? 5)%nat;
      [|destruct (LSTMPredictor.predict_signal_drop _ _ _ _ _)
          as [e|[p|]] eqn:Hp; [| destruct (last _) |]];
      cbn [fst snd prediction should_prepare_transition
           NetworkSentryAgent.telemetry_buffer NetworkSentryAgent.predictor
           NetworkSentryAgent.prediction_cache
           NetworkSentryAgent._cache_prediction];
      (split; [reflexivity|]); (split; [reflexivity|]);
      (split; [intros other Hne;
               rewrite ?lookup_insert_ne by (intros Heq; apply Hne; symmetry; exact Heq);
               apply lookup_delete_ne; intros Heq; apply Hne; symmetry; exact Heq|]);
      try reflexivity.
    apply predictor_prediction_ids in Hp as (_ & _ & ->).
    split; [reflexivity|]. split; [apply lookup_insert_eq | exact Hnow].
  - cbv zeta.
    destruct (length _ <? 5)%nat;
      [|destruct (LSTMPredictor.predict_signal_drop _ _ _ _ _)
          as [e|[p|]] eqn:Hp; [| destruct (last _) |]];
      cbn [fst snd prediction should_prepare_transition
           NetworkSentryAgent.telemetry_buffer NetworkSentryAgent.predictor
           NetworkSentryAgent.prediction_cache
           NetworkSentryAgent._cache_prediction];
      (split; [reflexivity|]); (split; [reflexivity|]);
      (split; [intros other Hne;
               rewrite ?lookup_insert_ne by (intros Heq; apply Hne; symmetry; exact Heq);
               reflexivity|]);
      try reflexivity.
    apply predictor_prediction_ids in Hp as (_ & _ & ->).
    split; [reflexivity|]. split; [apply lookup_insert_eq | exact Hnow].
Qed.

(** X5.  Once a prediction call has returned a prediction, every further
    call for the same ids made before that prediction is 2 seconds old
    returns the same prediction, whatever telemetry it is given, with the
    action PREPARE_FALLBACK, and leaves the agent as it is. *)
Theorem predict_signal_drop_memoised
    (self : NetworkSentryAgent.t) (device_id session_id : string)
    (recent1 recent2 : option (list NetworkTelemetry)) (now1 now2 : Q)
    (p : SignalDropPrediction) :
  let first :=
    NetworkSentryAgent.predict_signal_drop self device_id session_id
      recent1 now1 in
  prediction (snd first) = Some p ->
  (now2 - p_timestamp p < 2)%Q ->
  NetworkSentryAgent.predict_signal_drop (fst first) device_id session_id
    recent2 now2
  = (fst first, {| prediction := Some p;
                   should_prepare_transition := true;
                   recommended_action := "PREPARE_FALLBACK" |}).
Proof.
  intros first Hfirst Hfresh.
  apply predict_signal_drop_cache_hit; [|exact Hfresh].
  pose proof (predict_signal_drop_cases self device_id session_id
                recent1 now1) as (_ & _ & _ & H).
  fold first in H. rewrite Hfirst in H. apply H.
Qed.

Lemma predict_signal_drop_memoised_witness :
  let sentry := NetworkSentryAgent.init heuristic_predictor in
  let latencies := [100; 110; 120; 130; 140; 150; 160; 170; 180; 190]%Z in
  let first :=
    NetworkSentryAgent.predict_signal_drop sentry
      "device_abc123" "session_xyz789" (Some (scenario_A latencies))
      1709251210 in
  exists p,
    prediction (snd first) = Some p
    /\ (1709251211 - p_timestamp p < 2)%Q
    /\ snd (NetworkSentryAgent.predict_signal_drop (fst first)
              "device_abc123" "session_xyz789" (Some []) 1709251211)
       = {| prediction := Some p;
            should_prepare_transition := true;
            recommended_action := "PREPARE_FALLBACK" |}.
Proof.
  intros sentry latencies first.
  let v := eval vm_compute in (prediction (snd first)) in
  match v with
  | Some ?q => exists q; set (p := q)
  end.
  assert (Hfirst : prediction (snd first) = Some p)
    by (vm_compute; reflexivity).
  assert (Hfresh : (1709251211 - p_timestamp p < 2)%Q)
    by (vm_compute; reflexivity).
  split; [exact Hfirst|]. split; [exact Hfresh|].
  exact (f_equal snd
           (predict_signal_drop_memoised sentry
              "device_abc123" "session_xyz789" (Some (scenario_A latencies))
              (Some []) 1709251210 1709251211 p Hfirst Hfresh)).
Defined.

(** X6.  A prediction call never changes the telemetry buffers or the
    predictor, and touches the prediction cache under its own key only.
    It sets [should_prepare_transition] exactly when it returns a
    prediction, and a returned prediction is less than 2 seconds old and
    is the cache entry of the key afterwards. *)
Theorem predict_signal_drop_footprint
    (self : NetworkSentryAgent.t) (device_id session_id : string)
    (recent : option (list NetworkTelemetry)) (now : Q) :
  let key := NetworkSentryAgent.session_key device_id session_id in
  let self' :=
    fst (NetworkSentryAgent.predict_signal_drop self device_id session_id
           recent now) in
  let response :=
    snd (NetworkSentryAgent.predict_signal_drop self device_id session_id
           recent now) in
  NetworkSentryAgent.telemetry_buffer self'
  = NetworkSentryAgent.telemetry_buffer self
  /\ NetworkSentryAgent.predictor self' = NetworkSentryAgent.predictor self
  /\ (forall other, other <> key ->
        NetworkSentryAgent.prediction_cache self' !! other
        = NetworkSentryAgent.prediction_cache self !! other)
  /\ (should_prepare_transition response = true
      <-> is_Some (prediction response))
  /\ (forall p, prediction response = Some p ->
                (now - p_timestamp p < 2)%Q
                /\ NetworkSentryAgent.prediction_cache self' !! key = Some p).
Proof.
  intros key self' response.
  pose proof (predict_signal_drop_cases self device_id session_id recent now)
    as (Hbuffer & Hpredictor & Hother & Hresponse).
  fold key self' response in Hbuffer, Hpredictor, Hother, Hresponse.
  split; [exact Hbuffer|]. split; [exact Hpredictor|].
  split; [exact Hother|].
  destruct (prediction response) as [p|].
  - destruct Hresponse as (Hprepare & Hcached & Hfresh). split.
    + split; [eauto | intros _; exact Hprepare].
    + intros q [= <-]. split; assumption.
  - split.
    + rewrite Hresponse. split; [discriminate | intros [q Hq]; discriminate].
    + discriminate.
Qed.

Lemma predict_signal_drop_footprint_witness :
  let sentry :=
    NetworkSentryAgent._cache_prediction
      (NetworkSentryAgent.init heuristic_predictor)
      (NetworkSentryAgent.session_key "device_B" "session_2")
      (cached_prediction 100) in
  let other := NetworkSentryAgent.session_key "device_B" "session_2" in
  let latencies := [100; 110; 120; 130; 140; 150; 160; 170; 180; 190]%Z in
  let sentry' :=
    fst (NetworkSentryAgent.predict_signal_drop sentry
           "device_abc123" "session_xyz789" (Some (scenario_A latencies))
           1709251210) in
  other <> NetworkSentryAgent.session_key "device_abc123" "session_xyz789"
  /\ NetworkSentryAgent.prediction_cache sentry' !! other
     = NetworkSentryAgent.prediction_cache sentry !! other.
Proof.
  intros sentry other latencies sentry'.
  assert (Hne : other <> NetworkSentryAgent.session_key
                           "device_abc123" "session_xyz789")
    by (vm_compute; discriminate).
  split; [exact Hne|].
  exact (proj1 (proj2 (proj2
           (predict_signal_drop_footprint sentry
              "device_abc123" "session_xyz789"
              (Some (scenario_A latencies)) 1709251210))) other Hne).
Defined.

Lemma last_slice_last {A : Type} (n : nat) (l : list A) :
  (0 < n)%nat -> last (slice_last n l) = last l.
Proof.
  intros Hn. destruct n as [|n]; [lia|]. unfold slice_last.
  destruct l as [|x l _] using rev_ind; [reflexivity|].
  rewrite length_app. simpl.
  rewrite drop_app_le by lia. rewrite !last_snoc. reflexivity.
Qed.

(** X7.  The monitoring-frequency endpoint answers 1 Hz with an interval
    of 1000 ms or 4 Hz with an interval of 250 ms, and nothing else.  A
    session without stored telemetry gets 1 Hz; a latest point with a
    velocity of at least 60 km/h gets 4 Hz however few points are stored;
    with fewer than 5 stored points and a slower latest point the answer
    is 1 Hz, because the variance test is skipped. *)
Theorem monitoring_frequency_rule
    (sentry : NetworkSentryAgent.t) (device_id session_id : string) :
  let stored :=
    default [] (NetworkSentryAgent.telemetry_buffer sentry
                  !! NetworkSentryAgent.session_key device_id session_id) in
  let answer :=
    telemetry_api.get_monitoring_frequency sentry device_id session_id in
  (telemetry_api.frequency_hz answer = 1%Z
   /\ telemetry_api.interval_ms answer = 1000%Z
   \/ telemetry_api.frequency_hz answer = 4%Z
      /\ telemetry_api.interval_ms answer = 250%Z)
  /\ (stored = [] -> telemetry_api.frequency_hz answer = 1%Z)
  /\ (forall latest,
        last stored = Some latest ->
        (60 <= t_gps_velocity_kmh latest)%Q ->
        telemetry_api.frequency_hz answer = 4%Z)
  /\ (forall latest,
        last stored = Some latest ->
        (t_gps_velocity_kmh latest < 60)%Q ->
        (length stored < 5)%nat ->
        telemetry_api.frequency_hz answer = 1%Z).
Proof.
  cbv zeta.
  unfold telemetry_api.get_monitoring_frequency,
    NetworkSentryAgent.get_monitoring_frequency,
    NetworkSentryAgent.should_increase_monitoring_frequency,
    NetworkSentryAgent.get_recent_telemetry.
  cbn [telemetry_api.frequency_hz telemetry_api.interval_ms].
  set (stored :=
         default [] (NetworkSentryAgent.telemetry_buffer sentry
                       !! NetworkSentryAgent.session_key device_id session_id)).
  rewrite (last_slice_last 5) by lia.
  split.
  { destruct (match last stored with Some _ => _ | None => _ end);
      [right | left]; split; reflexivity. }
  split.
  { intros ->. reflexivity. }
  split.
  { intros latest -> Hfast.
    assert (Qgeb (t_gps_velocity_kmh latest) settings.HIGH_SPEED_THRESHOLD_KMH
            = true) as ->.
    { apply Qgeb_ge. eapply Qle_trans; [|exact Hfast]. discriminate. }
    reflexivity. }
  intros latest -> Hslow Hfew.
  assert (Qgeb (t_gps_velocity_kmh latest) settings.HIGH_SPEED_THRESHOLD_KMH
          = false) as ->.
  { apply Qgeb_lt. eapply Qlt_le_trans; [exact Hslow|]. discriminate. }
  assert ((5 <=? length (slice_last 5 stored))%nat = false) as ->.
  { apply Nat.leb_gt. rewrite slice_last_short by lia. exact Hfew. }
  reflexivity.
Qed.

Lemma Qgtb_le (x y : Q) : Qgtb x y = false <-> (x <= y)%Q.
Proof. apply (Qltb_ge y x). Qed.

Lemma square_within (d w : Q) :
  (- w <= d)%Q -> (d <= w)%Q -> (d * d <= w * w)%Q.
Proof. intros H1 H2. nra. Qed.

Lemma signal_variance_steady (x1 x2 x3 x4 x5 lo : Q) :
  (lo <= x1 <= lo + 0.3)%Q -> (lo <= x2 <= lo + 0.3)%Q ->
  (lo <= x3 <= lo + 0.3)%Q -> (lo <= x4 <= lo + 0.3)%Q ->
  (lo <= x5 <= lo + 0.3)%Q ->
  (NetworkSentryAgent.signal_variance [x1; x2; x3; x4; x5] <= 0.1)%Q.
Proof.
  intros [L1 U1] [L2 U2] [L3 U3] [L4 U4] [L5 U5].
  unfold NetworkSentryAgent.signal_variance, Qsum. cbn [map foldr length].
  set (m := ((x1 + (x2 + (x3 + (x4 + (x5 + 0))))) / inject_Z (Z.of_nat 5))%Q).
  assert (Hm : (5 * m == x1 + x2 + x3 + x4 + x5)%Q).
  { subst m. simpl. field. }
  clearbody m.
  assert (Lm : (lo <= m)%Q) by lra.
  assert (Um : (m <= lo + 0.3)%Q) by lra.
  pose proof (square_within (x1 - m) 0.3 ltac:(lra) ltac:(lra)) as S1.
  pose proof (square_within (x2 - m) 0.3 ltac:(lra) ltac:(lra)) as S2.
  pose proof (square_within (x3 - m) 0.3 ltac:(lra) ltac:(lra)) as S3.
  pose proof (square_within (x4 - m) 0.3 ltac:(lra) ltac:(lra)) as S4.
  pose proof (square_within (x5 - m) 0.3 ltac:(lra) ltac:(lra)) as S5.
  set (s1 := ((x1 - m) * (x1 - m))%Q) in *.
  set (s2 := ((x2 - m) * (x2 - m))%Q) in *.
  set (s3 := ((x3 - m) * (x3 - m))%Q) in *.
  set (s4 := ((x4 - m) * (x4 - m))%Q) in *.
  set (s5 := ((x5 - m) * (x5 - m))%Q) in *.
  clearbody s1 s2 s3 s4 s5.
  change (inject_Z (Z.of_nat 5)) with 5%Q.
  apply Qle_shift_div_r; [reflexivity | lra].
Qed.

(** X8.  With at least 5 stored points and a latest velocity below
    60 km/h, the agent stays at 1 Hz whenever the last 5 signal strengths
    lie within a band of width 0.3: such a window cannot reach the
    variance of 0.1 that counts as instability. *)
Theorem monitoring_frequency_steady_signal
    (sentry : NetworkSentryAgent.t) (device_id session_id : string) (lo : Q) :
  let stored :=
    default [] (NetworkSentryAgent.telemetry_buffer sentry
                  !! NetworkSentryAgent.session_key device_id session_id) in
  (5 <= length stored)%nat ->
  (from_option t_gps_velocity_kmh 0 (last stored) < 60)%Q ->
  Forall (fun point => (lo <= t_signal_strength point <= lo + 0.3)%Q)
         (slice_last 5 stored) ->
  NetworkSentryAgent.get_monitoring_frequency sentry device_id session_id
  = 1%Z.
Proof.
  cbv zeta.
  unfold NetworkSentryAgent.get_monitoring_frequency,
    NetworkSentryAgent.should_increase_monitoring_frequency,
    NetworkSentryAgent.get_recent_telemetry.
  set (stored :=
         default [] (NetworkSentryAgent.telemetry_buffer sentry
                       !! NetworkSentryAgent.session_key device_id session_id)).
  intros Hlen Hslow Hband.
  rewrite (last_slice_last 5) by lia.
  assert (Hfive : length (slice_last 5 stored) = 5%nat).
  { unfold slice_last. rewrite length_drop. lia. }
  destruct (last stored) as [latest|] eqn:Hlast; [|reflexivity].
  assert (Qgeb (t_gps_velocity_kmh latest) settings.HIGH_SPEED_THRESHOLD_KMH
          = false) as ->.
  { apply Qgeb_lt. eapply Qlt_le_trans; [exact Hslow|]. discriminate. }
  rewrite Hfive. cbn [Nat.leb].
  destruct (slice_last 5 stored) as [|p1 [|p2 [|p3 [|p4 [|p5 [|p6 rest]]]]]];
    try discriminate Hfive.
  apply Forall_cons in Hband as [H1 Hband].
  apply Forall_cons in Hband as [H2 Hband].
  apply Forall_cons in Hband as [H3 Hband].
  apply Forall_cons in Hband as [H4 Hband].
  apply Forall_cons in Hband as [H5 _].
  cbn [map].
  assert (Qgtb (NetworkSentryAgent.signal_variance
                  [t_signal_strength p1; t_signal_strength p2;
                   t_signal_strength p3; t_signal_strength p4;
                   t_signal_strength p5]) 0.1 = false) as ->.
  { apply Qgtb_le. apply (signal_variance_steady _ _ _ _ _ lo); assumption. }
  reflexivity.
Qed.

Lemma monitoring_frequency_rule_witness :
  let fast :=
    {| t_device_id := "device_abc123"; t_session_id := "session_xyz789";
       t_timestamp := 1; t_signal_strength := 0.9; t_latency_ms := 100;
       t_packet_loss_percent := 2.5; t_bandwidth_kbps := 3000;
       t_gps_velocity_kmh := 80.0; t_location_hash := None;
       t_content_id := None; t_content_position := None |} in
  let slow := telemetry_point "device_B" "session_2" 1 0.9 100 3000 in
  let sentry :=
    ingest_all (NetworkSentryAgent.init heuristic_predictor) [fast; slow] in
  (telemetry_api.frequency_hz
     (telemetry_api.get_monitoring_frequency sentry "nobody" "nothing")
   = 1%Z)
  /\ ((60 <= t_gps_velocity_kmh fast)%Q
      /\ telemetry_api.frequency_hz
           (telemetry_api.get_monitoring_frequency sentry
              "device_abc123" "session_xyz789") = 4%Z)
  /\ ((t_gps_velocity_kmh slow < 60)%Q
      /\ telemetry_api.frequency_hz
           (telemetry_api.get_monitoring_frequency sentry
              "device_B" "session_2") = 1%Z).
Proof.
  intros fast slow sentry.
  split; [|split].
  - apply (proj1 (proj2 (monitoring_frequency_rule sentry "nobody" "nothing"))).
    vm_compute. reflexivity.
  - assert (Hfast : (60 <= t_gps_velocity_kmh fast)%Q)
      by (vm_compute; discriminate).
    split; [exact Hfast|].
    apply (proj1 (proj2 (proj2 (monitoring_frequency_rule sentry
                                  "device_abc123" "session_xyz789"))) fast);
      [vm_compute; reflexivity | exact Hfast].
  - assert (Hslow : (t_gps_velocity_kmh slow < 60)%Q)
      by (vm_compute; reflexivity).
    split; [exact Hslow|].
    apply (proj2 (proj2 (proj2 (monitoring_frequency_rule sentry
                                  "device_B" "session_2"))) slow);
      [vm_compute; reflexivity | exact Hslow | vm_compute; lia].
Defined.

Lemma monitoring_frequency_steady_signal_witness :
  let sentry :=
    ingest_all (NetworkSentryAgent.init heuristic_predictor)
      [ telemetry_point "device_abc123" "session_xyz789" 1 0.50 100 3000;
        telemetry_point "device_abc123" "session_xyz789" 2 0.75 100 3000;
        telemetry_point "device_abc123" "session_xyz789" 3 0.60 100 3000;
        telemetry_point "device_abc123" "session_xyz789" 4 0.80 100 3000;
        telemetry_point "device_abc123" "session_xyz789" 5 0.55 100 3000;
        telemetry_point "device_abc123" "session_xyz789" 6 0.70 100 3000 ] in
  let stored :=
    default [] (NetworkSentryAgent.telemetry_buffer sentry
                  !! NetworkSentryAgent.session_key
                       "device_abc123" "session_xyz789") in
  (5 <= length stored)%nat
  /\ (from_option t_gps_velocity_kmh 0 (last stored) < 60)%Q
  /\ Forall (fun point => (0.5 <= t_signal_strength point <= 0.5 + 0.3)%Q)
        (slice_last 5 stored)
  /\ NetworkSentryAgent.get_monitoring_frequency sentry
       "device_abc123" "session_xyz789" = 1%Z.
Proof.
  intros sentry stored.
  assert (Hlen : (5 <= length stored)%nat) by (vm_compute; lia).
  assert (Hslow : (from_option t_gps_velocity_kmh 0 (last stored) < 60)%Q)
    by (vm_compute; reflexivity).
  assert (Hband :
    Forall (fun point => (0.5 <= t_signal_strength point <= 0.5 + 0.3)%Q)
      (slice_last 5 stored)).
  { vm_compute slice_last.
    repeat (constructor; [split; vm_compute; discriminate|]). constructor. }
  split; [exact Hlen|]. split; [exact Hslow|]. split; [exact Hband|].
  exact (monitoring_frequency_steady_signal sentry
           "device_abc123" "session_xyz789" 0.5 Hlen Hslow Hband).
Defined.

(* ===================================================================== *)
(** * Further properties: the predictor *)
(* ===================================================================== *)

Lemma clamped_time_range (lo hi x : Q) :
  (lo <= hi)%Q ->
  (lo <= Qmax lo (Qmin hi x))%Q /\ (Qmax lo (Qmin hi x) <= hi)%Q.
Proof.
  intros Hle. split.
  - apply Q.le_max_l.
  - apply Q.max_lub; [exact Hle | apply Q.le_min_l].
Qed.

(** When numpy fits, [_estimate_time_to_drop] stays between 0.5 seconds
    and the prediction horizon. *)
Lemma estimate_time_to_drop_bounds
    (self : LSTMPredictor.t) (features : list (list Q)) (time_to_drop : Q) :
  LSTMPredictor._estimate_time_to_drop self features = inr time_to_drop ->
  (0.5 <= time_to_drop)%Q /\ (time_to_drop <= 5)%Q.
Proof.
  unfold LSTMPredictor._estimate_time_to_drop. cbv zeta.
  destruct (2 <=? length _)%nat;
    [|intros [= <-]; split; discriminate].
  destruct (LSTMPredictor.polyfit self _) as [e|trend]; [discriminate|].
  cbn [mbind Exc_bind].
  destruct (Qltb trend 0); [|intros [= <-]; split; discriminate].
  destruct (Qgtb _ 0.2); [|intros [= <-]; split; discriminate].
  intros [= <-]. apply clamped_time_range. discriminate.
Qed.

(** X9.  Without a loaded model the predictor raises exactly when the
    history has at least 10 points and numpy raises on one of the three
    series of the 10 most recent points; nothing else in the heuristic
    can fail.  A prediction it returns carries the ids and the clock
    reading of the call, a confidence between 0.75 and 1, a time to drop
    between 0.5 and 5 seconds, a predicted bandwidth that is not
    negative, the horizon 5 and the predictor type "heuristic", so the
    constructor of [SignalDropPrediction] never rejects it. *)
Theorem heuristic_predictor_raises_with_numpy
    (self : LSTMPredictor.t) (telemetry_history : list NetworkTelemetry)
    (device_id session_id : string) (now : Q) :
  LSTMPredictor.model self = None ->
  let window := slice_last 10 telemetry_history in
  let fit := LSTMPredictor.polyfit self in
  let result :=
    LSTMPredictor.predict_signal_drop self telemetry_history
      device_id session_id now in
  ((exists e, result = inl e)
   <-> (10 <= length telemetry_history)%nat
       /\ exists e, fit (signal_series window) = inl e
                    \/ fit (bandwidth_series window) = inl e
                    \/ fit (latency_series window) = inl e)
  /\ forall p, result = inr (Some p) ->
       (0.75 <= p_confidence p)%Q /\ (p_confidence p <= 1)%Q
       /\ (0.5 <= p_predicted_time_seconds p)%Q
       /\ (p_predicted_time_seconds p <= 5)%Q
       /\ (0 <= p_predicted_bandwidth_kbps p)%Q
       /\ p_device_id p = device_id /\ p_session_id p = session_id
       /\ p_timestamp p = now
       /\ p_prediction_horizon_seconds p = 5%Z
       /\ p_predictor_type p = "heuristic".
Proof.
  intros Hmodel window fit result.
  subst result. unfold LSTMPredictor.predict_signal_drop.
  unfold LSTMPredictor.sequence_length. fold window. rewrite Hmodel.
  destruct (Nat.ltb_spec (length telemetry_history) 10) as [Hshort|Hlong].
  { split.
    - split; [intros [e He]; discriminate He | intros [Hlen _]; lia].
    - discriminate. }
  split.
  { rewrite <- (predict_with_heuristic_raises self window device_id
                  session_id now).
    subst fit. split; [intros H; split; [exact Hlong | exact H]|].
    intros [_ H]. exact H. }
  intros p Hp.
  destruct (fit (signal_series window)) as [e1|s1] eqn:H1.
  { exfalso.
    destruct (proj1 (predict_with_heuristic_raises self window device_id
                       session_id now)) as [e He]; [eauto|]. congruence. }
  destruct (fit (bandwidth_series window)) as [e2|s2] eqn:H2.
  { exfalso.
    destruct (proj1 (predict_with_heuristic_raises self window device_id
                       session_id now)) as [e He]; [eauto|]. congruence. }
  destruct (fit (latency_series window)) as [e3|s3] eqn:H3.
  { exfalso.
    destruct (proj1 (predict_with_heuristic_raises self window device_id
                       session_id now)) as [e He]; [eauto 6|]. congruence. }
  pose proof (predict_with_heuristic_rule self window device_id session_id
                now s1 s2 s3 H1 H2 H3) as Hrule.
  destruct (Qgeb _ 0.75); [|congruence].
  destruct Hrule as (q & Hq & _ & [Hlow Hhigh] & Htype & Hd & Hs & Ht
                     & Hhorizon & [Ht1 Ht2] & Hbandwidth).
  assert (p = q) as -> by congruence.
  repeat split; assumption.
Qed.

Lemma heuristic_predictor_raises_with_numpy_witness :
  let latencies := [100; 110; 120; 130; 140; 150; 160; 170; 180; 190]%Z in
  LSTMPredictor.model heuristic_predictor = None
  /\ exists p,
       LSTMPredictor.predict_signal_drop heuristic_predictor
         (scenario_A latencies) "device_abc123" "session_xyz789" 1709251210
       = inr (Some p)
       /\ (0.75 <= p_confidence p)%Q
       /\ (p_predicted_time_seconds p <= 5)%Q.
Proof.
  intros latencies.
  assert (Hmodel : LSTMPredictor.model heuristic_predictor = None)
    by reflexivity.
  split; [exact Hmodel|].
  let v := eval vm_compute in
    (LSTMPredictor.predict_signal_drop heuristic_predictor
       (scenario_A latencies) "device_abc123" "session_xyz789" 1709251210) in
  match v with
  | inr (Some ?q) => exists q; set (p := q)
  end.
  assert (Hp : LSTMPredictor.predict_signal_drop heuristic_predictor
                 (scenario_A latencies) "device_abc123" "session_xyz789"
                 1709251210 = inr (Some p))
    by (vm_compute; reflexivity).
  split; [exact Hp|].
  pose proof (proj2 (heuristic_predictor_raises_with_numpy
                       heuristic_predictor (scenario_A latencies)
                       "device_abc123" "session_xyz789" 1709251210 Hmodel)
                p Hp) as (Hlow & _ & _ & Htime & _).
  split; [exact Hlow | exact Htime].
Defined.

Lemma slice_last_app_exact {A : Type} (n : nat) (older window : list A) :
  length window = n -> (0 < n)%nat -> slice_last n (older ++ window) = window.
Proof.
  intros Hlen Hn. destruct n as [|n]; [lia|]. unfold slice_last.
  rewrite length_app, Hlen.
  replace (length older + S n - S n)%nat with (length older) by lia.
  apply drop_app_length.
Qed.

(** X10.  The predictor looks at the 10 most recent points only: any
    older points in front of them change nothing, with or without a loaded
    model. *)
Theorem predict_signal_drop_last_ten
    (self : LSTMPredictor.t) (older window : list NetworkTelemetry)
    (device_id session_id : string) (now : Q) :
  length window = 10%nat ->
  LSTMPredictor.predict_signal_drop self (older ++ window)
    device_id session_id now
  = LSTMPredictor.predict_signal_drop self window device_id session_id now.
Proof.
  intros Hlen. unfold LSTMPredictor.predict_signal_drop.
  unfold LSTMPredictor.sequence_length.
  assert ((length (older ++ window) <? 10)%nat = false) as ->
    by (apply Nat.ltb_ge; rewrite length_app; lia).
  assert ((length window <? 10)%nat = false) as ->
    by (apply Nat.ltb_ge; lia).
  rewrite (slice_last_app_exact 10) by (assumption || lia).
  rewrite (slice_last_short 10 window) by lia.
  reflexivity.
Qed.

Lemma predict_signal_drop_last_ten_witness :
  let window :=
    scenario_A [100; 110; 120; 130; 140; 150; 160; 170; 180; 190]%Z in
  let older :=
    [ telemetry_point "device_abc123" "session_xyz789" 1709251190 0.2 900 100;
      telemetry_point "device_abc123" "session_xyz789" 1709251195 0.3 800 150 ]
  in
  length window = 10%nat
  /\ LSTMPredictor.predict_signal_drop heuristic_predictor (older ++ window)
       "device_abc123" "session_xyz789" 1709251210
     = LSTMPredictor.predict_signal_drop heuristic_predictor window
         "device_abc123" "session_xyz789" 1709251210.
Proof.
  intros window older.
  assert (Hlen : length window = 10%nat) by reflexivity.
  split; [exact Hlen|].
  exact (predict_signal_drop_last_ten heuristic_predictor older window
           "device_abc123" "session_xyz789" 1709251210 Hlen).
Defined.

Lemma last_map_Some {A B : Type} (f : A -> B) (l : list A) (x : A) :
  last l = Some x -> last (map f l) = Some (f x).
Proof.
  destruct l as [|y l _] using rev_ind; [discriminate|].
  rewrite last_snoc. intros [= ->]. rewrite map_app. simpl.
  apply last_snoc.
Qed.

(** With two rows or more, [_estimate_time_to_drop] raises exactly when
    numpy does. *)
Lemma estimate_time_to_drop_cases
    (self : LSTMPredictor.t) (features : list (list Q)) :
  (2 <= length features)%nat ->
  match LSTMPredictor.polyfit self
          (Floats (map (fun row => nth 0 row 0%Q) features)) with
  | inl e => LSTMPredictor._estimate_time_to_drop self features = inl e
  | inr _ =>
      exists time_to_drop,
        LSTMPredictor._estimate_time_to_drop self features = inr time_to_drop
  end.
Proof.
  intros Hlen. unfold LSTMPredictor._estimate_time_to_drop. cbv zeta.
  rewrite length_map.
  assert ((2 <=? length features)%nat = true) as -> by (apply Nat.leb_le; lia).
  destruct (LSTMPredictor.polyfit self _) as [e|slope]; [reflexivity|].
  cbn [mbind Exc_bind].
  destruct (Qltb slope 0); [|eauto].
  destruct (Qgtb _ 0.2); eauto.
Qed.

(** X11.  With a loaded model, at least 10 points and latencies that fit
    a 64-bit integer, the predictor never raises and never consults the
    heuristic.  It returns a prediction exactly when the model answers
    with a probability between 0.75 and 1 and numpy fits the trend of the
    normalised signal column.  The prediction then carries that
    probability as its confidence, the predictor type "lstm", a time to
    drop between 0.5 and 5 seconds and a predicted bandwidth that is not
    negative.  When the model raises, answers below 0.75 or above 1, or
    numpy raises, the result is [None]: the [try] swallows the
    exception. *)
Theorem predict_with_loaded_model
    (self : LSTMPredictor.t) (m : LSTMPredictor.Model)
    (telemetry_history : list NetworkTelemetry)
    (device_id session_id : string) (now : Q) :
  LSTMPredictor.model self = Some m ->
  (10 <= length telemetry_history)%nat ->
  Forall (fun point => (t_latency_ms point < 2 ^ 63)%Z) telemetry_history ->
  let window := slice_last 10 telemetry_history in
  let features := LSTMPredictor.prepare_features window in
  let answer := m features in
  let trend :=
    LSTMPredictor.polyfit self
      (Floats (map (fun row => nth 0 row 0%Q) features)) in
  let result :=
    LSTMPredictor.predict_signal_drop self telemetry_history
      device_id session_id now in
  (exists outcome, result = inr outcome)
  /\ (answer = None -> result = inr None)
  /\ (forall q, answer = Some q -> (q < 0.75)%Q \/ (1 < q)%Q ->
                result = inr None)
  /\ (forall e, trend = inl e -> result = inr None)
  /\ (forall q slope,
        answer = Some q -> (0.75 <= q)%Q -> (q <= 1)%Q ->
        trend = inr slope ->
        exists p,
          result = inr (Some p)
          /\ p_confidence p = q
          /\ p_predictor_type p = "lstm"
          /\ (0.5 <= p_predicted_time_seconds p)%Q
          /\ (p_predicted_time_seconds p <= 5)%Q
          /\ (0 <= p_predicted_bandwidth_kbps p)%Q
          /\ p_device_id p = device_id /\ p_session_id p = session_id).
Proof.
  intros Hmodel Hlen _ window features answer trend result.
  assert (Hwindow : length window = 10%nat).
  { subst window. unfold slice_last. rewrite length_drop. lia. }
  assert (Hresult :
    result = inr (LSTMPredictor._predict_with_model self m features
                    device_id session_id now)).
  { subst result. unfold LSTMPredictor.predict_signal_drop.
    destruct (Nat.ltb_spec (length telemetry_history)
                LSTMPredictor.sequence_length) as [Hlt|_].
    - unfold LSTMPredictor.sequence_length in Hlt. lia.
    - rewrite Hmodel. reflexivity. }
  assert (Hrows : (2 <= length features)%nat).
  { subst features. unfold LSTMPredictor.prepare_features.
    rewrite length_map. lia. }
  pose proof (estimate_time_to_drop_cases self features Hrows) as Hestimate.
  fold trend in Hestimate.
  assert (Hfeature : exists feature,
            last features ≫= (fun row => row !! 3%nat) = Some feature).
  { subst features. unfold LSTMPredictor.prepare_features.
    destruct (last window) as [latest|] eqn:Hlast.
    - rewrite (last_map_Some _ _ _ Hlast). simpl. eauto.
    - apply last_None in Hlast. rewrite Hlast in Hwindow. discriminate. }
  destruct Hfeature as [feature Hfeature].
  rewrite Hresult. clear Hresult result.
  unfold LSTMPredictor._predict_with_model. fold answer.
  rewrite Hfeature.
  split; [eauto|].
  split; [intros ->; reflexivity|].
  split.
  { intros q -> Hout.
    destruct (Qgeb q settings.PREDICTION_THRESHOLD) eqn:Hthreshold;
      [|reflexivity].
    apply Qgeb_ge in Hthreshold.
    destruct Hout as [Hlow | Hhigh].
    - exfalso. apply (Qlt_irrefl q).
      eapply Qlt_le_trans; [exact Hlow | exact Hthreshold].
    - destruct (LSTMPredictor._estimate_time_to_drop self features)
        as [e|t]; [reflexivity|].
      cbn [mbind Exc_bind].
      destruct (new_SignalDropPrediction _ _ _ _ _ _ _ _ _ _)
        as [e|p] eqn:Hnew; [reflexivity|].
      apply new_SignalDropPrediction_inv in Hnew as (_ & [_ Hone] & _).
      exfalso. apply (Qlt_irrefl q).
      eapply Qle_lt_trans; [exact Hone | exact Hhigh]. }
  split.
  { intros e He. rewrite He in Hestimate. rewrite Hestimate.
    destruct answer as [q|]; [|reflexivity].
    destruct (Qgeb q settings.PREDICTION_THRESHOLD); reflexivity. }
  intros q slope -> Hge Hle Hslope.
  assert (Qgeb q settings.PREDICTION_THRESHOLD = true) as ->
    by (apply Qgeb_ge; exact Hge).
  rewrite Hslope in Hestimate. destruct Hestimate as [t Htime].
  rewrite Htime.
  destruct (estimate_time_to_drop_bounds _ _ _ Htime) as [Ht1 Ht2].
  cbn [mbind Exc_bind].
  rewrite new_SignalDropPrediction_valid.
  - eexists. split; [reflexivity|].
    cbn [p_confidence p_predictor_type p_predicted_time_seconds
         p_predicted_bandwidth_kbps p_device_id p_session_id].
    split; [reflexivity|]. split; [reflexivity|].
    split; [exact Ht1|]. split; [exact Ht2|].
    split; [apply Q.le_max_l|]. split; reflexivity.
  - eapply Qle_trans; [|exact Hge]. discriminate.
  - exact Hle.
  - eapply Qle_trans; [|exact Ht1]. discriminate.
  - eapply Qle_trans; [exact Ht2|]. discriminate.
  - apply Q.le_max_l.
Qed.

Lemma predict_with_loaded_model_witness :
  let history :=
    scenario_A [100; 110; 120; 130; 140; 150; 160; 170; 180; 190]%Z in
  let m : LSTMPredictor.Model := fun _ => Some 0.8%Q in
  let self :=
    {| LSTMPredictor.model := Some m;
       LSTMPredictor.polyfit := exact_polyfit |} in
  LSTMPredictor.model self = Some m
  /\ (10 <= length history)%nat
  /\ Forall (fun point => (t_latency_ms point < 2 ^ 63)%Z) history
  /\ m (LSTMPredictor.prepare_features (slice_last 10 history)) = Some 0.8%Q
  /\ (0.75 <= 0.8)%Q /\ (0.8 <= 1)%Q
  /\ exists p,
       LSTMPredictor.predict_signal_drop self
         history "device_abc123" "session_xyz789" 1709251210
       = inr (Some p)
       /\ p_confidence p = 0.8%Q
       /\ p_predictor_type p = "lstm".
Proof.
  intros history m self.
  assert (Hmodel : LSTMPredictor.model self = Some m) by reflexivity.
  assert (Hlen : (10 <= length history)%nat) by (simpl; lia).
  assert (Hfit : Forall (fun point => (t_latency_ms point < 2 ^ 63)%Z)
                   history)
    by (repeat constructor).
  assert (Hge : (0.75 <= 0.8)%Q) by (vm_compute; discriminate).
  assert (Hle : (0.8 <= 1)%Q) by (vm_compute; discriminate).
  split; [exact Hmodel|]. split; [exact Hlen|]. split; [exact Hfit|].
  split; [reflexivity|].
  split; [exact Hge|]. split; [exact Hle|].
  destruct (proj2 (proj2 (proj2 (proj2
              (predict_with_loaded_model self m history
                 "device_abc123" "session_xyz789" 1709251210
                 Hmodel Hlen Hfit))))
              0.8%Q _ eq_refl Hge Hle eq_refl)
    as (p & Hp & Hconf & Htype & _).
  exists p. split; [exact Hp|]. split; [exact Hconf | exact Htype].
Defined.

(* ===================================================================== *)
(** * Further properties: the orchestrator *)
(* ===================================================================== *)

Lemma Modality_value_inj (m1 m2 : Modality) :
  Modality_value m1 = Modality_value m2 -> m1 = m2.
Proof. destruct m1, m2; simpl; intros H; congruence. Qed.

(** One successful update keeps an entry well formed, and creates a well
    formed entry for a session that has none. *)
Lemma update_session_state_wellformed
    (states : SessionStates) (sid dev cid : string) (m1 m2 : Modality)
    (pos now : Q) (status : ModalityStatus) :
  (forall old, states !! sid = Some old -> entry_wellformed sid old) ->
  _update_session_state states sid dev cid m1 m2 pos true now !! sid
  = Some status ->
  entry_wellformed sid status.
Proof.
  intros Hold. unfold _update_session_state.
  destruct (states !! sid) as [old|] eqn:Hlookup.
  - destruct (Hold old eq_refl) as (Hid & Hbuf & Hfail & Hsucc & Hpos & Hlen & Hall).
    destruct (decide (m1 <> m2)) as [Hne|Heq]; cbv zeta beta iota;
      rewrite lookup_insert_eq; intros [= <-]; unfold entry_wellformed;
      cbn [st_session_id st_total_buffering_events st_failed_transitions
           st_successful_transitions st_transition_count
           st_transition_history].
    + split; [exact Hid|]. split; [exact Hbuf|]. split; [exact Hfail|].
      split; [lia|]. split; [lia|].
      assert (Hentry : Forall (fun entry => tr_success entry = true
                                 /\ tr_from entry <> tr_to entry)
                (st_transition_history old ++
                 [ {| tr_from := Modality_value m1;
                      tr_to := Modality_value m2;
                      tr_timestamp := now;
                      tr_position := pos;
                      tr_success := true |} ])).
      { apply Forall_app. split; [exact Hall|].
        apply Forall_cons. split; [|apply Forall_nil; exact I].
        simpl. split; [reflexivity|].
        intros Heq. apply Hne. apply Modality_value_inj. exact Heq. }
      destruct (Nat.ltb_spec 10
                  (length (st_transition_history old ++
                     [ {| tr_from := Modality_value m1;
                          tr_to := Modality_value m2;
                          tr_timestamp := now;
                          tr_position := pos;
                          tr_success := true |} ]))) as [Hlong|Hshort].
      * split.
        -- unfold slice_last. rewrite length_drop.
           rewrite length_app in *. simpl in *. lia.
        -- unfold slice_last. apply Forall_drop. exact Hentry.
      * split; [|exact Hentry].
        rewrite length_app in *. simpl in *. lia.
    + repeat (split; [assumption|]). exact Hall.
  - destruct (decide (m1 <> m2)) as [Hne|Heq]; cbv zeta beta iota;
      rewrite lookup_insert_eq; intros [= <-]; unfold entry_wellformed;
      cbn [st_session_id st_total_buffering_events st_failed_transitions
           st_successful_transitions st_transition_count
           st_transition_history].
    + repeat (split; [reflexivity || lia|]).
      simpl. apply Forall_cons. split; [|apply Forall_nil; exact I].
      simpl. split; [reflexivity|].
      intros Heq. apply Hne. apply Modality_value_inj. exact Heq.
    + repeat (split; [reflexivity || lia|]). apply Forall_nil. exact I.
Qed.

Lemma decision_call_wellformed
    (build_prompt : DecisionContext -> string)
    (states : SessionStates) (c : DecisionCall) :
  (forall key status, states !! key = Some status ->
                      entry_wellformed key status) ->
  forall key status,
    fst (decision_call build_prompt states c) !! key = Some status ->
    entry_wellformed key status.
Proof.
  intros Hstates key status.
  destruct (decide (call_session c = key)) as [<-|Hne].
  - destruct c as [request client elapsed now | request now]; simpl.
    + unfold decide_modality_transition.
      destruct (decide_try build_prompt request client elapsed); simpl.
      * apply Hstates.
      * apply update_session_state_wellformed. apply Hstates.
    + rewrite handle_panic_signal_state.
      apply update_session_state_wellformed. apply Hstates.
  - rewrite decision_call_other by exact Hne. apply Hstates.
Qed.

Lemma api_call_wellformed
    (build_prompt : DecisionContext -> string)
    (states : SessionStates) (c : ApiCall) :
  (forall key status, states !! key = Some status ->
                      entry_wellformed key status) ->
  forall key status,
    fst (api_call build_prompt states c) !! key = Some status ->
    entry_wellformed key status.
Proof.
  intros Hstates key status.
  destruct c as [c | session_id | session_id]; simpl.
  - pose proof (decision_call_wellformed build_prompt states c Hstates
                  key status) as H.
    destruct (decision_call build_prompt states c). exact H.
  - apply Hstates.
  - unfold clear_session. destruct (states !! session_id); [|apply Hstates].
    intros Hlookup. apply lookup_delete_Some in Hlookup as [_ Hlookup].
    apply Hstates. exact Hlookup.
Qed.

(** X12.  Whatever calls of [decide_modality_transition],
    [handle_panic_signal], [get_session_status] and [clear_session] a
    fresh orchestrator has served, every entry of its session table sits
    under its own session id, has never counted a buffering event or a
    failed transition, has as many successful transitions as transitions,
    a history of [min(transition_count, 10)] entries, and only successful
    entries between two different modalities in that history. *)
Theorem session_entries_wellformed
    (build_prompt : DecisionContext -> string)
    (calls : list ApiCall) (key : string) (status : ModalityStatus) :
  api_run build_prompt ∅ calls !! key = Some status ->
  entry_wellformed key status.
Proof.
  revert key status.
  induction calls as [|c calls IH] using rev_ind; intros key status.
  - unfold api_run. simpl. rewrite lookup_empty. discriminate.
  - unfold api_run. rewrite foldl_app. cbn [foldl].
    apply api_call_wellformed. exact IH.
Qed.

Lemma session_entries_wellformed_witness :
  let calls :=
    [ CallDecision
        (HandlePanic
           (panic_request "device_abc123" "session_xyz789" VIDEO 200 0.5 125)
           1);
      CallClear "session_other";
      CallDecision
        (Decide
           (decision_request "device_abc123" "session_xyz789" TEXT_SUMMARY
              1200 0.5 130)
           (Some Raises) 5 2);
      CallStatus "session_xyz789" ] in
  exists status,
    api_run modality_prompt ∅ calls !! "session_xyz789" = Some status
    /\ st_transition_count status = 2%Z
    /\ entry_wellformed "session_xyz789" status.
Proof.
  intros calls. eexists.
  split; [vm_compute; reflexivity|].
  split; [reflexivity|].
  refine (session_entries_wellformed modality_prompt calls
            "session_xyz789" _ _).
  vm_compute; reflexivity.
Defined.

(** X13.  After [clear_session] the status endpoint answers 404 for the
    session; clearing a session that has no entry changes nothing and
    does not fail; and the next deciding call of the session starts it
    afresh: the entry it leaves is the one it would leave on an
    orchestrator that has never served a call. *)
Theorem clear_session_starts_afresh
    (build_prompt : DecisionContext -> string)
    (states : SessionStates) (session_id : string) :
  let cleared := modality_api.clear_session_state states session_id in
  modality_api.get_modality_status cleared session_id
  = inl HTTP_404_NOT_FOUND
  /\ (get_session_status states session_id = None -> cleared = states)
  /\ (forall c, call_session c = session_id ->
        get_session_status (fst (decision_call build_prompt cleared c))
          session_id
        = get_session_status (fst (decision_call build_prompt ∅ c))
            session_id).
Proof.
  intros cleared.
  assert (Hgone : cleared !! session_id = None).
  { subst cleared.
    unfold modality_api.clear_session_state, clear_session.
    destruct (states !! session_id) eqn:Hlookup.
    - apply lookup_delete_eq.
    - exact Hlookup. }
  split.
  - unfold modality_api.get_modality_status, get_session_status.
    rewrite Hgone. reflexivity.
  - split.
    + unfold get_session_status. intros Hnone. subst cleared.
      unfold modality_api.clear_session_state, clear_session.
      rewrite Hnone. reflexivity.
    + intros c <-. unfold get_session_status.
      apply decision_call_local. rewrite Hgone, lookup_empty. reflexivity.
Qed.

Lemma clear_session_starts_afresh_witness :
  let first := panic_request "device_A" "session_1" VIDEO 200 0.5 10 in
  let second := panic_request "device_A" "session_1" TEXT_SUMMARY 1500 5.0 20 in
  let states := fst (handle_panic_signal ∅ first 1) in
  let cleared := modality_api.clear_session_state states "session_1" in
  let c := HandlePanic second 2 in
  call_session c = "session_1"
  /\ get_session_status (fst (decision_call modality_prompt cleared c))
       "session_1"
     = get_session_status (fst (decision_call modality_prompt ∅ c))
         "session_1"
  /\ st_transition_count
       <$> get_session_status (fst (decision_call modality_prompt cleared c))
             "session_1" = Some 0%Z.
Proof.
  intros first second states cleared c.
  assert (Hsession : call_session c = "session_1") by reflexivity.
  split; [exact Hsession|].
  split.
  - exact (proj2 (proj2 (clear_session_starts_afresh modality_prompt states
                           "session_1")) c Hsession).
  - vm_compute. reflexivity.
Defined.

(** X14.  An entry keeps the device id and the content id of the call that
    created it: a later deciding call of the session, whatever device and
    content it names and whether or not its oracle call fails, leaves an
    entry with the same session id, device id, content id and buffering
    count. *)
Theorem session_entry_keeps_first_ids
    (build_prompt : DecisionContext -> string)
    (states : SessionStates) (c : DecisionCall) (old : ModalityStatus) :
  states !! call_session c = Some old ->
  exists status,
    fst (decision_call build_prompt states c) !! call_session c = Some status
    /\ st_session_id status = st_session_id old
    /\ st_device_id status = st_device_id old
    /\ st_content_id status = st_content_id old
    /\ st_total_buffering_events status = st_total_buffering_events old.
Proof.
  intros Hold.
  assert (Hupdate : forall sid dev cid m1 m2 pos now,
            states !! sid = Some old ->
            exists status,
              _update_session_state states sid dev cid m1 m2 pos true now
                !! sid = Some status
              /\ st_session_id status = st_session_id old
              /\ st_device_id status = st_device_id old
              /\ st_content_id status = st_content_id old
              /\ st_total_buffering_events status
                 = st_total_buffering_events old).
  { intros sid dev cid m1 m2 pos now Hsid. unfold _update_session_state.
    rewrite Hsid.
    destruct (decide (m1 <> m2)); cbv zeta beta iota;
      rewrite lookup_insert_eq; eexists; (split; [reflexivity|]);
      repeat split. }
  destruct c as [request client elapsed now | request now]; simpl in *.
  - unfold decide_modality_transition.
    destruct (decide_try build_prompt request client elapsed); simpl.
    + exists old. repeat split. exact Hold.
    + apply Hupdate. exact Hold.
  - rewrite handle_panic_signal_state. apply Hupdate. exact Hold.
Qed.

Lemma session_entry_keeps_first_ids_witness :
  let first := panic_request "device_A" "session_1" VIDEO 1500 5.0 10 in
  let second := panic_request "device_B" "session_1" VIDEO 200 0.5 99 in
  let states := fst (handle_panic_signal ∅ first 1) in
  let c := HandlePanic second 2 in
  exists old status,
    states !! call_session c = Some old
    /\ fst (decision_call modality_prompt states c) !! call_session c
       = Some status
    /\ st_device_id old = "device_A"
    /\ st_device_id status = "device_A".
Proof.
  intros first second states c.
  let v := eval vm_compute in (states !! call_session c) in
  match v with
  | Some ?q => exists q; set (old := q)
  end.
  assert (Hold : states !! call_session c = Some old)
    by (vm_compute; reflexivity).
  destruct (session_entry_keeps_first_ids modality_prompt states c old Hold)
    as (status & Hstatus & _ & Hdevice & _).
  exists status. split; [exact Hold|]. split; [exact Hstatus|].
  split; [reflexivity|]. rewrite Hdevice. reflexivity.
Defined.

(** X15.  Every response of a deciding call satisfies the constraints of
    [ModalityDecisionResponse]: its confidence lies between 0 and 1 and it
    carries a processing time, on the oracle path, on both fallback paths
    and on the panic path. *)
Theorem decision_response_valid
    (build_prompt : DecisionContext -> string)
    (states : SessionStates) (c : DecisionCall) :
  let response := snd (decision_call build_prompt states c) in
  (0 <= decision_confidence response <= 1)%Q
  /\ is_Some (processing_time_ms response).
Proof.
  destruct c as [request client elapsed now | request now]; simpl.
  - unfold decide_modality_transition.
    destruct (decide_try build_prompt request client elapsed)
      as [e|response] eqn:Htry; simpl.
    + unfold _get_safe_fallback_decision.
      destruct (Qgeb _ _); [|destruct (Qgeb _ _)]; simpl;
        (split; [split; discriminate | eauto]).
    + unfold decide_try in Htry.
      destruct (get_modality_decision build_prompt client _) as [e|d];
        [discriminate Htry|].
      cbn [mbind Exc_bind] in Htry. cbv zeta in Htry.
      destruct (Modality_of _) as [e|tm]; [discriminate Htry|].
      cbn [mbind Exc_bind] in Htry.
      destruct (TransitionTiming_of _) as [e|tt]; [discriminate Htry|].
      cbn [mbind Exc_bind] in Htry.
      destruct (dict_typed d); [|discriminate Htry].
      unfold new_ModalityDecisionResponse in Htry.
      destruct (Qleb 0.0 _) eqn:Hlow; [|discriminate Htry].
      destruct (Qleb _ 1.0) eqn:Hhigh; [|discriminate Htry].
      simpl in Htry. injection Htry as <-. simpl.
      apply Qleb_le in Hlow, Hhigh. split; [|eauto]. split.
      * eapply Qle_trans; [|exact Hlow]. discriminate.
      * eapply Qle_trans; [exact Hhigh|]. discriminate.
  - unfold handle_panic_signal.
    destruct (Qltb _ _ || Qltb _ _); [|destruct (Qltb _ _)]; simpl;
      (split; [split; discriminate | eauto]).
Qed.

(* ===================================================================== *)
(** * Further properties: the Bedrock client *)
(* ===================================================================== *)

(** X16.  The processing time that [decide_modality_transition] reports
    for a request whose prompt can be built: 300 ms without a client (the
    mock), the time measured by [invoke_model] when the model answers a
    well-formed decision object (whatever the object itself says), and the
    time measured by the orchestrator when the client absorbs a failure.
    When the [try] block raises, because the prompt cannot be built or
    because of the answer, it is the constant 5 ms. *)
Theorem decide_processing_time
    (build_prompt : DecisionContext -> string)
    (states : SessionStates) (request : ModalityDecisionRequest)
    (client : BedrockClient) (elapsed_ms : Z) (now : Q) :
  let response :=
    snd (decide_modality_transition build_prompt states request client
           elapsed_ms now) in
  (~ prompt_fails request -> client = None ->
   processing_time_ms response = Some 300%Z)
  /\ (~ prompt_fails request ->
      forall d ms, client = Some (Answers (JsonObject d) ms) ->
      ~ malformed d -> processing_time_ms response = Some ms)
  /\ (~ prompt_fails request -> absorbed_by_client client ->
      processing_time_ms response = Some elapsed_ms)
  /\ (prompt_fails request \/ raised_into_decide client ->
      processing_time_ms response = Some 5%Z).
Proof.
  cbv zeta. split; [|split; [|split]].
  - intros Hkey ->.
    apply (decide_without_client build_prompt states request elapsed_ms now
             Hkey).
  - intros Hkey d ms -> Hwell.
    apply (decide_object build_prompt states request d ms elapsed_ms now
             Hkey Hwell).
  - intros Hkey Habsorbed.
    destruct (decide_try_absorbed build_prompt request client elapsed_ms
                Hkey Habsorbed) as (r & Hr & _ & _ & _ & _ & _ & Htime).
    unfold decide_modality_transition. rewrite Hr. exact Htime.
  - intros Hraised.
    apply (decide_try_raises_iff build_prompt request client elapsed_ms)
      in Hraised as [e He].
    rewrite (decide_raised build_prompt states request client elapsed_ms
               now e He).
    unfold _get_safe_fallback_decision.
    destruct (Qgeb _ _); [|destruct (Qgeb _ _)]; reflexivity.
Qed.

Lemma decide_processing_time_witness :
  let request :=
    decision_request "device_abc123" "session_xyz789" VIDEO 700 0.5 120.5 in
  let d :=
    {| dd_target_modality := Some "AUDIO";
       dd_transition_timing := Some "WAIT_2S";
       dd_reasoning := Some "Bandwidth too low for video.";
       dd_fallback_strategy := None;
       dd_decision_confidence := Some 0.9%Q;
       dd_model_used := None;
       dd_processing_time_ms := Some 1%Z |} in
  ~ prompt_fails request
  /\ ~ malformed d
  /\ processing_time_ms
       (snd (decide_modality_transition modality_prompt ∅ request
               (Some (Answers (JsonObject d) 450)) 460 1))
     = Some 450%Z
  /\ absorbed_by_client (Some Raises)
  /\ processing_time_ms
       (snd (decide_modality_transition modality_prompt ∅ request
               (Some Raises) 460 1))
     = Some 460%Z
  /\ raised_into_decide (Some (Answers JsonOther 450))
  /\ processing_time_ms
       (snd (decide_modality_transition modality_prompt ∅ request
               (Some (Answers JsonOther 450)) 460 1))
     = Some 5%Z.
Proof.
  intros request d.
  assert (Hkey : ~ prompt_fails request) by (vm_compute; discriminate).
  assert (Hwell : ~ malformed d).
  { intros [H | [H | H]].
    - vm_compute in H. discriminate H.
    - vm_compute in H. discriminate H.
    - apply H. vm_compute. split; discriminate. }
  assert (Habsorbed : absorbed_by_client (Some Raises))
    by (left; reflexivity).
  assert (Hraised : raised_into_decide (Some (Answers JsonOther 450)))
    by (exists 450%Z; left; reflexivity).
  split; [exact Hkey|].
  split; [exact Hwell|].
  split.
  { exact (proj1 (proj2 (decide_processing_time modality_prompt ∅ request
                           (Some (Answers (JsonObject d) 450)) 460 1))
             Hkey d 450%Z eq_refl Hwell). }
  split; [exact Habsorbed|].
  split.
  { exact (proj1 (proj2 (proj2 (decide_processing_time modality_prompt ∅
                                  request (Some Raises) 460 1)))
             Hkey Habsorbed). }
  split; [exact Hraised|].
  exact (proj2 (proj2 (proj2 (decide_processing_time modality_prompt ∅
                                request (Some (Answers JsonOther 450))
                                460 1)))
           (or_intror Hraised)).
Defined.

(** X17.  The request body of [invoke_model] never carries a zero
    [max_tokens], a zero temperature or an empty system prompt: Python's
    [or] and [if] take these for missing, so a caller that asks for
    temperature 0 or 0 tokens gets the configured defaults, and an empty
    system prompt is left out.  Every other value is passed on, and the
    prompt is the single user message. *)
Theorem request_body_defaults
    (prompt : string) (system_prompt : option string)
    (max_tokens : option Z) (temperature : option Q) :
  let body :=
    invoke_model_request_body prompt system_prompt max_tokens temperature in
  rb_max_tokens body <> 0%Z
  /\ ~ (rb_temperature body == 0)%Q
  /\ rb_system body <> Some EmptyString
  /\ rb_messages body = [("user", prompt)]
  /\ (forall n, max_tokens = Some n -> n <> 0%Z -> rb_max_tokens body = n)
  /\ (forall t, temperature = Some t -> ~ (t == 0)%Q ->
                rb_temperature body = t)
  /\ (forall text, system_prompt = Some text -> text <> EmptyString ->
                   rb_system body = Some text)
  /\ (max_tokens = Some 0%Z -> rb_max_tokens body = 4096%Z)
  /\ (forall t, temperature = Some t -> (t == 0)%Q ->
                rb_temperature body = 0.7%Q).
Proof.
  cbv zeta. unfold invoke_model_request_body.
  cbn [rb_max_tokens rb_temperature rb_system rb_messages].
  split.
  { unfold Z_or. destruct max_tokens as [n|].
    - destruct (Z.eqb_spec n 0) as [_|Hne]; [discriminate | exact Hne].
    - discriminate. }
  split.
  { unfold Q_or. destruct temperature as [t|].
    - destruct (Qeq_bool t 0) eqn:Hzero.
      + discriminate.
      + intros Heq. apply Qeq_bool_iff in Heq. congruence.
    - discriminate. }
  split.
  { destruct system_prompt as [text|]; [|discriminate].
    destruct (String.eqb_spec text EmptyString) as [_|Hne]; [discriminate|].
    intros [= Heq]. apply Hne. exact Heq. }
  split; [reflexivity|].
  split.
  { intros n -> Hne. unfold Z_or.
    destruct (Z.eqb_spec n 0); [contradiction | reflexivity]. }
  split.
  { intros t -> Hne. unfold Q_or.
    destruct (Qeq_bool t 0) eqn:Hzero; [|reflexivity].
    exfalso. apply Hne. apply Qeq_bool_iff. exact Hzero. }
  split.
  { intros text -> Hne.
    destruct (String.eqb_spec text EmptyString); [contradiction | reflexivity]. }
  split.
  { intros ->. reflexivity. }
  intros t -> Hzero. unfold Q_or.
  apply Qeq_bool_iff in Hzero. rewrite Hzero. reflexivity.
Qed.

Lemma request_body_defaults_witness :
  let body :=
    invoke_model_request_body "Determine the optimal content modality"
      (Some EmptyString) (Some 0%Z) (Some 0.0%Q) in
  (0.0 == 0)%Q
  /\ rb_max_tokens body = 4096%Z
  /\ rb_temperature body = 0.7%Q
  /\ rb_system body = None.
Proof.
  intros body.
  assert (Hzero : (0.0 == 0)%Q) by reflexivity.
  split; [exact Hzero|].
  split.
  { exact (proj1 (proj2 (proj2 (proj2 (proj2 (proj2 (proj2 (proj2
             (request_body_defaults "Determine the optimal content modality"
                (Some EmptyString) (Some 0%Z) (Some 0.0%Q))))))))) eq_refl). }
  split.
  { exact (proj2 (proj2 (proj2 (proj2 (proj2 (proj2 (proj2 (proj2
             (request_body_defaults "Determine the optimal content modality"
                (Some EmptyString) (Some 0%Z) (Some 0.0%Q)))))))))
             0.0%Q eq_refl Hzero). }
  reflexivity.
Defined.

(* ===================================================================== *)
(** * Further properties: validated requests *)
(* ===================================================================== *)

(** The buffer of a key after a sequence of single ingests, on any
    agent. *)
Lemma ingest_all_buffer
    (self : NetworkSentryAgent.t) (points : list NetworkTelemetry)
    (key : string) :
  default [] (NetworkSentryAgent.telemetry_buffer (ingest_all self points)
                !! key)
  = match filter (fun p => point_key p = key) points with
    | [] => default [] (NetworkSentryAgent.telemetry_buffer self !! key)
    | mine =>
        slice_last 100
          (default [] (NetworkSentryAgent.telemetry_buffer self !! key)
           ++ mine)
    end.
Proof.
  induction points as [|point points IH] using rev_ind.
  - reflexivity.
  - rewrite ingest_all_snoc, ingest_telemetry_buffer, filter_app, IH.
    destruct (decide (point_key point = key)) as [Heq|Hne].
    + rewrite filter_cons_True by exact Heq. rewrite filter_nil.
      destruct (filter (fun p => point_key p = key) points) as [|p mine].
      * reflexivity.
      * cbn [app]. rewrite slice_last_snoc by lia.
        rewrite <- app_assoc. reflexivity.
    + rewrite filter_cons_False by exact Hne. rewrite filter_nil, app_nil_r.
      reflexivity.
Qed.

Lemma forallb_device (device_id : string) (telemetry : list NetworkTelemetry) :
  forallb (fun point => String.eqb (t_device_id point) device_id) telemetry
  = true ->
  Forall (fun point => t_device_id point = device_id) telemetry.
Proof.
  intros H. apply Forall_forall. intros point Hin.
  apply String.eqb_eq.
  apply (proj1 (forallb_forall _ _) H).
  apply list_elem_of_In. exact Hin.
Qed.

(** X18.  A batch that passes the validation of [TelemetryBatch] has
    between 1 and 100 points, all with the device id of the batch.  The
    batch endpoint files each of them under the session id that the point
    itself carries; the session id of the batch is not looked at.  The
    buffer of a key afterwards is its buffer before followed by the
    points of the batch that carry the ids of the key, in their order,
    cut to the last 100; a key that no point of the batch names keeps its
    buffer. *)
Theorem validated_batch_filed_by_point
    (sentry : NetworkSentryAgent.t) (device_id session_id : string)
    (telemetry : list NetworkTelemetry) (batch : TelemetryBatch) :
  new_TelemetryBatch device_id session_id telemetry = inr batch ->
  (1 <= length telemetry <= 100)%nat
  /\ Forall (fun point => t_device_id point = device_id) telemetry
  /\ b_telemetry batch = telemetry
  /\ forall key : string,
       let before :=
         default [] (NetworkSentryAgent.telemetry_buffer sentry !! key) in
       let after :=
         default []
           (NetworkSentryAgent.telemetry_buffer
              (fst (telemetry_api.submit_telemetry_batch sentry batch))
              !! key) in
       after
       = match filter (fun p => point_key p = key) telemetry with
         | [] => before
         | mine => slice_last 100 (before ++ mine)
         end.
Proof.
  unfold new_TelemetryBatch.
  destruct (Nat.leb_spec 1 (length telemetry)) as [Hlow|_];
    [|discriminate].
  destruct (Nat.leb_spec (length telemetry) 100) as [Hhigh|_];
    [|discriminate].
  cbn [andb].
  destruct (forallb _ telemetry) eqn:Hdevice; [|discriminate].
  intros [= <-]. cbn [b_telemetry].
  split; [lia|].
  split; [apply forallb_device; exact Hdevice|].
  split; [reflexivity|].
  intros key. cbv zeta.
  unfold telemetry_api.submit_telemetry_batch,
    NetworkSentryAgent.ingest_telemetry_batch.
  cbn [b_telemetry].
  rewrite ingest_telemetry_batch_fold. cbn [fst].
  apply ingest_all_buffer.
Qed.

Lemma validated_batch_filed_by_point_witness :
  let telemetry :=
    [ telemetry_point "device_abc123" "session_xyz789" 1 0.9 100 3000;
      telemetry_point "device_abc123" "session_other" 2 0.8 110 2600;
      telemetry_point "device_abc123" "session_xyz789" 3 0.7 120 2200 ] in
  let sentry := NetworkSentryAgent.init heuristic_predictor in
  exists batch,
    new_TelemetryBatch "device_abc123" "session_xyz789" telemetry = inr batch
    /\ default []
         (NetworkSentryAgent.telemetry_buffer
            (fst (telemetry_api.submit_telemetry_batch sentry batch))
            !! NetworkSentryAgent.session_key "device_abc123" "session_other")
       = [ telemetry_point "device_abc123" "session_other" 2 0.8 110 2600 ].
Proof.
  intros telemetry sentry.
  let v := eval vm_compute in
    (new_TelemetryBatch "device_abc123" "session_xyz789" telemetry) in
  match v with
  | inr ?b => exists b; set (batch := b)
  end.
  assert (Hbatch : new_TelemetryBatch "device_abc123" "session_xyz789"
                     telemetry = inr batch)
    by (vm_compute; reflexivity).
  split; [exact Hbatch|].
  rewrite (proj2 (proj2 (proj2
             (validated_batch_filed_by_point sentry
                "device_abc123" "session_xyz789" telemetry batch Hbatch)))
             (NetworkSentryAgent.session_key "device_abc123" "session_other")).
  vm_compute. reflexivity.
Defined.

(** X19.  A request that passes the validation of [PredictionRequest] has
    between 5 and 30 points, so the prediction endpoint never asks it to
    collect more data.  With 5 to 9 points and no prediction cached for
    the ids, the request is accepted but can never be predicted: the
    answer is no prediction with the action CONTINUE_MONITORING, and the
    agent is left as it was. *)
Theorem validated_prediction_request
    (sentry : NetworkSentryAgent.t) (device_id session_id : string)
    (recent_telemetry : list NetworkTelemetry) (request : PredictionRequest)
    (now : Q) :
  new_PredictionRequest device_id session_id recent_telemetry = inr request ->
  let response :=
    snd (telemetry_api.predict_signal_drop sentry request now) in
  (5 <= length recent_telemetry <= 30)%nat
  /\ recommended_action response <> "COLLECT_MORE_DATA"
  /\ ((length recent_telemetry < 10)%nat ->
      NetworkSentryAgent.prediction_cache sentry
        !! NetworkSentryAgent.session_key device_id session_id = None ->
      telemetry_api.predict_signal_drop sentry request now
      = (sentry, {| prediction := None;
                    should_prepare_transition := false;
                    recommended_action := "CONTINUE_MONITORING" |})).
Proof.
  unfold new_PredictionRequest.
  destruct (Nat.leb_spec 5 (length recent_telemetry)) as [Hlow|_];
    [|discriminate].
  destruct (Nat.leb_spec (length recent_telemetry) 30) as [Hhigh|_];
    [|discriminate].
  cbn [andb]. intros [= <-]. cbv zeta.
  unfold telemetry_api.predict_signal_drop.
  cbn [q_device_id q_session_id q_recent_telemetry].
  assert (Hfive : (length recent_telemetry <? 5)%nat = false)
    by (apply Nat.ltb_ge; exact Hlow).
  split; [lia|]. split.
  - unfold NetworkSentryAgent.predict_signal_drop.
    destruct (NetworkSentryAgent._get_cached_prediction sentry _ now)
      as [self' [cached|]].
    + discriminate.
    + rewrite Hfive.
      destruct (LSTMPredictor.predict_signal_drop _ _ _ _ _) as [e|[p|]].
      * discriminate.
      * destruct (last recent_telemetry) as [current|]; [|discriminate].
        cbn [snd recommended_action].
        unfold NetworkSentryAgent._determine_recommended_action.
        destruct (_ && _); [destruct (Qltb _ _); discriminate|].
        destruct (_ && _); [destruct (Qltb _ _); discriminate|].
        discriminate.
      * discriminate.
  - intros Hshort Hmiss.
    unfold NetworkSentryAgent.predict_signal_drop,
      NetworkSentryAgent._get_cached_prediction.
    rewrite Hmiss, Hfive.
    unfold LSTMPredictor.predict_signal_drop.
    assert ((length recent_telemetry <? LSTMPredictor.sequence_length)%nat
            = true) as ->
      by (apply Nat.ltb_lt; unfold LSTMPredictor.sequence_length; lia).
    reflexivity.
Qed.

Lemma validated_prediction_request_witness :
  let recent :=
    [ telemetry_point "device_abc123" "session_xyz789" 1 0.9 100 3000;
      telemetry_point "device_abc123" "session_xyz789" 2 0.7 110 2400;
      telemetry_point "device_abc123" "session_xyz789" 3 0.5 120 1800;
      telemetry_point "device_abc123" "session_xyz789" 4 0.3 130 1200;
      telemetry_point "device_abc123" "session_xyz789" 5 0.1 140 600 ] in
  let sentry := NetworkSentryAgent.init heuristic_predictor in
  exists request,
    new_PredictionRequest "device_abc123" "session_xyz789" recent
    = inr request
    /\ (length recent < 10)%nat
    /\ NetworkSentryAgent.prediction_cache sentry
         !! NetworkSentryAgent.session_key "device_abc123" "session_xyz789"
       = None
    /\ recommended_action
         (snd (telemetry_api.predict_signal_drop sentry request 6))
       = "CONTINUE_MONITORING".
Proof.
  intros recent sentry.
  let v := eval vm_compute in
    (new_PredictionRequest "device_abc123" "session_xyz789" recent) in
  match v with
  | inr ?r => exists r; set (request := r)
  end.
  assert (Hrequest : new_PredictionRequest "device_abc123" "session_xyz789"
                       recent = inr request)
    by (vm_compute; reflexivity).
  assert (Hshort : (length recent < 10)%nat) by (simpl; lia).
  assert (Hmiss : NetworkSentryAgent.prediction_cache sentry
                    !! NetworkSentryAgent.session_key
                         "device_abc123" "session_xyz789" = None)
    by (vm_compute; reflexivity).
  split; [exact Hrequest|]. split; [exact Hshort|]. split; [exact Hmiss|].
  rewrite (proj2 (proj2
             (validated_prediction_request sentry
                "device_abc123" "session_xyz789" recent request 6
                Hrequest)) Hshort Hmiss).
  reflexivity.
Defined.

(* ===================================================================== *)
(** * Further properties: the summary cache *)
(* ===================================================================== *)

Section SummaryCache.

Context {V : Type}.

Lemma dict_get_None (d : list (string * V)) (key : string) :
  MultiModalTransformer.dict_get d key = None <-> key ∉ map fst d.
Proof.
  induction d as [|[k v] d IH]; simpl.
  - split; [intros _; apply not_elem_of_nil | reflexivity].
  - destruct (String.eqb_spec k key) as [->|Hne].
    + split; [discriminate|]. intros Hnot. exfalso. apply Hnot. left.
    + rewrite IH. rewrite not_elem_of_cons. split.
      * intros H. split; [congruence | exact H].
      * intros [_ H]. exact H.
Qed.

Lemma dict_get_app (d1 d2 : list (string * V)) (key : string) :
  MultiModalTransformer.dict_get (d1 ++ d2) key
  = match MultiModalTransformer.dict_get d1 key with
    | Some v => Some v
    | None => MultiModalTransformer.dict_get d2 key
    end.
Proof.
  induction d1 as [|[k v] d1 IH]; simpl; [reflexivity|].
  destruct (String.eqb k key); [reflexivity | exact IH].
Qed.

Lemma dict_set_new (d : list (string * V)) (key : string) (v : V) :
  MultiModalTransformer.dict_get d key = None ->
  MultiModalTransformer.dict_set d key v = d ++ [(key, v)].
Proof.
  induction d as [|[k w] d IH]; simpl; [reflexivity|].
  destruct (String.eqb k key); [discriminate|].
  intros H. rewrite (IH H). reflexivity.
Qed.

Lemma dict_set_old (d : list (string * V)) (key : string) (v w : V) :
  MultiModalTransformer.dict_get d key = Some w ->
  map fst (MultiModalTransformer.dict_set d key v) = map fst d
  /\ length (MultiModalTransformer.dict_set d key v) = length d.
Proof.
  induction d as [|[k u] d IH]; simpl; [discriminate|].
  destruct (String.eqb k key); simpl.
  - intros _. split; reflexivity.
  - intros H. destruct (IH H) as [-> ->]. split; reflexivity.
Qed.

Lemma dict_get_set (d : list (string * V)) (key other : string) (v : V) :
  MultiModalTransformer.dict_get (MultiModalTransformer.dict_set d key v) other
  = if String.eqb key other then Some v
    else MultiModalTransformer.dict_get d other.
Proof.
  induction d as [|[k w] d IH]; simpl.
  - reflexivity.
  - destruct (String.eqb_spec k key) as [->|Hne]; simpl.
    + destruct (String.eqb key other); reflexivity.
    + destruct (String.eqb_spec k other) as [->|Hne'].
      * destruct (String.eqb_spec key other) as [->|_];
          [contradiction | reflexivity].
      * exact IH.
Qed.

Lemma dict_del_absent (d : list (string * V)) (key : string) :
  key ∉ map fst d -> MultiModalTransformer.dict_del d key = d.
Proof.
  unfold MultiModalTransformer.dict_del.
  induction d as [|[k v] d IH]; simpl; [reflexivity|].
  rewrite not_elem_of_cons. intros [Hne Hnot].
  destruct (String.eqb_spec k key) as [->|_]; [contradiction|].
  simpl. rewrite (IH Hnot). reflexivity.
Qed.

(** Deleting the first [n] keys of a dict, one after the other, drops its
    first [n] entries. *)
Lemma evict_oldest (n : nat) (d : list (string * V)) :
  NoDup (map fst d) ->
  foldl MultiModalTransformer.dict_del d (take n (map fst d)) = drop n d.
Proof.
  revert n. induction d as [|[k v] d IH]; intros n Hnodup.
  - destruct n; reflexivity.
  - destruct n as [|n]; [reflexivity|].
    simpl in Hnodup. apply NoDup_cons in Hnodup as [Hnot Hnodup].
    cbn [map fst take foldl drop].
    assert (MultiModalTransformer.dict_del ((k, v) :: d) k = d) as ->.
    { unfold MultiModalTransformer.dict_del. cbn [List.filter fst].
      rewrite String.eqb_refl. cbn [negb].
      apply (dict_del_absent d k Hnot). }
    apply IH. exact Hnodup.
Qed.

(** X20.  [_cache_summary] keeps the keys of the summary cache distinct
    and its size at most 1000, as they are from the empty cache on.  The
    summary just cached can be read back.  The
    entries that are left are those that were there: a cached summary is
    never changed by caching under another key.  Caching a new key into a
    full cache of 1000 evicts the 100 oldest entries and leaves 901;
    otherwise nothing is evicted. *)
Theorem cache_summary_bounded
    (summary_cache : list (string * V)) (cache_key : string) (summary : V) :
  NoDup (map fst summary_cache) ->
  (length summary_cache <= 1000)%nat ->
  let cache' :=
    MultiModalTransformer._cache_summary summary_cache cache_key summary in
  NoDup (map fst cache')
  /\ (length cache' <= 1000)%nat
  /\ MultiModalTransformer._get_cached_summary cache' cache_key = Some summary
  /\ (forall other v,
        other <> cache_key ->
        MultiModalTransformer._get_cached_summary cache' other = Some v ->
        MultiModalTransformer._get_cached_summary summary_cache other
        = Some v)
  /\ (length summary_cache = 1000%nat ->
      MultiModalTransformer._get_cached_summary summary_cache cache_key
      = None ->
      cache' = drop 100 summary_cache ++ [(cache_key, summary)]
      /\ length cache' = 901%nat)
  /\ ((length summary_cache < 1000)%nat
      \/ is_Some (MultiModalTransformer._get_cached_summary summary_cache
                    cache_key) ->
      cache' = MultiModalTransformer.dict_set summary_cache cache_key summary).
Proof.
  intros Hnodup Hlen. cbv zeta.
  unfold MultiModalTransformer._cache_summary,
    MultiModalTransformer._get_cached_summary.
  destruct (MultiModalTransformer.dict_get summary_cache cache_key) as [w|]
    eqn:Hget.
  - (* the key is there: its value is replaced in place *)
    destruct (dict_set_old summary_cache cache_key summary w Hget)
      as [Hkeys Hlength].
    rewrite Hlength.
    assert ((1000 <? length summary_cache)%nat = false) as ->
      by (apply Nat.ltb_ge; exact Hlen).
    split; [rewrite Hkeys; exact Hnodup|].
    split; [rewrite Hlength; exact Hlen|].
    split; [rewrite dict_get_set, String.eqb_refl; reflexivity|].
    split.
    { intros other v Hne. rewrite dict_get_set.
      destruct (String.eqb_spec cache_key other) as [->|_];
        [contradiction | tauto]. }
    split; [discriminate|]. reflexivity.
  - (* a new key goes to the end *)
    rewrite (dict_set_new summary_cache cache_key summary Hget).
    assert (Hnot : cache_key ∉ map fst summary_cache)
      by (apply dict_get_None; exact Hget).
    assert (Hnodup' : NoDup (map fst (summary_cache
                                      ++ [(cache_key, summary)]))).
    { rewrite map_app. apply NoDup_app. split; [exact Hnodup|].
      split; [|apply NoDup_singleton].
      intros k Hk Hin. simpl in Hin. apply list_elem_of_singleton in Hin.
      subst k. contradiction. }
    rewrite length_app. cbn [length].
    destruct (Nat.ltb_spec 1000 (length summary_cache + 1)) as [Hfull|Hroom].
    + assert (Hthousand : length summary_cache = 1000%nat) by lia.
      rewrite (evict_oldest 100 _ Hnodup').
      rewrite drop_app_le by lia.
      split.
      { rewrite <- (take_drop 100 summary_cache) in Hnodup'.
        rewrite <- app_assoc, map_app in Hnodup'.
        apply NoDup_app in Hnodup' as (_ & _ & H). exact H. }
      split; [rewrite length_app, length_drop; simpl; lia|].
      assert (Hdropped :
        MultiModalTransformer.dict_get (drop 100 summary_cache) cache_key
        = None).
      { apply dict_get_None. intros Hin. apply Hnot.
        rewrite <- (take_drop 100 summary_cache), map_app.
        apply elem_of_app. right. exact Hin. }
      split.
      { rewrite dict_get_app, Hdropped. simpl.
        rewrite String.eqb_refl. reflexivity. }
      split.
      { intros other v Hne. rewrite dict_get_app.
        destruct (MultiModalTransformer.dict_get (drop 100 summary_cache)
                    other) as [u|] eqn:Hu.
        - intros [= <-].
          rewrite <- (take_drop 100 summary_cache), dict_get_app.
          destruct (MultiModalTransformer.dict_get (take 100 summary_cache)
                      other) as [u'|] eqn:Hu'; [|exact Hu].
          exfalso.
          rewrite <- (take_drop 100 summary_cache), map_app in Hnodup.
          apply NoDup_app in Hnodup as (_ & Hdisjoint & _).
          apply (Hdisjoint other).
          + destruct (decide (other ∈ map fst (take 100 summary_cache)))
              as [Hin|Hout]; [exact Hin|].
            apply dict_get_None in Hout. congruence.
          + destruct (decide (other ∈ map fst (drop 100 summary_cache)))
              as [Hin|Hout]; [exact Hin|].
            apply dict_get_None in Hout. congruence.
        - simpl. destruct (String.eqb_spec cache_key other) as [->|_];
            [contradiction | discriminate]. }
      split.
      { intros _ _. split; [reflexivity|].
        rewrite length_app, length_drop. simpl. lia. }
      intros [Hlt | [u Hu]]; [lia | discriminate].
    + split; [exact Hnodup'|].
      split; [rewrite length_app; simpl; lia|].
      split.
      { rewrite dict_get_app, Hget. simpl. rewrite String.eqb_refl.
        reflexivity. }
      split.
      { intros other v Hne. rewrite dict_get_app.
        destruct (MultiModalTransformer.dict_get summary_cache other);
          [tauto|].
        simpl. destruct (String.eqb_spec cache_key other) as [->|_];
          [contradiction | discriminate]. }
      split; [intros Hthousand; lia|]. reflexivity.
Qed.

End SummaryCache.

Lemma cache_summary_bounded_witness :
  let summary_cache := [("k1", 1%Z); ("k2", 2%Z)] in
  NoDup (map fst summary_cache)
  /\ (length summary_cache <= 1000)%nat
  /\ MultiModalTransformer._get_cached_summary
       (MultiModalTransformer._cache_summary summary_cache "k1" 7%Z) "k1"
     = Some 7%Z
  /\ MultiModalTransformer._cache_summary summary_cache "k1" 7%Z
     = [("k1", 7%Z); ("k2", 2%Z)].
Proof.
  intros summary_cache.
  assert (Hnodup : NoDup (map fst summary_cache)).
  { refine (bool_decide_unpack (NoDup (map fst summary_cache)) _).
    vm_compute. exact I. }
  assert (Hlen : (length summary_cache <= 1000)%nat) by (simpl; lia).
  split; [exact Hnodup|]. split; [exact Hlen|].
  split.
  - exact (proj1 (proj2 (proj2
             (cache_summary_bounded summary_cache "k1" 7%Z Hnodup Hlen)))).
  - reflexivity.
Defined.
